(** * The conversation-flow client of the chat widget

    A shallow embedding of the flow-handling code that the three chat
    surfaces of the front-end share:

    - [src/pages/embed.tsx]                 ([EmbedChat], the iframe widget),
    - [src/components/ChatBot.tsx]          ([ChatBot], the modal preview),
    - [src/components/EmbedCustomizer.tsx]  ([PublicBotChatPage]).

    Each surface is a React component whose state is a handful of
    [useState] cells; its handlers are [async] functions.  The embedding
    keeps the cells in a record, splits every handler at its [await] into
    the part that runs at once and the part that runs when the network call
    resolves, and takes what the browser supplies ([Date.now()],
    [Math.random()], the outcome of [fetch]) as explicit arguments.

    JavaScript values are typed by the wire contract the code consumes: a
    field that may be missing is an [option], a value that is only tested
    for truthiness is a [bool].  A text is held in UTF-8: a [string] is the
    sequence of bytes that encodes the (well-formed) JavaScript string.
    Comparing, joining and testing for emptiness, and searching for or
    replacing a pattern of ASCII characters, give the same result on the
    bytes as on the characters; [trim] alone looks at characters, and
    removes the white space and line terminators of the whole of Unicode.

    A handler closes over the cells of the render it was created in.  React
    renders again before it delivers the next click or key press, so a
    handler reads the current state, and its updates, which are either
    absolute ([setIsLoading(true)]) or functions of the previous value
    ([setMessages(prev => ...)]), apply in program order.

    Besides the flow, the file covers the controls that can fire a handler
    (which of them the page shows and disables), speech input, the
    customizer's record of settings with its loading and saving, and the
    styles the embed page and the button preview derive from it.

    Left out: logging to the console, scrolling, and the loading of the bot
    record; the handlers are taken at a time when the bot they name is
    known. *)

From Stdlib Require Import String Ascii List Bool Arith NArith Lia.
From Stdlib Require Import DecimalString.
Import ListNotations.
Open Scope string_scope.
Open Scope list_scope.

(** ** JavaScript primitives used by the handlers *)

Module JS.

(** Truthiness of a string: every string but the empty one. *)
Definition truthy (s : string) : bool :=
  match s with
  | EmptyString => false
  | String _ _ => true
  end.

(** Truthiness of a possibly [undefined]/[null] string. *)
Definition truthy_opt (v : option string) : bool :=
  match v with
  | Some s => truthy s
  | None => false
  end.

(** Truthiness of a possibly [undefined] boolean. *)
Definition truthy_flag (v : option bool) : bool :=
  match v with
  | Some b => b
  | None => false
  end.

(** [a || b] on possibly missing strings. *)
Definition or_else (a b : option string) : option string :=
  if truthy_opt a then a else b.

(** [a || "literal"]. *)
Definition or_default (a : option string) (d : string) : string :=
  match a with
  | Some s => if truthy s then s else d
  | None => d
  end.

(** [a === "literal"] where [a] may be [undefined]. *)
Definition strictEq (a : option string) (lit : string) : bool :=
  match a with
  | Some s => String.eqb s lit
  | None => false
  end.

(** White space and line terminators of one byte: TAB, LF, VT, FF, CR
    and SP. *)
Definition isWhiteSpace (c : ascii) : bool :=
  match nat_of_ascii c with
  | 9 | 10 | 11 | 12 | 13 | 32 => true
  | _ => false
  end.

(** The number of bytes of the white space character or line terminator
    at the head of [s], and [0] when there is none.  Besides the six of
    one byte these are, with their UTF-8 encodings: U+00A0 (C2 A0), U+1680
    (E1 9A 80), U+2000 to U+200A (E2 80 80 to E2 80 8A), U+2028, U+2029
    and U+202F (E2 80 A8, E2 80 A9, E2 80 AF), U+205F (E2 81 9F), U+3000
    (E3 80 80) and U+FEFF (EF BB BF): the characters
    [String.prototype.trim] removes. *)
Definition whiteSpaceLength (s : string) : nat :=
  match s with
  | String c1 rest1 =>
      if isWhiteSpace c1 then 1
      else
        match rest1 with
        | String c2 rest2 =>
            let b1 := nat_of_ascii c1 in
            let b2 := nat_of_ascii c2 in
            if Nat.eqb b1 194 && Nat.eqb b2 160 then 2
            else
              match rest2 with
              | String c3 _ =>
                  let b3 := nat_of_ascii c3 in
                  if Nat.eqb b1 225 && Nat.eqb b2 154 && Nat.eqb b3 128
                     || Nat.eqb b1 226 && Nat.eqb b2 128
                        && (Nat.leb 128 b3 && Nat.leb b3 138
                            || Nat.eqb b3 168 || Nat.eqb b3 169 || Nat.eqb b3 175)
                     || Nat.eqb b1 226 && Nat.eqb b2 129 && Nat.eqb b3 159
                     || Nat.eqb b1 227 && Nat.eqb b2 128 && Nat.eqb b3 128
                     || Nat.eqb b1 239 && Nat.eqb b2 187 && Nat.eqb b3 191
                  then 3 else 0
              | EmptyString => 0
              end
        | EmptyString => 0
        end
  | EmptyString => 0
  end.

(** [skip] counts the bytes of the current white space character that are
    still to be dropped. *)
Fixpoint trimStartFrom (skip : nat) (s : string) : string :=
  match s with
  | EmptyString => EmptyString
  | String _ rest =>
      match skip with
      | S n => trimStartFrom n rest
      | O =>
          match whiteSpaceLength s with
          | O => s
          | S n => trimStartFrom n rest
          end
      end
  end.

(** [s.trimStart()] *)
Definition trimStart (s : string) : string := trimStartFrom 0 s.

Fixpoint allWhiteSpaceFrom (skip : nat) (s : string) : bool :=
  match s with
  | EmptyString => true
  | String _ rest =>
      match skip with
      | S n => allWhiteSpaceFrom n rest
      | O =>
          match whiteSpaceLength s with
          | O => false
          | S n => allWhiteSpaceFrom n rest
          end
      end
  end.

(** Nothing but white space and line terminators: the empty and the
    whitespace-only texts. *)
Definition allWhiteSpace (s : string) : bool := allWhiteSpaceFrom 0 s.

(** [s.trimEnd()]: the text ends where nothing but white space follows. *)
Fixpoint trimEnd (s : string) : string :=
  match s with
  | EmptyString => EmptyString
  | String c rest =>
      if allWhiteSpace s then EmptyString else String c (trimEnd rest)
  end.

(** [s.trim()]. *)
Definition trim (s : string) : string := trimEnd (trimStart s).

Fixpoint drop (n : nat) (s : string) : string :=
  match n, s with
  | O, _ => s
  | S _, EmptyString => EmptyString
  | S n', String _ rest => drop n' rest
  end.

(** [s.replace(pat, "")] with a string pattern: the first occurrence of
    [pat], wherever it is, is removed; later ones stay. *)
Fixpoint replaceFirst (pat s : string) : string :=
  if String.prefix pat s then drop (String.length pat) s
  else match s with
       | EmptyString => EmptyString
       | String c rest => String c (replaceFirst pat rest)
       end.

(** [occurs p s]: [p] is a substring of [s]. *)
Fixpoint occurs (p s : string) : bool :=
  String.prefix p s ||
  match s with
  | EmptyString => false
  | String _ rest => occurs p rest
  end.

(** [n.toString()] of a non-negative integer such as [Date.now()]. *)
Definition toString (n : N) : string := NilZero.string_of_uint (N.to_uint n).

End JS.

(** ** Data model *)

(** [from: "user" | "bot"] ([sender] in two of the three files). *)
Inductive Sender : Type := user | bot.

Definition Sender_eqb (a b : Sender) : bool :=
  match a, b with
  | user, user | bot, bot => true
  | _, _ => false
  end.

(** [interface Message].  The optional fields are [None] when the object
    literal that builds the message leaves them out.  [text] is called
    [content] in [ChatBot.tsx] and [EmbedCustomizer.tsx]. *)
Record Message : Type := mkMessage {
  id : string;
  sender : Sender;
  text : string;
  timestamp : N;
  showConfirmationButtons : option bool;
  showBranchOptions : option bool;
  branchOptions : option (list string);
  selectedBranch : option string
}.

(** One element of [data.messages], with the fields the loop reads. *)
Record RawMessage : Type := mkRaw {
  msg_type : option string;
  content : option string;
  message : option string;
  awaitingInput : option bool;
  options : option (list string)
}.

(** [data.awaitingInput], the envelope-level descriptor; the handlers read
    its [type] only. *)
Record AwaitingInput : Type := mkAwait {
  await_type : option string
}.

(** [data.result] of the ask endpoint. *)
Record AskResult : Type := mkAskResult {
  answer : option string
}.

(** A parsed response body, with every field one of the handlers reads.
    [data_awaitingInput] and [data_finished] are only tested for
    truthiness: [None] and [false] stand for every falsy value. *)
Record Data : Type := mkData {
  data_sessionId : option string;
  data_messages : option (list RawMessage);
  data_awaitingInput : option AwaitingInput;
  data_finished : bool;
  data_error : option string;
  data_result : option AskResult
}.

(** What [await fetch(...)] followed by [await res.json()] can do.  Both
    rejections surface inside the [try] block, before any state update. *)
Inductive Outcome : Type :=
| FetchRejected                       (* fetch() rejects *)
| JsonRejected (ok : bool)            (* res.json() rejects *)
| Response (ok : bool) (data : Data). (* res.ok and the parsed body *)

(** The readings of the host that go into one new message:
    [Date.now()], [Math.random()] as it prints, and [new Date()]. *)
Record Clock : Type := mkClock {
  now : N;
  random : string;
  date : N
}.

(** Values a [try] block can throw. *)
Inductive Exn : Type :=
| NetworkError                 (* rejected fetch *)
| SyntaxError                  (* rejected res.json() *)
| TypeError                    (* property read on undefined *)
| Error (msg : string).        (* throw new Error(msg) *)

(** [description] of a toast: a literal, or [err.message || literal]. *)
Inductive Description : Type :=
| Fixed (s : string)
| MessageOr (e : Exn) (dflt : string).

(** Effects on the world outside the component state. *)
Inductive Effect : Type :=
| WindowOpen (url : string)                       (* window.open(url, '_blank') *)
| Toast (title : string) (description : Description).

(** The request body of the respond endpoint. *)
Inductive RequestBody : Type :=
| OptionIndexOrLabel (v : string)
| Input (v : string).

(** What a handler leaves in flight when it reaches its [await]. *)
Inductive Pending : Type :=
| NoCall
| RespondCall (session : string) (body : RequestBody)
| AskCall (question : string)
| PreviewTimer.

(** The three surfaces. *)
Inductive Surface : Type := EmbedChat | ChatBot | PublicBotChatPage.

(** The [useState] cells of a surface.  [isPreview] is the [preview] query
    parameter of the embed page; the other surfaces never read it. *)
Record State : Type := mkState {
  messages : list Message;
  input : string;
  isLoading : bool;
  currentPausedFor : option AwaitingInput;
  sessionId : option string;
  flowFinished : bool;
  isPreview : bool
}.

(** The values the cells are created with, before any effect has run:
    the effect that starts the flow is [startFlowEffect], the one that
    fills the preview with its demo messages [previewMessagesEffect]. *)
Definition initialState (preview : bool) : State :=
  mkState [] "" false None None false preview.

(** State setters, one per [useState] cell. *)
Definition setMessages (s : State) (f : list Message -> list Message) : State :=
  mkState (f (messages s)) (input s) (isLoading s) (currentPausedFor s)
          (sessionId s) (flowFinished s) (isPreview s).

Definition setInput (s : State) (v : string) : State :=
  mkState (messages s) v (isLoading s) (currentPausedFor s)
          (sessionId s) (flowFinished s) (isPreview s).

Definition setIsLoading (s : State) (v : bool) : State :=
  mkState (messages s) (input s) v (currentPausedFor s)
          (sessionId s) (flowFinished s) (isPreview s).

Definition setCurrentPausedFor (s : State) (v : option AwaitingInput) : State :=
  mkState (messages s) (input s) (isLoading s) v
          (sessionId s) (flowFinished s) (isPreview s).

Definition setSessionId (s : State) (v : option string) : State :=
  mkState (messages s) (input s) (isLoading s) (currentPausedFor s)
          v (flowFinished s) (isPreview s).

Definition setFlowFinished (s : State) (v : bool) : State :=
  mkState (messages s) (input s) (isLoading s) (currentPausedFor s)
          (sessionId s) v (isPreview s).

(** ** The [try] blocks: a small exception monad *)

Definition Try (A : Type) : Type := (Exn + A)%type.

Definition ret {A : Type} (a : A) : Try A := inr a.

Definition throw {A : Type} (e : Exn) : Try A := inl e.

Definition bind {A B : Type} (c : Try A) (k : A -> Try B) : Try B :=
  match c with
  | inl e => inl e
  | inr a => k a
  end.

Notation "x <- c ;; k" := (bind c (fun x => k))
  (at level 61, c at next level, right associativity).

(** [try { body } catch (err) { handler }]. *)
Definition tryCatch {A : Type} (body : Try A) (handler : Exn -> A) : A :=
  match body with
  | inl e => handler e
  | inr a => a
  end.

(** [const res = await fetch(...); const data = await res.json();] *)
Definition awaitResponse (o : Outcome) : Try (bool * Data) :=
  match o with
  | FetchRejected => throw NetworkError
  | JsonRejected _ => throw SyntaxError
  | Response ok data => ret (ok, data)
  end.

(** ** Fixed texts, as the source spells them *)

Definition redirectPrefix : string := "Redirecting to: ".
Definition startFinishedText : string := "Feel free to ask me any questions!".
Definition stepFinishedText : string :=
  "Thank you! The conversation flow has ended. Feel free to ask me any questions!".
Definition embedStartFallbackText : string :=
  "Hello! I'm here to help. What would you like to know?".
Definition askApologyText : string :=
  "I'm having trouble answering that. Please try again.".
Definition noAnswerText : string :=
  "I couldn't find an answer to that question.".
Definition embedRespondApologyText : string :=
  "Sorry, I'm having trouble connecting right now. Please try again.".
Definition respondApologyText : string :=
  "Something went wrong. Please try again.".
Definition previewResponseText : string :=
  "This is a preview response. Your actual bot will respond based on your training data.".

(** ** Building messages *)

(** [id: Date.now().toString() + Math.random()] *)
Definition botMessageId (k : Clock) : string :=
  JS.toString (now k) ++ random k.

(** [id: Date.now().toString()] *)
Definition userMessageId (k : Clock) : string := JS.toString (now k).

(** [{ id, from: "user", text, timestamp }] *)
Definition userMessage (txt : string) (k : Clock) : Message :=
  mkMessage (userMessageId k) user txt (date k) None None None None.

(** [{ id, from: "bot", text, timestamp }] *)
Definition botMessage (txt : string) (k : Clock) : Message :=
  mkMessage (botMessageId k) bot txt (date k) None None None None.

(** [{ ...msg, selectedBranch: option }] *)
Definition withSelectedBranch (msg : Message) (option : string) : Message :=
  mkMessage (id msg) (sender msg) (text msg) (timestamp msg)
            (showConfirmationButtons msg) (showBranchOptions msg)
            (branchOptions msg) (Some option).

(** [msg.options || []]: an array is truthy even when empty. *)
Definition optionsOrEmpty (msg : RawMessage) : list string :=
  match options msg with
  | Some l => l
  | None => []
  end.

(** [data.messages || []] *)
Definition messagesOrEmpty (data : Data) : list RawMessage :=
  match data_messages data with
  | Some l => l
  | None => []
  end.

(** ** The per-message loop

    The body of [(data.messages || []).forEach((msg) => ...)].  The loop is
    written six times in the source (in [initFlow] and in
    [handleSendMessage] of each surface); the six copies differ in the
    names [text]/[content] and [from]/[sender] only. *)

(** [msg.content?.replace("Redirecting to: ", "") || msg.content] *)
Definition redirectUrl (msg : RawMessage) : option string :=
  match content msg with
  | None => None
  | Some c => JS.or_else (Some (JS.replaceFirst redirectPrefix c)) (Some c)
  end.

(** The message pushed for a branch node that awaits input. *)
Definition branchPrompt (msg : RawMessage) (k : Clock) : Message :=
  mkMessage (botMessageId k) bot "" (date k)
            None (Some true) (Some (optionsOrEmpty msg)) None.

(** The message pushed for every other node.
    [showConfirmationButtons: msg.type === "confirmation" && msg.awaitingInput]
    is [false] when the type differs and the flag itself otherwise. *)
Definition plainPrompt (msg : RawMessage) (k : Clock) : Message :=
  mkMessage (botMessageId k) bot
            (JS.or_default (JS.or_else (content msg) (message msg)) "")
            (date k)
            (if JS.strictEq (msg_type msg) "confirmation"
             then awaitingInput msg else Some false)
            (Some false) (Some (optionsOrEmpty msg)) None.

(** One iteration: the messages pushed and the windows opened. *)
Definition onMessage (msg : RawMessage) (k : Clock) : list Message * list Effect :=
  if JS.strictEq (msg_type msg) "redirect" then
    ([], match redirectUrl msg with
         | Some url => if JS.truthy url then [WindowOpen url] else []
         | None => []
         end)
  else if JS.strictEq (msg_type msg) "branch" && JS.truthy_flag (awaitingInput msg) then
    ([branchPrompt msg k], [])
  else
    ([plainPrompt msg k], []).

(** The whole loop; [clk i] is the clock read while the [i]-th element is
    visited. *)
Fixpoint forEachMessage (msgs : list RawMessage) (clk : nat -> Clock)
  : list Message * list Effect :=
  match msgs with
  | [] => ([], [])
  | msg :: rest =>
      let here := onMessage msg (clk 0) in
      let later := forEachMessage rest (fun i => clk (S i)) in
      (fst here ++ fst later, snd here ++ snd later)
  end.

(** ** [initFlow] *)

Definition initFlow_try (s : State) (o : Outcome) (clk : nat -> Clock)
  : Try (State * list Effect) :=
  res <- awaitResponse o ;;
  let data := snd res in
  let s1 := if JS.truthy_opt (data_sessionId data)
            then setSessionId s (data_sessionId data) else s in
  let raw := messagesOrEmpty data in
  let loop := forEachMessage raw clk in
  let botMessages := fst loop in
  if data_finished data then
    let s2 := setCurrentPausedFor (setFlowFinished s1 true) None in
    let botMessages' := botMessages ++ [botMessage startFinishedText (clk (length raw))] in
    ret (setMessages s2 (fun _ => botMessages'), snd loop)
  else
    let s2 := match data_awaitingInput data with
              | Some a => setCurrentPausedFor s1 (Some a)
              | None => setCurrentPausedFor s1 None
              end in
    ret (setMessages s2 (fun _ => botMessages), snd loop).

(** The [catch] of [initFlow]: the embed page shows a fixed greeting, the
    other two surfaces raise a toast and leave the messages alone. *)
Definition initFlow_catch (sf : Surface) (s : State) (clk : nat -> Clock)
  : State * list Effect :=
  match sf with
  | EmbedChat =>
      (setMessages s (fun _ =>
         [mkMessage "init" bot embedStartFallbackText (date (clk 0))
                    None None None None]), [])
  | ChatBot | PublicBotChatPage =>
      (s, [Toast "Error" (Fixed "Failed to start conversation")])
  end.

Definition initFlow (sf : Surface) (s : State) (o : Outcome) (clk : nat -> Clock)
  : State * list Effect :=
  tryCatch (initFlow_try s o clk) (fun _ => initFlow_catch sf s clk).

(** The effect that calls [initFlow]; the embed page skips it in preview
    mode ([if (!botData || isPreview) return;]). *)
Definition startFlowEffect (sf : Surface) (s : State) (o : Outcome)
           (clk : nat -> Clock) : State * list Effect :=
  match sf with
  | EmbedChat => if isPreview s then (s, []) else initFlow sf s o clk
  | ChatBot | PublicBotChatPage => initFlow sf s o clk
  end.

(** ** The demo messages of preview mode

    The effect of the embed page that runs after the first render,
    [if (isPreview) setMessages([...])]: three fixed messages, the first two
    dated one minute and half a minute before [Date.now()]. *)
Definition previewMessages (clk : nat -> Clock) : list Message :=
  [mkMessage "bot-preview-1" bot
             "Hello! I'm here to help. What would you like to know?"
             (now (clk 0) - 60000) None None None None;
   mkMessage "user-preview-1" user
             "This is a preview of a user message"
             (now (clk 1) - 30000) None None None None;
   mkMessage "bot-preview-2" bot
             "This is how my responses will look with your customized colors!"
             (date (clk 2)) None None None None].

Definition previewMessagesEffect (sf : Surface) (s : State) (clk : nat -> Clock)
  : State :=
  match sf with
  | EmbedChat => if isPreview s then setMessages s (fun _ => previewMessages clk) else s
  | ChatBot | PublicBotChatPage => s
  end.

(** ** [handleAskQuestion] *)

(** Up to the [await]. *)
Definition handleAskQuestion (s : State) (k : Clock) : State * Pending :=
  let question := JS.trim (input s) in
  if negb (JS.truthy question) || isLoading s then (s, NoCall)
  else
    let s1 := setMessages s (fun prev => prev ++ [userMessage question k]) in
    let s2 := setInput s1 "" in
    let s3 := setIsLoading s2 true in
    (s3, AskCall question).

Definition handleAskQuestion_try (s : State) (o : Outcome) (clk : nat -> Clock)
  : Try (State * list Effect) :=
  res <- awaitResponse o ;;
  let data := snd res in
  if negb (fst res) then
    throw (Error (JS.or_default (data_error data) "Failed to get answer"))
  else
    result <- match data_result data with
              | Some r => ret r
              | None => throw TypeError
              end ;;
    let reply := botMessage (JS.or_default (answer result) noAnswerText) (clk 0) in
    ret (setMessages s (fun prev => prev ++ [reply]), []).

Definition handleAskQuestion_catch (sf : Surface) (s : State) (clk : nat -> Clock)
           (err : Exn) : State * list Effect :=
  let s1 := setMessages s (fun prev => prev ++ [botMessage askApologyText (clk 0)]) in
  match sf with
  | EmbedChat => (s1, [])
  | ChatBot | PublicBotChatPage =>
      (s1, [Toast "Error" (MessageOr err "Something went wrong")])
  end.

(** From the [await] on: [try] body, [catch], [finally]. *)
Definition handleAskQuestion_resume (sf : Surface) (s : State) (o : Outcome)
           (clk : nat -> Clock) : State * list Effect :=
  let r := tryCatch (handleAskQuestion_try s o clk)
                    (handleAskQuestion_catch sf s clk) in
  (setIsLoading (fst r) false, snd r).

(** ** [handleSendMessage] *)

(** [overrideInput || input.trim()] *)
Definition messageToSend (s : State) (overrideInput : option string) : string :=
  JS.or_default overrideInput (JS.trim (input s)).

(** [currentPausedFor?.type === "branch"] *)
Definition pausedForBranch (s : State) : bool :=
  match currentPausedFor s with
  | Some a => JS.strictEq (await_type a) "branch"
  | None => false
  end.

(** The flow step itself, shared by the three surfaces once their guards
    have passed: clear the pause, show the user message, build the request. *)
Definition sendFlowStep (s : State) (toSend : string) (isBranchOption : option bool)
           (sid : string) (k : Clock) : State * Pending :=
  let s1 := setCurrentPausedFor s None in
  let s2 := setMessages s1 (fun prev => prev ++ [userMessage toSend k]) in
  let s3 := setInput s2 "" in
  let s4 := setIsLoading s3 true in
  let requestBody :=
    if pausedForBranch s || JS.truthy_flag isBranchOption
    then OptionIndexOrLabel toSend else Input toSend in
  (s4, RespondCall sid requestBody).

(** The demo branch of the embed page in preview mode. *)
Definition sendPreview (s : State) (toSend : string) (k : Clock) : State * Pending :=
  let s1 := setMessages s (fun prev => prev ++ [userMessage toSend k]) in
  let s2 := setInput s1 "" in
  let s3 := setIsLoading s2 true in
  (s3, PreviewTimer).

(** Up to the [await].  The embed page tests the text and the loading flag
    first, then preview mode, then the finished flag, then the session; the
    other two surfaces test the finished flag before anything else. *)
Definition handleSendMessage (sf : Surface) (s : State)
           (overrideInput : option string) (isBranchOption : option bool)
           (k : Clock) : State * Pending :=
  match sf with
  | EmbedChat =>
      let toSend := messageToSend s overrideInput in
      if negb (JS.truthy toSend) || isLoading s then (s, NoCall)
      else if isPreview s then sendPreview s toSend k
      else if flowFinished s then handleAskQuestion s k
      else match sessionId s with
           | Some sid =>
               if JS.truthy sid then sendFlowStep s toSend isBranchOption sid k
               else (s, NoCall)
           | None => (s, NoCall)
           end
  | ChatBot | PublicBotChatPage =>
      if flowFinished s then handleAskQuestion s k
      else
        let toSend := messageToSend s overrideInput in
        if negb (JS.truthy toSend) || isLoading s then (s, NoCall)
        else match sessionId s with
             | Some sid =>
                 if JS.truthy sid then sendFlowStep s toSend isBranchOption sid k
                 else (s, NoCall)
             | None => (s, NoCall)
             end
  end.

Definition handleSendMessage_try (s : State) (o : Outcome) (clk : nat -> Clock)
  : Try (State * list Effect) :=
  res <- awaitResponse o ;;
  let data := snd res in
  if negb (fst res) then
    throw (Error (JS.or_default (data_error data) "Failed to send message"))
  else
    let raw := messagesOrEmpty data in
    let loop := forEachMessage raw clk in
    let botMessages := fst loop in
    let s1 := match data_awaitingInput data with
              | Some a => setCurrentPausedFor s (Some a)
              | None => setCurrentPausedFor s None
              end in
    if data_finished data then
      let s2 := setCurrentPausedFor (setFlowFinished s1 true) None in
      let botMessages' := botMessages ++ [botMessage stepFinishedText (clk (length raw))] in
      ret (setMessages s2 (fun prev => prev ++ botMessages'), snd loop)
    else
      ret (setMessages s1 (fun prev => prev ++ botMessages), snd loop).

Definition handleSendMessage_catch (sf : Surface) (s : State) (clk : nat -> Clock)
           (err : Exn) : State * list Effect :=
  match sf with
  | EmbedChat =>
      (setMessages s (fun prev => prev ++ [botMessage embedRespondApologyText (clk 0)]),
       [])
  | ChatBot | PublicBotChatPage =>
      (setMessages s (fun prev => prev ++ [botMessage respondApologyText (clk 0)]),
       [Toast "Error" (MessageOr err "Something went wrong")])
  end.

(** From the [await] on: [try] body, [catch], [finally]. *)
Definition handleSendMessage_resume (sf : Surface) (s : State) (o : Outcome)
           (clk : nat -> Clock) : State * list Effect :=
  let r := tryCatch (handleSendMessage_try s o clk)
                    (handleSendMessage_catch sf s clk) in
  (setIsLoading (fst r) false, snd r).

(** The [setTimeout] callback of preview mode:
    [id: (Date.now() + 1).toString()]. *)
Definition previewTimeout (s : State) (k : Clock) : State :=
  let reply := mkMessage (JS.toString (now k + 1)) bot previewResponseText (date k)
                         None None None None in
  setIsLoading (setMessages s (fun prev => prev ++ [reply])) false.

(** ** Click handlers *)

Definition handleConfirmationClick (sf : Surface) (s : State) (answer : string)
           (k : Clock) : State * Pending :=
  handleSendMessage sf s (Some answer) (Some false) k.

(** [prev.map((msg) => msg.id === messageId ? { ...msg, selectedBranch: option } : msg)] *)
Definition markSelected (option messageId : string) (prev : list Message)
  : list Message :=
  map (fun msg => if String.eqb (id msg) messageId
                  then withSelectedBranch msg option else msg) prev.

Definition handleBranchOptionClick (sf : Surface) (s : State)
           (option messageId : string) (k : Clock) : State * Pending :=
  let s1 := setMessages s (markSelected option messageId) in
  handleSendMessage sf s1 (Some option) (Some true) k.

(** The branch buttons as the three surfaces render them:
    [msg.showBranchOptions && msg.from === "bot" && msg.branchOptions] shows
    one button per option, with [disabled={!!msg.selectedBranch}] and
    [onClick={() => handleBranchOptionClick(opt, msg.id)}]. *)
Definition branchButtons (msg : Message) : list string :=
  if JS.truthy_flag (showBranchOptions msg) && Sender_eqb (sender msg) bot
  then match branchOptions msg with
       | Some opts => opts
       | None => []
       end
  else [].

Definition branchButtonDisabled (msg : Message) : bool :=
  JS.truthy_opt (selectedBranch msg).

(** A click on the [j]-th branch button of the [i]-th message: nothing when
    there is no such button or when it is disabled. *)
Definition clickBranchButton (sf : Surface) (s : State) (i j : nat) (k : Clock)
  : State * Pending :=
  match nth_error (messages s) i with
  | Some msg =>
      match nth_error (branchButtons msg) j with
      | Some opt =>
          if branchButtonDisabled msg then (s, NoCall)
          else handleBranchOptionClick sf s opt (id msg) k
      | None => (s, NoCall)
      end
  | None => (s, NoCall)
  end.

(** ** Operations of the state machine

    An operation runs a handler up to its [await] and, when that left a call
    in flight, the rest of the handler on the outcome of the call. *)

Definition settle (sf : Surface) (sp : State * Pending) (o : Outcome)
           (clk : nat -> Clock) : State * list Effect :=
  match snd sp with
  | NoCall => (fst sp, [])
  | RespondCall _ _ => handleSendMessage_resume sf (fst sp) o clk
  | AskCall _ => handleAskQuestion_resume sf (fst sp) o clk
  | PreviewTimer => (previewTimeout (fst sp) (clk 0), [])
  end.

(** What the user can submit, with the readings of the host and the
    outcome of the network call it may start. *)
Inductive Submission : Type :=
| submitFreeText (txt : string) (k : Clock) (o : Outcome) (clk : nat -> Clock)
| submitConfirmation (answer : string) (k : Clock) (o : Outcome) (clk : nat -> Clock)
| submitBranchOption (option eventId : string) (k : Clock) (o : Outcome)
                     (clk : nat -> Clock)
| ask (question : string) (k : Clock) (o : Outcome) (clk : nat -> Clock).

Inductive Op : Type :=
| start (o : Outcome) (clk : nat -> Clock)
| submit (sub : Submission).

(** Typing [txt] and pressing send is [setInput] followed by
    [handleSendMessage()]. *)
Definition submission (sf : Surface) (s : State) (sub : Submission)
  : State * list Effect :=
  match sub with
  | submitFreeText txt k o clk =>
      settle sf (handleSendMessage sf (setInput s txt) None None k) o clk
  | submitConfirmation answer k o clk =>
      settle sf (handleConfirmationClick sf s answer k) o clk
  | submitBranchOption option eventId k o clk =>
      settle sf (handleBranchOptionClick sf s option eventId k) o clk
  | ask question k o clk =>
      settle sf (handleAskQuestion (setInput s question) k) o clk
  end.

Definition apply (sf : Surface) (s : State) (op : Op) : State * list Effect :=
  match op with
  | start o clk => startFlowEffect sf s o clk
  | submit sub => submission sf s sub
  end.

Fixpoint run (sf : Surface) (s : State) (ops : list Op) : State :=
  match ops with
  | [] => s
  | op :: rest => run sf (fst (apply sf s op)) rest
  end.

(** ** Events

    The same surface, one browser event at a time: between the moment a
    handler reaches its [await] and the moment the call resolves, further
    clicks and key presses are delivered to the state the handler left.
    The two effects that run after the first render, the start of the flow
    and the demo messages of the preview, are events as well; a trace may
    hold them at any place, the page delivers them before the first
    click. *)

Record Session : Type := mkSession {
  ui : State;
  inFlight : Pending
}.

Inductive Interaction : Type :=
| typed (txt : string)                                 (* onChange of the input *)
| sendPressed (k : Clock)                              (* handleSendMessage() *)
| confirmationClicked (answer : string) (k : Clock)
| branchOptionClicked (option messageId : string) (k : Clock)
| callResolved (o : Outcome) (clk : nat -> Clock).     (* the call in flight *)

Inductive Event : Type :=
| flowStarted (o : Outcome) (clk : nat -> Clock)       (* the call of initFlow *)
| previewSeeded (clk : nat -> Clock)                   (* the demo messages effect *)
| interaction (i : Interaction).

(** A handler has run up to its [await]: the call it started, if any, is
    now the one in flight. *)
Definition launch (ss : Session) (sp : State * Pending) : Session :=
  mkSession (fst sp)
            (match snd sp with
             | NoCall => inFlight ss
             | call => call
             end).

Definition interact (sf : Surface) (ss : Session) (i : Interaction) : Session :=
  match i with
  | typed txt => mkSession (setInput (ui ss) txt) (inFlight ss)
  | sendPressed k => launch ss (handleSendMessage sf (ui ss) None None k)
  | confirmationClicked answer k =>
      launch ss (handleConfirmationClick sf (ui ss) answer k)
  | branchOptionClicked option messageId k =>
      launch ss (handleBranchOptionClick sf (ui ss) option messageId k)
  | callResolved o clk =>
      mkSession (fst (settle sf (ui ss, inFlight ss) o clk)) NoCall
  end.

Definition react (sf : Surface) (ss : Session) (ev : Event) : Session :=
  match ev with
  | flowStarted o clk => mkSession (fst (startFlowEffect sf (ui ss) o clk)) (inFlight ss)
  | previewSeeded clk => mkSession (previewMessagesEffect sf (ui ss) clk) (inFlight ss)
  | interaction i => interact sf ss i
  end.

Fixpoint play (sf : Surface) (ss : Session) (trace : list Event) : Session :=
  match trace with
  | [] => ss
  | ev :: rest => play sf (react sf ss ev) rest
  end.

(** The events a submission consists of. *)
Definition eventsOf (sub : Submission) : list Event :=
  match sub with
  | submitFreeText txt k o clk =>
      [interaction (typed txt); interaction (sendPressed k);
       interaction (callResolved o clk)]
  | submitConfirmation answer k o clk =>
      [interaction (confirmationClicked answer k); interaction (callResolved o clk)]
  | submitBranchOption option eventId k o clk =>
      [interaction (branchOptionClicked option eventId k);
       interaction (callResolved o clk)]
  | ask question k o clk =>
      [interaction (typed question); interaction (sendPressed k);
       interaction (callResolved o clk)]
  end.

(** [await fetch(...)] or [await res.json()] rejects: the failures of a
    call that reach the [catch] of its handler whatever the handler does
    with the response. *)
Definition awaitRejects (o : Outcome) : bool :=
  match o with
  | FetchRejected | JsonRejected _ => true
  | Response _ _ => false
  end.

(** The call comes back with an error status and a body that decodes. *)
Definition httpError (o : Outcome) : bool :=
  match o with
  | Response false _ => true
  | _ => false
  end.

(** A start call fails: the network fails or the status is an error. *)
Definition startFails (o : Outcome) : bool := awaitRejects o || httpError o.

(** The three kinds of raw message the loop tells apart. *)
Definition isRedirect (msg : RawMessage) : bool :=
  JS.strictEq (msg_type msg) "redirect".

Definition isBranchPrompt (msg : RawMessage) : bool :=
  negb (isRedirect msg)
  && (JS.strictEq (msg_type msg) "branch" && JS.truthy_flag (awaitingInput msg)).

Definition isPlain (msg : RawMessage) : bool :=
  negb (isRedirect msg) && negb (isBranchPrompt msg).

(** The [try] block of [handleAskQuestion] throws: the transport fails,
    the status is not ok, or the body has no [result]. *)
Definition askThrows (o : Outcome) : bool :=
  match o with
  | FetchRejected | JsonRejected _ => true
  | Response ok data =>
      negb ok || match data_result data with
                 | Some _ => false
                 | None => true
                 end
  end.

(** The answer an ask call brings back, if any: an ok response whose
    [result.answer] is a non-empty string. *)
Definition usableAnswer (o : Outcome) : option string :=
  match o with
  | Response true data =>
      match data_result data with
      | Some result => if JS.truthy_opt (answer result) then answer result else None
      | None => None
      end
  | _ => None
  end.

(** ** Views used by the specification *)

(** The specification's [PausedState.kind], read off the stored
    descriptor: no descriptor is [none], type ["branch"] and
    ["confirmation"] are themselves, any other descriptor is a question. *)
Inductive PausedKind : Type :=
| paused_none | paused_question | paused_confirmation | paused_branch.

Definition pausedKind (s : State) : PausedKind :=
  match currentPausedFor s with
  | None => paused_none
  | Some a =>
      if JS.strictEq (await_type a) "branch" then paused_branch
      else if JS.strictEq (await_type a) "confirmation" then paused_confirmation
      else paused_question
  end.

(** The specification's [awaitingKind] of an event, read off the two
    button flags of the message. *)
Inductive AwaitingKind : Type :=
| awaiting_none | awaiting_confirmation | awaiting_branch.

Definition awaitingKind (msg : Message) : AwaitingKind :=
  if JS.truthy_flag (showBranchOptions msg) then awaiting_branch
  else if JS.truthy_flag (showConfirmationButtons msg) then awaiting_confirmation
  else awaiting_none.

(** ** Growth of the message list *)

(** The pairs (option, event id) that the branch submissions of a run
    target. *)
Definition branchTarget (op : Op) : list (string * string) :=
  match op with
  | submit (submitBranchOption option eventId _ _ _) => [(option, eventId)]
  | _ => []
  end.

Definition branchTargets (ops : list Op) : list (string * string) :=
  flat_map branchTarget ops.

(** The same for a trace of events. *)
Definition clickTarget (ev : Event) : list (string * string) :=
  match ev with
  | interaction (branchOptionClicked option messageId _) => [(option, messageId)]
  | _ => []
  end.

Definition clickTargets (trace : list Event) : list (string * string) :=
  flat_map clickTarget trace.

(** An event is kept: it is the same event, except that a branch
    submission aimed at its id may have set its selected option. *)
Definition kept (T : list (string * string)) (a b : Message) : Prop :=
  b = a \/ exists option, In (option, id a) T /\ b = withSelectedBranch a option.

(** The list grows: the old events are kept at their positions and new
    ones are added behind them. *)
Definition grows (T : list (string * string)) (old new : list Message) : Prop :=
  exists same added, new = same ++ added /\ Forall2 (kept T) old same.

(** Apart from the selection of a branch, handlers only append. *)
Definition appends (old new : list Message) : Prop :=
  exists added, new = old ++ added.

(** In Q&A mode nothing is asked of the user: a finished flow has no
    pause. *)
Definition quiet (s : State) : Prop :=
  flowFinished s = true -> currentPausedFor s = None.

(** Single flight: the loading flag is up exactly while a call is in
    flight. *)
Definition steady (ss : Session) : Prop :=
  inFlight ss = NoCall <-> isLoading (ui ss) = false.

(** ** Sample inputs *)

Module Sample.

(** U+00A0 NO-BREAK SPACE and U+2003 EM SPACE, in UTF-8. *)
Definition noBreakSpace : string := String "194"%char (String "160"%char "").

Definition emSpace : string :=
  String "226"%char (String "128"%char (String "131"%char "")).

(** The readings of a handler run that begins at time [t]. *)
Definition clock (t : N) : nat -> Clock :=
  fun i => mkClock (t + N.of_nat i) "0.5" (t + N.of_nat i).

Definition tick : Clock := mkClock 3000 "0.25" 3000.

Definition tick' : Clock := mkClock 4000 "0.75" 4000.

(** [{sessionId:"s1", messages:[{type:"branch", awaitingInput:true,
    options:["A","B"]}], awaitingInput:{type:"branch"}, finished:false}] *)
Definition branchStart : Data :=
  mkData (Some "s1")
         (Some [mkRaw (Some "branch") None None (Some true) (Some ["A"; "B"])])
         (Some (mkAwait (Some "branch"))) false None None.

(** [{messages:[{type:"text", content:"Pick again"}],
    awaitingInput:{type:"question"}, finished:false}] *)
Definition questionStep : Data :=
  mkData None
         (Some [mkRaw (Some "text") (Some "Pick again") None None None])
         (Some (mkAwait (Some "question"))) false None None.

(** [{sessionId:"s1", messages:[], awaitingInput:{type:"question"},
    finished:true}] *)
Definition finishedStart : Data :=
  mkData (Some "s1") (Some []) (Some (mkAwait (Some "question"))) true None None.

(** [{messages:[], finished:true}], a start response without a session
    id. *)
Definition finishedNoSession : Data :=
  mkData None (Some []) None true None None.

(** [{error:"boom"}] *)
Definition errorBody : Data :=
  mkData None None None false (Some "boom") None.

(** [{sessionId:"s1", messages:[{type:"branch", awaitingInput:true,
    options:["","B"]}], awaitingInput:{type:"branch"}, finished:false}]:
    a branch prompt whose first option has an empty label. *)
Definition emptyLabelBranch : Data :=
  mkData (Some "s1")
         (Some [mkRaw (Some "branch") None None (Some true) (Some [""; "B"])])
         (Some (mkAwait (Some "branch"))) false None None.

(** A start response with two branch prompts. *)
Definition twoBranches : Data :=
  mkData (Some "s1")
         (Some [mkRaw (Some "branch") None None (Some true) (Some ["A"; "B"]);
                mkRaw (Some "branch") None None (Some true) (Some ["C"; "D"])])
         (Some (mkAwait (Some "branch"))) false None None.

(** After [twoBranches] and a click on ["A"] of the first prompt, the
    respond call still in flight; the second prompt has id ["10010.5"]. *)
Definition secondPromptOpen (sf : Surface) : State :=
  fst (handleBranchOptionClick
         sf (fst (apply sf (initialState false)
                        (start (Response true twoBranches) (clock 1000))))
         "A" "10000.5" tick).

(** In Q&A mode, a question typed into the input. *)
Definition questionTyped (sf : Surface) : State :=
  setInput (fst (initFlow sf (initialState false) (Response true finishedStart)
                          (clock 1000))) " why? ".

(** The embed page in preview mode, its demo messages in place. *)
Definition previewPage : State :=
  previewMessagesEffect EmbedChat (initialState true) (clock 100000).

(** After [branchStart]: one branch prompt, id ["10000.5"]. *)
Definition atBranch (sf : Surface) : State :=
  fst (apply sf (initialState false) (start (Response true branchStart) (clock 1000))).

(** After the user picked ["A"] and the flow asked a question. *)
Definition afterChoice (sf : Surface) : State :=
  fst (apply sf (atBranch sf)
             (submit (submitBranchOption "A" "10000.5" tick
                                         (Response true questionStep) (clock 3500)))).

(** After the user picked ["A"], the respond call still in flight. *)
Definition choiceInFlight (sf : Surface) : State :=
  fst (handleBranchOptionClick sf (atBranch sf) "A" "10000.5" tick).

End Sample.

(** ** Rendering: what the surfaces show and enable

    The parts of the JSX that decide which control can fire a handler. *)

(** [const isAwaitingInput = currentPausedFor !== null;] *)
Definition isAwaitingInput (s : State) : bool :=
  match currentPausedFor s with
  | Some _ => true
  | None => false
  end.

(** [canSendText].  [flagged] is the truthiness of
    [currentPausedFor?.showConfirmationButtons], a field of the stored
    descriptor that no handler reads; the embed page alone has the
    [isPreview] disjunct. *)
Definition canSendText (sf : Surface) (s : State) (flagged : bool) : bool :=
  let flow := isAwaitingInput s && negb (pausedForBranch s) && negb flagged in
  match sf with
  | EmbedChat => isPreview s || flowFinished s || flow
  | ChatBot | PublicBotChatPage => flowFinished s || flow
  end.

(** [disabled={isLoading || !canSendText}] of the text input. *)
Definition inputDisabled (sf : Surface) (s : State) (flagged : bool) : bool :=
  isLoading s || negb (canSendText sf s flagged).

(** [disabled={!input.trim() || isLoading || !canSendText}] of the send
    button. *)
Definition sendDisabled (sf : Surface) (s : State) (flagged : bool) : bool :=
  negb (JS.truthy (JS.trim (input s))) || isLoading s
  || negb (canSendText sf s flagged).

(** A click on the send button: [onClick={() => handleSendMessage()}]. *)
Definition clickSend (sf : Surface) (s : State) (flagged : bool) (k : Clock)
  : State * Pending :=
  if sendDisabled sf s flagged then (s, NoCall)
  else handleSendMessage sf s None None k.

(** [msg.showConfirmationButtons && isAwaitingInput && msg.from === "bot"
    && !flowFinished]: the Yes and No buttons under a message. *)
Definition confirmationButtonsShown (s : State) (msg : Message) : bool :=
  JS.truthy_flag (showConfirmationButtons msg) && isAwaitingInput s
  && Sender_eqb (sender msg) bot && negb (flowFinished s).

(** A click on Yes or No under the [i]-th message. *)
Definition clickConfirmationButton (sf : Surface) (s : State) (i : nat)
           (answer : string) (k : Clock) : State * Pending :=
  match nth_error (messages s) i with
  | Some msg =>
      if confirmationButtonsShown s msg
      then handleConfirmationClick sf s answer k
      else (s, NoCall)
  | None => (s, NoCall)
  end.

(** ** Gestures

    What reaches the handlers through the rendered page: the user types,
    presses a control that the page shows and has not disabled, or the call
    in flight resolves. *)
Inductive Gesture : Type :=
| typeText (txt : string)
| pressSend (flagged : bool) (k : Clock)
| pressConfirmation (i : nat) (answer : string) (k : Clock)
| pressBranchOption (i j : nat) (k : Clock)
| resolveCall (o : Outcome) (clk : nat -> Clock).

Definition gesture (sf : Surface) (ss : Session) (g : Gesture) : Session :=
  match g with
  | typeText txt => interact sf ss (typed txt)
  | pressSend flagged k => launch ss (clickSend sf (ui ss) flagged k)
  | pressConfirmation i answer k =>
      launch ss (clickConfirmationButton sf (ui ss) i answer k)
  | pressBranchOption i j k => launch ss (clickBranchButton sf (ui ss) i j k)
  | resolveCall o clk => interact sf ss (callResolved o clk)
  end.

Fixpoint perform (sf : Surface) (ss : Session) (gs : list Gesture) : Session :=
  match gs with
  | [] => ss
  | g :: rest => perform sf (gesture sf ss g) rest
  end.

(** The message at position [i] is the only one of the list with its id:
    ids are [Date.now().toString() + Math.random()]. *)
Definition sharesId (a b : Message) : bool := String.eqb (id b) (id a).

Definition aloneAt (i : nat) (l : list Message) : bool :=
  match nth_error l i with
  | Some msg =>
      negb (existsb (sharesId msg) (firstn i l))
      && negb (existsb (sharesId msg) (skipn (S i) l))
  | None => true
  end.

(** A property of the state holds before every gesture of a sequence and
    after the last one. *)
Fixpoint throughout (P : State -> Prop) (sf : Surface) (ss : Session)
         (gs : list Gesture) : Prop :=
  P (ui ss) /\
  match gs with
  | [] => True
  | g :: rest => throughout P sf (gesture sf ss g) rest
  end.

(** ** Speech input

    [onResult: (text) => setInput(prev => prev + (prev ? " " : "") + text)] *)
Definition onSpeechResult (s : State) (heard : string) : State :=
  setInput s (input s ++ (if JS.truthy (input s) then " " else "") ++ heard)%string.

(** The texts of a list without the empty ones at its front. *)
Fixpoint withoutLeadingEmpty (texts : list string) : list string :=
  match texts with
  | EmptyString :: rest => withoutLeadingEmpty rest
  | _ => texts
  end.

(** ** Classifying states and outcomes *)

(** A respond call fails: anything but an ok response with a parsed
    body. *)
Definition respondFails (o : Outcome) : bool :=
  match o with
  | Response true _ => false
  | _ => true
  end.

(** The apology a failed respond call leaves, by surface. *)
Definition respondApology (sf : Surface) : string :=
  match sf with
  | EmbedChat => embedRespondApologyText
  | ChatBot | PublicBotChatPage => respondApologyText
  end.

(** No session, flow not finished, and not the preview of the embed
    page. *)
Definition sessionless (sf : Surface) (s : State) : Prop :=
  JS.truthy_opt (sessionId s) = false /\
  flowFinished s = false /\
  (sf = EmbedChat -> isPreview s = false).

(** The state an accepted flow step leaves behind. *)
Definition afterFlowStep (s : State) (sent : string) (k : Clock) : State :=
  setIsLoading
    (setInput
       (setMessages (setCurrentPausedFor s None)
                    (fun prev => prev ++ [userMessage sent k])) "") true.

(** The state an accepted question or preview text leaves behind. *)
Definition afterShown (s : State) (sent : string) (k : Clock) : State :=
  setIsLoading
    (setInput (setMessages s (fun prev => prev ++ [userMessage sent k])) "") true.

(** The text the loop shows for a raw message that is not a redirect. *)
Definition shownText (msg : RawMessage) : string :=
  if isBranchPrompt msg then ""
  else JS.or_default (JS.or_else (content msg) (message msg)) "".

(** Nothing in flight that reaches the backend. *)
Definition offline (p : Pending) : Prop := p = NoCall \/ p = PreviewTimer.

(** The text a call in flight carries. *)
Definition carries (p : Pending) (sent : string) : Prop :=
  match p with
  | RespondCall _ (OptionIndexOrLabel v) | RespondCall _ (Input v) => v = sent
  | AskCall q => q = sent
  | NoCall | PreviewTimer => True
  end.

(** While a respond call is in flight the flow has not finished;
    otherwise a finished flow has no pause. *)
Definition settled (ss : Session) : Prop :=
  match inFlight ss with
  | RespondCall _ _ => flowFinished (ui ss) = false
  | NoCall | AskCall _ | PreviewTimer => quiet (ui ss)
  end.

(** ** The embed customizer

    [EmbedCustomizer] in [src/components/EmbedCustomizer.tsx]: the record it
    edits, the defaults, and how a saved record is merged over them. *)

Module Customizer.

(** [interface EmbedCustomization], as the customizer holds it: every
    field present. *)
Record EmbedCustomization : Type := mkCustomization {
  botId : string;
  headerTitle : string;
  headerSubtitle : string;
  placeholder : string;
  primaryColor : string;
  backgroundColor : string;
  messageBackgroundColor : string;
  userMessageColor : string;
  botMessageColor : string;
  textColor : string;
  borderRadius : string;
  fontFamily : string;
  headerBackground : string;
  chatCustomCSS : string;
  useChatCustomCSS : bool;
  buttonBackground : string;
  buttonColor : string;
  buttonSize : string;
  buttonBorderRadius : string;
  buttonPosition : string;
  buttonBottom : string;
  buttonRight : string;
  buttonLeft : string;
  buttonCustomCSS : string;
  useButtonCustomCSS : bool
}.

(** [data.result] of the customisation endpoint: any field may be
    missing. *)
Record ApiCustomization : Type := mkApi {
  api_headerTitle : option string;
  api_headerSubtitle : option string;
  api_placeholder : option string;
  api_primaryColor : option string;
  api_backgroundColor : option string;
  api_messageBackgroundColor : option string;
  api_userMessageColor : option string;
  api_botMessageColor : option string;
  api_textColor : option string;
  api_borderRadius : option string;
  api_fontFamily : option string;
  api_headerBackground : option string;
  api_chatCustomCSS : option string;
  api_useChatCustomCSS : option bool;
  api_buttonBackground : option string;
  api_buttonColor : option string;
  api_buttonSize : option string;
  api_buttonBorderRadius : option string;
  api_buttonPosition : option string;
  api_buttonBottom : option string;
  api_buttonRight : option string;
  api_buttonLeft : option string;
  api_buttonCustomCSS : option string;
  api_useButtonCustomCSS : option bool
}.

(** [{}] *)
Definition emptyApi : ApiCustomization :=
  mkApi None None None None None None None None None None None None None None None None None None None None None None None None.

(** [defaultCustomization], with the [botId] it leaves out. *)
Definition defaultCustomization (bot : string) : EmbedCustomization :=
  mkCustomization bot
    "Chat Assistant"
    "Online"
    "Type your message..."
    "#3b82f6"
    "#ffffff"
    "#f1f5f9"
    "#3b82f6"
    "#f1f5f9"
    "#1e293b"
    "8"
    "Inter, sans-serif"
    "#ffffff"
    ""
    false
    "linear-gradient(135deg, #9b5de5, #f15bb5)"
    "#ffffff"
    "56"
    "50"
    "bottom-right"
    "20"
    "20"
    "20"
    ""
    false.

(** [apiCustomization.useChatCustomCSS ?? defaultCustomization.useChatCustomCSS] *)
Definition nullish (v : option bool) (d : bool) : bool :=
  match v with
  | Some b => b
  | None => d
  end.

(** The object literal of [fetchCustomization]: each field is
    [apiCustomization.f || defaultCustomization.f], the title falls back
    through [botName], the two switches use [??]. *)
Definition merge (bot botName : string) (api : ApiCustomization)
  : EmbedCustomization :=
  let d := defaultCustomization bot in
  mkCustomization bot
    (JS.or_default (JS.or_else (api_headerTitle api) (Some botName)) (headerTitle d))
    (JS.or_default (api_headerSubtitle api) (headerSubtitle d))
    (JS.or_default (api_placeholder api) (placeholder d))
    (JS.or_default (api_primaryColor api) (primaryColor d))
    (JS.or_default (api_backgroundColor api) (backgroundColor d))
    (JS.or_default (api_messageBackgroundColor api) (messageBackgroundColor d))
    (JS.or_default (api_userMessageColor api) (userMessageColor d))
    (JS.or_default (api_botMessageColor api) (botMessageColor d))
    (JS.or_default (api_textColor api) (textColor d))
    (JS.or_default (api_borderRadius api) (borderRadius d))
    (JS.or_default (api_fontFamily api) (fontFamily d))
    (JS.or_default (api_headerBackground api) (headerBackground d))
    (JS.or_default (api_chatCustomCSS api) (chatCustomCSS d))
    (nullish (api_useChatCustomCSS api) (useChatCustomCSS d))
    (JS.or_default (api_buttonBackground api) (buttonBackground d))
    (JS.or_default (api_buttonColor api) (buttonColor d))
    (JS.or_default (api_buttonSize api) (buttonSize d))
    (JS.or_default (api_buttonBorderRadius api) (buttonBorderRadius d))
    (JS.or_default (api_buttonPosition api) (buttonPosition d))
    (JS.or_default (api_buttonBottom api) (buttonBottom d))
    (JS.or_default (api_buttonRight api) (buttonRight d))
    (JS.or_default (api_buttonLeft api) (buttonLeft d))
    (JS.or_default (api_buttonCustomCSS api) (buttonCustomCSS d))
    (nullish (api_useButtonCustomCSS api) (useButtonCustomCSS d)).

(** [{ ...defaultCustomization, botId, headerTitle: botName ||
    defaultCustomization.headerTitle }], the value of [handleReset] and of
    the [catch] of [fetchCustomization]. *)
Definition resetValue (bot botName : string) : EmbedCustomization :=
  let d := defaultCustomization bot in
  mkCustomization bot
    (JS.or_default (Some botName) (headerTitle d))
    (headerSubtitle d)
    (placeholder d)
    (primaryColor d)
    (backgroundColor d)
    (messageBackgroundColor d)
    (userMessageColor d)
    (botMessageColor d)
    (textColor d)
    (borderRadius d)
    (fontFamily d)
    (headerBackground d)
    (chatCustomCSS d)
    (useChatCustomCSS d)
    (buttonBackground d)
    (buttonColor d)
    (buttonSize d)
    (buttonBorderRadius d)
    (buttonPosition d)
    (buttonBottom d)
    (buttonRight d)
    (buttonLeft d)
    (buttonCustomCSS d)
    (useButtonCustomCSS d).

(** What [fetchCustomization] stores: [None] is a rejected fetch or an
    undecodable body, [Some result] a parsed body with its [result] field
    ([data.result || {}]). *)
Definition fetchCustomization (bot botName : string)
           (response : option (option ApiCustomization)) : EmbedCustomization :=
  match response with
  | Some (Some api) => merge bot botName api
  | Some None => merge bot botName emptyApi
  | None => resetValue bot botName
  end.

(** The record [handleSave] posts, [JSON.stringify(customization)], read
    back as a [result]: every field present. *)
Definition saved (c : EmbedCustomization) : ApiCustomization :=
  mkApi (Some (headerTitle c)) (Some (headerSubtitle c)) (Some (placeholder c)) (Some (primaryColor c)) (Some (backgroundColor c)) (Some (messageBackgroundColor c)) (Some (userMessageColor c)) (Some (botMessageColor c)) (Some (textColor c)) (Some (borderRadius c)) (Some (fontFamily c)) (Some (headerBackground c)) (Some (chatCustomCSS c)) (Some (useChatCustomCSS c)) (Some (buttonBackground c)) (Some (buttonColor c)) (Some (buttonSize c)) (Some (buttonBorderRadius c)) (Some (buttonPosition c)) (Some (buttonBottom c)) (Some (buttonRight c)) (Some (buttonLeft c)) (Some (buttonCustomCSS c)) (Some (useButtonCustomCSS c)).

(** The fields of the visual editor: the strings that have a non-empty
    default. *)
Definition visualFields : list (EmbedCustomization -> string) :=
  [headerTitle; headerSubtitle; placeholder; primaryColor; backgroundColor;
   messageBackgroundColor; userMessageColor; botMessageColor; textColor;
   borderRadius; fontFamily; headerBackground; buttonBackground; buttonColor;
   buttonSize; buttonBorderRadius; buttonPosition; buttonBottom; buttonRight;
   buttonLeft].

(** No visual field is empty. *)
Definition complete (c : EmbedCustomization) : Prop :=
  Forall (fun field => field c <> "") visualFields.

End Customizer.

(** ** Custom CSS of the embed page

    The effect of [src/pages/embed.tsx] that keeps a [style] element with
    the id ["embed-custom-css"] in [document.head]. *)

Module CustomCSS.

(** An element of the page, by its id and its text. *)
Record Node : Type := mkNode {
  node_id : string;
  textContent : string
}.

Definition styleId : string := "embed-custom-css".

(** [document.getElementById(id)?.remove()]: the first element with the
    id, in document order, leaves the page. *)
Fixpoint removeById (i : string) (doc : list Node) : list Node :=
  match doc with
  | [] => []
  | n :: rest =>
      if String.eqb (node_id n) i then rest else n :: removeById i rest
  end.

(** The dependencies of the effect:
    [[customization?.useChatCustomCSS, customization?.chatCustomCSS]]. *)
Definition Deps : Type := (option bool * option string)%type.

Definition deps_eqb (a b : Deps) : bool :=
  match fst a, fst b with
  | Some x, Some y => Bool.eqb x y
  | None, None => true
  | _, _ => false
  end
  &&
  match snd a, snd b with
  | Some x, Some y => String.eqb x y
  | None, None => true
  | _, _ => false
  end.

(** [customization?.useChatCustomCSS && customization?.chatCustomCSS] *)
Definition enabled (d : Deps) : bool :=
  JS.truthy_flag (fst d) && JS.truthy_opt (snd d).

Definition cssOf (d : Deps) : string :=
  match snd d with
  | Some css => css
  | None => ""
  end.

(** The body of the effect on the children of [document.head]: the new
    document and whether a cleanup was returned. *)
Definition runEffect (d : Deps) (doc : list Node) : list Node * bool :=
  if enabled d
  then (removeById styleId doc ++ [mkNode styleId (cssOf d)], true)
  else (removeById styleId doc, false).

(** The cleanup the first branch returns. *)
Definition cleanup (doc : list Node) : list Node := removeById styleId doc.

(** The mounted component: the page, the dependencies of the last run and
    whether that run returned a cleanup. *)
Record Mounted : Type := mkMounted {
  page : list Node;
  deps : Deps;
  hasCleanup : bool
}.

Definition mount (d : Deps) (doc : list Node) : Mounted :=
  mkMounted (fst (runEffect d doc)) d (snd (runEffect d doc)).

(** A render with new values: when a dependency changed, the cleanup of
    the last run, if any, and then the effect. *)
Definition render (m : Mounted) (d : Deps) : Mounted :=
  if deps_eqb (deps m) d then m
  else
    let doc := if hasCleanup m then cleanup (page m) else page m in
    mkMounted (fst (runEffect d doc)) d (snd (runEffect d doc)).

Definition unmount (m : Mounted) : list Node :=
  if hasCleanup m then cleanup (page m) else page m.

(** The page has no element with the id of the style sheet. *)
Definition clean (doc : list Node) : Prop :=
  Forall (fun n => node_id n <> styleId) doc.

(** The shape the page keeps: the foreign nodes, and behind them the one
    style element when the style sheet is on. *)
Definition shaped (doc0 : list Node) (m : Mounted) : Prop :=
  page m = doc0 ++ (if enabled (deps m) then [mkNode styleId (cssOf (deps m))] else [])
  /\ hasCleanup m = enabled (deps m).

End CustomCSS.

(** ** The button preview of the customizer

    The style sheet [updateButtonPreview] puts into the preview box. *)

Module ButtonPreview.

Definition productionSelector : string := "#chatbot-widget-button".
Definition previewSelector : string := "#preview-button".

(** [s.replace(/pat/g, rep)] for a pattern and a replacement without
    special characters: every match is replaced, scanning from the left,
    matches not overlapping.  [skip] counts the characters of the current
    match that are still to be dropped. *)
Fixpoint replaceAllFrom (skip : nat) (pat rep s : string) : string :=
  match s with
  | EmptyString => EmptyString
  | String c rest =>
      match skip with
      | S n => replaceAllFrom n pat rep rest
      | O =>
          if String.prefix pat s
          then (rep ++ replaceAllFrom (String.length pat - 1) pat rep rest)%string
          else String c (replaceAllFrom O pat rep rest)
      end
  end.

Definition replaceAll (pat rep s : string) : string := replaceAllFrom 0 pat rep s.

(** The rule the preview gets when no custom CSS is in use. *)
Definition hoverRule : string := "
        #preview-button:hover {
          transform: scale(1.05);
          box-shadow: 0 6px 12px rgba(0, 0, 0, 0.3);
        }
      ".

(** [styleEl.textContent] *)
Definition previewStyle (useButtonCustomCSS : bool) (buttonCustomCSS : string)
  : string :=
  if useButtonCustomCSS && JS.truthy buttonCustomCSS
  then replaceAll productionSelector previewSelector buttonCustomCSS
  else hoverRule.

(** No character of the string is a hash sign. *)
Fixpoint hashFree (s : string) : bool :=
  match s with
  | EmptyString => true
  | String c rest => negb (Ascii.eqb c "#") && hashFree rest
  end.

End ButtonPreview.

(** ** Inline styles of the embed page

    The style helpers of [EmbedChat] and the inline styles it writes next
    to them. *)

Module EmbedStyles.

(** [EmbedCustomization] with the fields the embed page reads; the two
    fields of the custom style sheet are optional in the interface. *)
Record PageCustomization : Type := mkPage {
  headerTitle : string;
  headerSubtitle : string;
  placeholder : string;
  primaryColor : string;
  backgroundColor : string;
  userMessageColor : string;
  botMessageColor : string;
  textColor : string;
  borderRadius : string;
  fontFamily : string;
  headerBackground : string;
  chatCustomCSS : option string;
  useChatCustomCSS : option bool
}.

(** The [customization] cell: [null] until a record arrives. *)
Definition Customization : Type := option PageCustomization.

(** A style object: its properties in order, a value being a string or
    [undefined]. *)
Definition Style : Type := list (string * option string).

(** [customization?.field] *)
Definition read (c : Customization) (field : PageCustomization -> string)
  : option string :=
  option_map field c.

(** [customization?.useChatCustomCSS] *)
Definition switched (c : Customization) : bool :=
  JS.truthy_flag (match c with Some r => useChatCustomCSS r | None => None end).

(** [customization?.chatCustomCSS] *)
Definition sheet (c : Customization) : option string :=
  match c with Some r => chatCustomCSS r | None => None end.

(** [v || undefined] *)
Definition orUndefined (v : option string) : option string :=
  if JS.truthy_opt v then v else None.

(** The text a template literal gives for [v]. *)
Definition template (v : option string) : string :=
  match v with
  | Some s => s
  | None => "undefined"
  end.

(** [customization?.primaryColor ? `${customization.primaryColor}20` : undefined] *)
Definition tint (c : Customization) : option string :=
  if JS.truthy_opt (read c primaryColor)
  then Some (template (read c primaryColor) ++ "20")%string
  else None.

(** [customization?.borderRadius ? `${customization.borderRadius}px` : fallback] *)
Definition radius (c : Customization) (fallback : option string) : option string :=
  if JS.truthy_opt (read c borderRadius)
  then Some (template (read c borderRadius) ++ "px")%string
  else fallback.

Definition getContainerStyle (c : Customization) : Style :=
  if switched c then []
  else [("backgroundColor", orUndefined (read c backgroundColor));
        ("color", orUndefined (read c textColor));
        ("fontFamily", orUndefined (read c fontFamily))].

Definition getHeaderStyle (c : Customization) : Style :=
  if switched c then []
  else [("backgroundColor", orUndefined (read c headerBackground));
        ("borderRadius",
         match c with
         | Some r => Some (borderRadius r ++ "px " ++ borderRadius r ++ "px 0 0")%string
         | None => None
         end)].

Definition getBotIconStyle (c : Customization) : Style :=
  if switched c then []
  else [("backgroundColor", tint c);
        ("borderRadius", radius c None)].

Definition getUserMessageStyle (c : Customization) : Style :=
  if switched c then []
  else [("backgroundColor", orUndefined (read c userMessageColor));
        ("color", Some "#ffffff");
        ("borderRadius", radius c (Some "8px"))].

Definition getBotMessageStyle (c : Customization) : Style :=
  if switched c then []
  else [("backgroundColor", orUndefined (read c botMessageColor));
        ("color", orUndefined (read c textColor));
        ("borderRadius", radius c (Some "8px"))].

Definition getInputStyle (c : Customization) : Style :=
  if switched c then []
  else [("borderRadius", radius c None);
        ("backgroundColor", orUndefined (read c backgroundColor));
        ("color", orUndefined (read c textColor))].

Definition getSendButtonStyle (c : Customization) : Style :=
  if switched c then []
  else [("backgroundColor", orUndefined (read c primaryColor));
        ("borderRadius", radius c None)].

(** The seven helpers. *)
Definition styleHelpers : list (Customization -> Style) :=
  [getContainerStyle; getHeaderStyle; getBotIconStyle; getUserMessageStyle;
   getBotMessageStyle; getInputStyle; getSendButtonStyle].

(** The style of the bot and user icons. *)
Definition iconStyle (c : Customization) : Style :=
  if switched c then [] else [("color", orUndefined (read c primaryColor))].

(** The style of the "Q&A Mode" badge. *)
Definition badgeStyle (c : Customization) : Style :=
  [("backgroundColor", tint c);
   ("color", orUndefined (read c primaryColor))].

(** The style of the button of option [opt] under message [msg]. *)
Definition branchOptionStyle (c : Customization) (msg : Message) (opt : string)
  : Style :=
  [("borderColor",
    if JS.strictEq (selectedBranch msg) opt
    then orUndefined (read c primaryColor) else None);
   ("backgroundColor",
    if JS.strictEq (selectedBranch msg) opt
    then orUndefined (Some (template (read c primaryColor) ++ "20")%string)
    else None);
   ("color", orUndefined (read c primaryColor))].

(** The properties a style object sets: those with a value. *)
Definition declared (st : Style) : list (string * string) :=
  flat_map (fun p => match snd p with
                     | Some v => [(fst p, v)]
                     | None => []
                     end) st.

(** The dependencies of the custom style sheet effect. *)
Definition depsOf (c : Customization) : CustomCSS.Deps :=
  (match c with Some r => useChatCustomCSS r | None => None end, sheet c).

End EmbedStyles.

(** * Properties *)

(** ** Strings *)

Module JSFacts.
Import JS.

Lemma truthy_false_iff (s : string) : truthy s = false <-> s = "".
Proof. destruct s; simpl; split; congruence. Qed.

Lemma allWhiteSpaceFrom_trimStartFrom (s : string) :
  forall skip,
    allWhiteSpaceFrom 0 (trimStartFrom skip s) = allWhiteSpaceFrom skip s.
Proof.
  induction s as [|c rest IH]; intros skip; [reflexivity|].
  cbn [trimStartFrom allWhiteSpaceFrom]. destruct skip as [|n]; [|apply IH].
  destruct (whiteSpaceLength (String c rest)) as [|n] eqn:E; [|apply IH].
  cbn [allWhiteSpaceFrom]. now rewrite E.
Qed.

(** What [trimStart] removes is white space, so it does not change
    whether the text is only white space. *)
Lemma allWhiteSpace_trimStart (s : string) :
  allWhiteSpace (trimStart s) = allWhiteSpace s.
Proof. apply allWhiteSpaceFrom_trimStartFrom. Qed.

Lemma trimStart_all (s : string) :
  allWhiteSpace s = true -> trimStart s = "".
Proof.
  unfold allWhiteSpace, trimStart. generalize 0 as skip.
  induction s as [|c rest IH]; intros skip; [reflexivity|].
  cbn [trimStartFrom allWhiteSpaceFrom]. destruct skip as [|n]; [|apply IH].
  destruct (whiteSpaceLength (String c rest)); [discriminate | apply IH].
Qed.

Lemma trimEnd_empty_iff (s : string) :
  trimEnd s = "" <-> allWhiteSpace s = true.
Proof.
  destruct s as [|c rest]; [split; reflexivity|].
  cbn [trimEnd]. destruct (allWhiteSpace (String c rest)); split; congruence.
Qed.

(** [s.trim()] is empty exactly for the empty and whitespace-only
    strings. *)
Lemma trim_empty_iff (s : string) :
  trim s = "" <-> allWhiteSpace s = true.
Proof.
  unfold trim. rewrite trimEnd_empty_iff. now rewrite allWhiteSpace_trimStart.
Qed.

Lemma prefix_app (p s : string) : String.prefix p (p ++ s)%string = true.
Proof.
  induction p as [|c p IH]; simpl.
  - destruct s; reflexivity.
  - destruct (ascii_dec c c); [exact IH | congruence].
Qed.

Lemma drop_app (p s : string) : drop (String.length p) (p ++ s)%string = s.
Proof. induction p as [|c p IH]; simpl; [destruct s; reflexivity | exact IH]. Qed.

Lemma replaceFirst_unfold (p s : string) :
  replaceFirst p s =
  if String.prefix p s then drop (String.length p) s
  else match s with
       | EmptyString => EmptyString
       | String c rest => String c (replaceFirst p rest)
       end.
Proof. destruct s; reflexivity. Qed.

(** A pattern at the front of the string is the first occurrence. *)
Lemma replaceFirst_prefix (p s : string) : replaceFirst p (p ++ s)%string = s.
Proof. rewrite replaceFirst_unfold, prefix_app. apply drop_app. Qed.

(** Without an occurrence [replace] returns its receiver. *)
Lemma replaceFirst_absent (p s : string) :
  occurs p s = false -> replaceFirst p s = s.
Proof.
  induction s as [|c rest IH]; simpl; intros H;
    apply orb_false_iff in H as [Hp Hrest]; rewrite Hp; [reflexivity|].
  f_equal. exact (IH Hrest).
Qed.

End JSFacts.

(** ** Proof automation for the handlers *)

(** Case split on an innermost scrutinee of the goal. *)
Ltac branch :=
  match goal with
  | |- context [match ?x with _ => _ end] =>
      lazymatch x with
      | context [match _ with _ => _ end] => fail
      | _ => destruct x eqn:?
      end
  end.

Ltac branches := repeat (simpl in *; try branch).

(** ** The finished flag *)

Section Finished.

Implicit Types (sf : Surface) (s : State) (k : Clock) (o : Outcome)
         (clk : nat -> Clock) (op : Op).

Lemma handleAskQuestion_finished (s : State) (k : Clock) :
  flowFinished (fst (handleAskQuestion s k)) = flowFinished s.
Proof. unfold handleAskQuestion. branches; reflexivity. Qed.

Lemma handleAskQuestion_resume_finished sf (s : State) (o : Outcome) clk :
  flowFinished (fst (handleAskQuestion_resume sf s o clk)) = flowFinished s.
Proof.
  unfold handleAskQuestion_resume, handleAskQuestion_try, handleAskQuestion_catch,
    tryCatch, awaitResponse, bind, throw, ret.
  destruct sf; branches; reflexivity.
Qed.

Lemma sendFlowStep_finished s toSend isBranch sid k :
  flowFinished (fst (sendFlowStep s toSend isBranch sid k)) = flowFinished s.
Proof. reflexivity. Qed.

Lemma handleSendMessage_finished sf s overrideInput isBranch k :
  flowFinished (fst (handleSendMessage sf s overrideInput isBranch k))
  = flowFinished s.
Proof.
  unfold handleSendMessage.
  destruct sf; branches;
    rewrite ?handleAskQuestion_finished; congruence.
Qed.

(** The rest of a flow step can raise the flag and never lowers it. *)
Lemma handleSendMessage_resume_finished sf s (o : Outcome) clk :
  flowFinished s = true ->
  flowFinished (fst (handleSendMessage_resume sf s o clk)) = true.
Proof.
  unfold handleSendMessage_resume, handleSendMessage_try, handleSendMessage_catch,
    tryCatch, awaitResponse, bind, throw, ret.
  intros H. destruct sf; branches; assumption || reflexivity.
Qed.

Lemma initFlow_finished sf s (o : Outcome) clk :
  flowFinished s = true ->
  flowFinished (fst (initFlow sf s o clk)) = true.
Proof.
  unfold initFlow, initFlow_try, initFlow_catch,
    tryCatch, awaitResponse, bind, throw, ret.
  intros H. destruct sf; branches; assumption || reflexivity.
Qed.

Lemma startFlowEffect_finished sf s (o : Outcome) clk :
  flowFinished s = true ->
  flowFinished (fst (startFlowEffect sf s o clk)) = true.
Proof.
  intros H. unfold startFlowEffect.
  destruct sf; try (destruct (isPreview s)); simpl;
    auto using initFlow_finished.
Qed.

Lemma handleBranchOptionClick_finished sf s option messageId k :
  flowFinished (fst (handleBranchOptionClick sf s option messageId k))
  = flowFinished s.
Proof. unfold handleBranchOptionClick. rewrite handleSendMessage_finished. reflexivity. Qed.

Lemma settle_finished sf (sp : State * Pending) (o : Outcome) clk :
  flowFinished (fst sp) = true ->
  flowFinished (fst (settle sf sp o clk)) = true.
Proof.
  intros H. unfold settle. destruct (snd sp).
  - exact H.
  - now apply handleSendMessage_resume_finished.
  - now rewrite handleAskQuestion_resume_finished.
  - exact H.
Qed.

Lemma apply_finished sf (s : State) (op : Op) :
  flowFinished s = true ->
  flowFinished (fst (apply sf s op)) = true.
Proof.
  intros H. destruct op as [o clk|[]]; simpl.
  - now apply startFlowEffect_finished.
  - apply settle_finished. now rewrite handleSendMessage_finished.
  - apply settle_finished. unfold handleConfirmationClick.
    now rewrite handleSendMessage_finished.
  - apply settle_finished. now rewrite handleBranchOptionClick_finished.
  - apply settle_finished. now rewrite handleAskQuestion_finished.
Qed.

Lemma run_app sf (s : State) (ops1 ops2 : list Op) :
  run sf s (ops1 ++ ops2) = run sf (run sf s ops1) ops2.
Proof. revert s. induction ops1 as [|op ops1 IH]; intros s; simpl; auto. Qed.

Lemma run_finished sf (s : State) (ops : list Op) :
  flowFinished s = true -> flowFinished (run sf s ops) = true.
Proof.
  revert s. induction ops as [|op ops IH]; intros s H; simpl; [assumption|].
  apply IH. now apply apply_finished.
Qed.

End Finished.

(** ** The message list *)

Section Growth.

Implicit Types (sf : Surface) (s : State) (k : Clock) (o : Outcome)
         (clk : nat -> Clock) (op : Op) (T : list (string * string))
         (a b c : Message) (l : list Message).

Lemma kept_refl T a : kept T a a.
Proof. now left. Qed.

Lemma kept_id {T a b} : kept T a b -> id b = id a.
Proof. intros [->|(option & _ & ->)]; reflexivity. Qed.

Lemma kept_weaken T T' a b : incl T T' -> kept T a b -> kept T' a b.
Proof.
  intros Hincl [->|(option & Hin & ->)]; [now left|].
  right. exists option. split; [now apply Hincl | reflexivity].
Qed.

Lemma kept_trans T1 T2 a b c :
  kept T1 a b -> kept T2 b c -> kept (T1 ++ T2) a c.
Proof.
  intros Hab Hbc. pose proof (kept_id Hab) as Hid.
  destruct Hbc as [->|(o2 & Hin2 & ->)].
  - eapply kept_weaken; [|exact Hab]. now apply incl_appl.
  - right. exists o2. rewrite Hid in Hin2. split.
    + apply in_or_app. now right.
    + destruct Hab as [->|(o1 & _ & ->)]; reflexivity.
Qed.

Lemma Forall2_kept_refl T l : Forall2 (kept T) l l.
Proof. induction l; constructor; auto using kept_refl. Qed.

Lemma Forall2_kept_trans T1 T2 l1 l2 l3 :
  Forall2 (kept T1) l1 l2 -> Forall2 (kept T2) l2 l3 ->
  Forall2 (kept (T1 ++ T2)) l1 l3.
Proof.
  intros H12. revert l3.
  induction H12 as [|a b l1 l2 Hab _ IH]; intros l3 H23; inversion H23; subst.
  - constructor.
  - constructor; [eapply kept_trans; eassumption | now apply IH].
Qed.

Lemma grows_refl T l : grows T l l.
Proof. exists l, []. split; [now rewrite app_nil_r | apply Forall2_kept_refl]. Qed.

Lemma grows_app T l added : grows T l (l ++ added).
Proof. exists l, added. split; [reflexivity | apply Forall2_kept_refl]. Qed.

Lemma grows_weaken T T' l l' : incl T T' -> grows T l l' -> grows T' l l'.
Proof.
  intros Hincl (same & added & -> & HF). exists same, added.
  split; [reflexivity|].
  eapply Forall2_impl; [|exact HF]. intros a b. now apply kept_weaken.
Qed.

Lemma grows_trans T1 T2 l1 l2 l3 :
  grows T1 l1 l2 -> grows T2 l2 l3 -> grows (T1 ++ T2) l1 l3.
Proof.
  intros (same1 & added1 & -> & H1) (same2 & added2 & -> & H2).
  apply Forall2_app_inv_l in H2 as (front & back & Hfront & _ & ->).
  exists front, (back ++ added2). split; [now rewrite app_assoc|].
  eapply Forall2_kept_trans; eassumption.
Qed.

Lemma grows_length T l l' : grows T l l' -> length l <= length l'.
Proof.
  intros (same & added & -> & HF). apply Forall2_length in HF.
  rewrite length_app. lia.
Qed.

(** Every old event is still at its index, kept. *)
Lemma grows_nth T l l' i a :
  grows T l l' -> nth_error l i = Some a ->
  exists b, nth_error l' i = Some b /\ kept T a b.
Proof.
  intros (same & added & -> & HF). revert i.
  induction HF as [|x y l same Hxy _ IH]; intros [|i] Hnth; simpl in *;
    try discriminate.
  - injection Hnth as <-. now exists y.
  - now apply IH.
Qed.

Lemma markSelected_kept option messageId l :
  Forall2 (kept [(option, messageId)]) l (markSelected option messageId l).
Proof.
  induction l as [|a l IH]; simpl; constructor; [|exact IH].
  destruct (String.eqb (id a) messageId) eqn:E; [|now left].
  apply String.eqb_eq in E. right. exists option.
  split; [left; now rewrite E | reflexivity].
Qed.

Lemma grows_markSelected option messageId l :
  grows [(option, messageId)] l (markSelected option messageId l).
Proof.
  exists (markSelected option messageId l), [].
  split; [now rewrite app_nil_r | apply markSelected_kept].
Qed.

End Growth.

Ltac appended :=
  first [ eexists; reflexivity
        | exists []; symmetry; apply app_nil_r ].

Section Appending.

Implicit Types (sf : Surface) (s : State) (k : Clock) (o : Outcome)
         (clk : nat -> Clock) (op : Op) (sub : Submission)
         (T : list (string * string)).

Lemma appends_grows T (old new : list Message) : appends old new -> grows T old new.
Proof. intros (added & ->). apply grows_app. Qed.

Lemma handleAskQuestion_appends s k :
  appends (messages s) (messages (fst (handleAskQuestion s k))).
Proof. unfold handleAskQuestion, appends. branches; appended. Qed.

Lemma handleAskQuestion_resume_appends sf s o clk :
  appends (messages s) (messages (fst (handleAskQuestion_resume sf s o clk))).
Proof.
  unfold handleAskQuestion_resume, handleAskQuestion_try, handleAskQuestion_catch,
    tryCatch, awaitResponse, bind, throw, ret, appends.
  destruct sf; branches; appended.
Qed.

Lemma handleSendMessage_appends sf s overrideInput isBranch k :
  appends (messages s)
          (messages (fst (handleSendMessage sf s overrideInput isBranch k))).
Proof.
  unfold handleSendMessage.
  destruct sf; branches;
    try apply handleAskQuestion_appends; unfold appends; appended.
Qed.

Lemma handleSendMessage_resume_appends sf s o clk :
  appends (messages s) (messages (fst (handleSendMessage_resume sf s o clk))).
Proof.
  unfold handleSendMessage_resume, handleSendMessage_try, handleSendMessage_catch,
    tryCatch, awaitResponse, bind, throw, ret, appends.
  destruct sf; branches; appended.
Qed.

Lemma appends_trans (l1 l2 l3 : list Message) :
  appends l1 l2 -> appends l2 l3 -> appends l1 l3.
Proof.
  intros (x & ->) (y & ->). exists (x ++ y). now rewrite app_assoc.
Qed.

Lemma settle_appends sf (sp : State * Pending) o clk :
  appends (messages (fst sp)) (messages (fst (settle sf sp o clk))).
Proof.
  unfold settle. destruct (snd sp).
  - exists []. symmetry. apply app_nil_r.
  - apply handleSendMessage_resume_appends.
  - apply handleAskQuestion_resume_appends.
  - eexists. reflexivity.
Qed.

(** One submission: the old events are kept, and only a branch
    submission can touch the selection of the events it names. *)
Lemma submission_grows sf s sub :
  grows (branchTarget (submit sub)) (messages s)
        (messages (fst (submission sf s sub))).
Proof.
  destruct sub as [txt k o clk|answer k o clk|option eventId k o clk|q k o clk];
    simpl.
  - apply appends_grows. eapply appends_trans; [|apply settle_appends].
    apply (handleSendMessage_appends sf (setInput s txt)).
  - apply appends_grows. eapply appends_trans; [|apply settle_appends].
    apply handleSendMessage_appends.
  - rewrite <- (app_nil_r [(option, eventId)]).
    eapply grows_trans; [apply grows_markSelected|].
    apply appends_grows. eapply appends_trans; [|apply settle_appends].
    unfold handleBranchOptionClick.
    apply (handleSendMessage_appends sf (setMessages s (markSelected option eventId))).
  - apply appends_grows. eapply appends_trans; [|apply settle_appends].
    apply (handleAskQuestion_appends (setInput s q)).
Qed.

Lemma run_submissions_grow sf s (subs : list Submission) :
  grows (branchTargets (map submit subs)) (messages s)
        (messages (run sf s (map submit subs))).
Proof.
  revert s. induction subs as [|sub subs IH]; intros s.
  - apply grows_refl.
  - change (branchTargets (map submit (sub :: subs)))
      with (branchTarget (submit sub) ++ branchTargets (map submit subs)).
    simpl run. eapply grows_trans; [apply submission_grows | apply IH].
Qed.

End Appending.

(** ** Rejected submissions *)

Section Rejection.

Implicit Types (sf : Surface) (s : State) (k : Clock) (o : Outcome)
         (clk : nat -> Clock).

Lemma blank_input_not_truthy s :
  JS.allWhiteSpace (input s) = true -> JS.truthy (JS.trim (input s)) = false.
Proof.
  intros H. apply JSFacts.truthy_false_iff. now apply JSFacts.trim_empty_iff.
Qed.

(** [handleAskQuestion] returns at its guard. *)
Lemma handleAskQuestion_rejects s k :
  JS.allWhiteSpace (input s) = true \/ isLoading s = true ->
  handleAskQuestion s k = (s, NoCall).
Proof.
  unfold handleAskQuestion. intros [H|H].
  - now rewrite (blank_input_not_truthy s H).
  - rewrite H, orb_true_r. reflexivity.
Qed.

(** [handleSendMessage()] with no override returns at a guard. *)
Lemma handleSendMessage_rejects sf s k :
  JS.allWhiteSpace (input s) = true \/
  isLoading s = true \/
  (JS.truthy_opt (sessionId s) = false /\ flowFinished s = false /\
   (sf = EmbedChat -> isPreview s = false)) ->
  handleSendMessage sf s None None k = (s, NoCall).
Proof.
  intros H. unfold handleSendMessage, messageToSend. simpl JS.or_default.
  destruct H as [H|[H|(Hsid & Hfin & Hprev)]].
  - destruct sf; rewrite ?(blank_input_not_truthy s H); simpl;
      try reflexivity;
      (destruct (flowFinished s); [apply handleAskQuestion_rejects; now left
                                  | reflexivity]).
  - destruct sf; rewrite ?H, ?orb_true_r; try reflexivity;
      (destruct (flowFinished s); [apply handleAskQuestion_rejects; now right
                                  | rewrite ?H, ?orb_true_r; reflexivity]).
  - rewrite Hfin.
    destruct sf; rewrite ?(Hprev eq_refl);
      destruct (negb (JS.truthy (JS.trim (input s))) || isLoading s);
      try reflexivity;
      destruct (sessionId s) as [sid|]; try reflexivity;
      simpl in Hsid; rewrite Hsid; reflexivity.
Qed.

(** While a call is in flight [handleSendMessage] returns at a guard
    whatever its arguments. *)
Lemma handleSendMessage_loading sf s overrideInput isBranch k :
  isLoading s = true ->
  handleSendMessage sf s overrideInput isBranch k = (s, NoCall).
Proof.
  intros H. unfold handleSendMessage, handleAskQuestion.
  destruct sf; rewrite ?H, ?orb_true_r; try reflexivity;
    destruct (flowFinished s); rewrite ?H, ?orb_true_r; reflexivity.
Qed.

Lemma markSelected_length option messageId (l : list Message) :
  length (markSelected option messageId l) = length l.
Proof. apply length_map. Qed.

Lemma markSelected_hit option messageId (l : list Message) i msg :
  nth_error l i = Some msg -> id msg = messageId ->
  nth_error (markSelected option messageId l) i
  = Some (withSelectedBranch msg option).
Proof.
  intros Hnth Hid. unfold markSelected. rewrite nth_error_map, Hnth. simpl.
  rewrite Hid, String.eqb_refl. reflexivity.
Qed.

Lemma markSelected_miss option messageId (l : list Message) i msg :
  nth_error l i = Some msg -> id msg <> messageId ->
  nth_error (markSelected option messageId l) i = Some msg.
Proof.
  intros Hnth Hid. unfold markSelected. rewrite nth_error_map, Hnth. simpl.
  apply String.eqb_neq in Hid. rewrite Hid. reflexivity.
Qed.

End Rejection.

(** ** What a parsed response does to the state *)

Section Responses.

Implicit Types (sf : Surface) (s : State) (k : Clock) (o : Outcome)
         (clk : nat -> Clock) (data : Data).

Lemma forEachMessage_app (pre post : list RawMessage) clk :
  forEachMessage (pre ++ post) clk
  = (fst (forEachMessage pre clk)
       ++ fst (forEachMessage post (fun i => clk (length pre + i))),
     snd (forEachMessage pre clk)
       ++ snd (forEachMessage post (fun i => clk (length pre + i)))).
Proof.
  revert clk. induction pre as [|msg pre IH]; intros clk; simpl.
  - now destruct (forEachMessage post clk).
  - rewrite IH. simpl. now rewrite !app_assoc.
Qed.

(** [initFlow] on a parsed body; [res.ok] is not looked at. *)
Lemma initFlow_response sf s ok data clk :
  let raw := messagesOrEmpty data in
  let r := initFlow sf s (Response ok data) clk in
  messages (fst r)
  = fst (forEachMessage raw clk)
      ++ (if data_finished data
          then [botMessage startFinishedText (clk (length raw))] else []) /\
  flowFinished (fst r) = (data_finished data || flowFinished s) /\
  currentPausedFor (fst r)
  = (if data_finished data then None else data_awaitingInput data) /\
  sessionId (fst r)
  = (if JS.truthy_opt (data_sessionId data)
     then data_sessionId data else sessionId s) /\
  snd r = snd (forEachMessage raw clk).
Proof.
  unfold initFlow, initFlow_try, tryCatch, awaitResponse, bind, ret. simpl.
  destruct (data_finished data), (data_awaitingInput data),
    (JS.truthy_opt (data_sessionId data)); simpl;
    rewrite ?app_nil_r; repeat split.
Qed.

(** The rest of [handleSendMessage] on a parsed body of an ok
    response. *)
Lemma handleSendMessage_resume_ok sf s data clk :
  let raw := messagesOrEmpty data in
  let r := handleSendMessage_resume sf s (Response true data) clk in
  messages (fst r)
  = messages s
      ++ fst (forEachMessage raw clk)
      ++ (if data_finished data
          then [botMessage stepFinishedText (clk (length raw))] else []) /\
  flowFinished (fst r) = (data_finished data || flowFinished s) /\
  currentPausedFor (fst r)
  = (if data_finished data then None else data_awaitingInput data) /\
  sessionId (fst r) = sessionId s /\
  isLoading (fst r) = false /\
  snd r = snd (forEachMessage raw clk).
Proof.
  unfold handleSendMessage_resume, handleSendMessage_try, tryCatch,
    awaitResponse, bind, ret. simpl.
  destruct (data_finished data), (data_awaitingInput data); simpl;
    rewrite ?app_nil_r; repeat split.
Qed.

End Responses.

(** ** Redirects *)

Section Redirects.

Implicit Types (msg r p : RawMessage) (k : Clock) (clk : nat -> Clock).

Lemma onMessage_redirect r k :
  msg_type r = Some "redirect" ->
  onMessage r k
  = ([], match content r with
         | Some c =>
             if JS.truthy c
             then [WindowOpen (if JS.truthy (JS.replaceFirst redirectPrefix c)
                               then JS.replaceFirst redirectPrefix c else c)]
             else []
         | None => []
         end).
Proof.
  intros H. unfold onMessage, redirectUrl, JS.or_else. rewrite H.
  cbn [JS.strictEq String.eqb Ascii.eqb Bool.eqb].
  destruct (content r) as [c|]; [|reflexivity].
  cbn [JS.truthy_opt].
  destruct (JS.truthy (JS.replaceFirst redirectPrefix c)) eqn:E;
    cbv beta iota; [|reflexivity].
  rewrite E. destruct c; [discriminate E | reflexivity].
Qed.

Lemma onMessage_plain p k :
  isPlain p = true -> onMessage p k = ([plainPrompt p k], []).
Proof.
  unfold isPlain, isBranchPrompt, isRedirect, onMessage.
  destruct (JS.strictEq (msg_type p) "redirect"); simpl; [discriminate|].
  destruct (JS.strictEq (msg_type p) "branch" && JS.truthy_flag (awaitingInput p));
    simpl; [discriminate | reflexivity].
Qed.

End Redirects.

(** ** Q&A mode *)

Section Asking.

Implicit Types (sf : Surface) (s : State) (k : Clock) (o : Outcome)
         (clk : nat -> Clock).

(** When [handleAskQuestion] sends, it has shown the trimmed input as a
    user message, emptied the input and raised the loading flag. *)
Lemma handleAskQuestion_issued s k s1 q :
  handleAskQuestion s k = (s1, AskCall q) ->
  q = JS.trim (input s) /\
  isLoading s = false /\
  s1 = setIsLoading
         (setInput (setMessages s (fun prev => prev ++ [userMessage q k])) "")
         true.
Proof.
  unfold handleAskQuestion.
  destruct (negb (JS.truthy (JS.trim (input s))) || isLoading s) eqn:E;
    [discriminate|].
  apply orb_false_iff in E as [_ El].
  intros H. injection H as <- <-. repeat split. exact El.
Qed.

(** In Q&A mode a send is a question, on every surface (the embed page
    not being in preview mode). *)
Lemma handleSendMessage_routes_to_ask sf s k :
  flowFinished s = true ->
  (sf = EmbedChat -> isPreview s = false) ->
  handleSendMessage sf s None None k = handleAskQuestion s k.
Proof.
  intros Hfin Hprev. unfold handleSendMessage, messageToSend. rewrite Hfin.
  destruct sf; try reflexivity.
  rewrite (Hprev eq_refl). simpl JS.or_default.
  unfold handleAskQuestion.
  destruct (negb (JS.truthy (JS.trim (input s))) || isLoading s); reflexivity.
Qed.

(** The [try] block of the ask handler throws exactly on [askThrows]. *)
Lemma handleAskQuestion_try_throws s o clk :
  askThrows o = true <-> exists e, handleAskQuestion_try s o clk = inl e.
Proof.
  unfold handleAskQuestion_try, awaitResponse, bind, throw, ret, askThrows.
  destruct o as [|ok|[] data]; simpl;
    try (split; [intros _; eexists; reflexivity | reflexivity]).
  destruct (data_result data); simpl; split;
    try discriminate; try (intros [e He]; discriminate He);
    try (intros _; eexists; reflexivity); reflexivity.
Qed.

Lemma handleAskQuestion_resume_reply sf s o clk :
  let r := handleAskQuestion_resume sf s o clk in
  messages (fst r)
  = messages s
      ++ [botMessage (if askThrows o then askApologyText
                      else match usableAnswer o with
                           | Some a => a
                           | None => noAnswerText
                           end) (clk 0%nat)] /\
  isLoading (fst r) = false /\
  currentPausedFor (fst r) = currentPausedFor s /\
  flowFinished (fst r) = flowFinished s /\
  sessionId (fst r) = sessionId s /\
  input (fst r) = input s.
Proof.
  unfold handleAskQuestion_resume, handleAskQuestion_try, handleAskQuestion_catch,
    tryCatch, awaitResponse, bind, throw, ret, askThrows, usableAnswer.
  destruct o as [|ok|[] data]; simpl;
    try (destruct sf; repeat split; fail).
  destruct (data_result data) as [[[[|a ans]|]]|]; simpl;
    destruct sf; repeat split.
Qed.

End Asking.

(** ** No pause in Q&A mode *)

Section Quiet.

Implicit Types (sf : Surface) (s : State) (k : Clock) (o : Outcome)
         (clk : nat -> Clock) (sub : Submission).

Lemma handleAskQuestion_paused s k :
  currentPausedFor (fst (handleAskQuestion s k)) = currentPausedFor s.
Proof. unfold handleAskQuestion. branches; reflexivity. Qed.

Lemma handleAskQuestion_keeps_quiet s k :
  quiet s ->
  match snd (handleAskQuestion s k) with
  | RespondCall _ _ => flowFinished (fst (handleAskQuestion s k)) = false
  | NoCall | AskCall _ | PreviewTimer => quiet (fst (handleAskQuestion s k))
  end.
Proof.
  intros Hq. unfold handleAskQuestion.
  destruct (negb (JS.truthy (JS.trim (input s))) || isLoading s); exact Hq.
Qed.

(** A respond call only leaves a flow that has not finished; every other
    way out of [handleSendMessage] keeps the pause of a finished flow. *)
Lemma handleSendMessage_pending sf s overrideInput isBranch k :
  quiet s ->
  let sp := handleSendMessage sf s overrideInput isBranch k in
  match snd sp with
  | RespondCall _ _ => flowFinished (fst sp) = false
  | NoCall | AskCall _ | PreviewTimer => quiet (fst sp)
  end.
Proof.
  intros Hq.
  cbv zeta. unfold handleSendMessage.
  destruct sf.
  - destruct (negb (JS.truthy (messageToSend s overrideInput)) || isLoading s);
      [exact Hq|].
    destruct (isPreview s); [exact Hq|].
    destruct (flowFinished s) eqn:Hf; [now apply handleAskQuestion_keeps_quiet|].
    destruct (sessionId s) as [sid|]; [|exact Hq].
    destruct (JS.truthy sid); [exact Hf | exact Hq].
  - destruct (flowFinished s) eqn:Hf; [now apply handleAskQuestion_keeps_quiet|].
    destruct (negb (JS.truthy (messageToSend s overrideInput)) || isLoading s);
      [exact Hq|].
    destruct (sessionId s) as [sid|]; [|exact Hq].
    destruct (JS.truthy sid); [exact Hf | exact Hq].
  - destruct (flowFinished s) eqn:Hf; [now apply handleAskQuestion_keeps_quiet|].
    destruct (negb (JS.truthy (messageToSend s overrideInput)) || isLoading s);
      [exact Hq|].
    destruct (sessionId s) as [sid|]; [|exact Hq].
    destruct (JS.truthy sid); [exact Hf | exact Hq].
Qed.

Lemma settle_quiet sf (sp : State * Pending) o clk :
  match snd sp with
  | RespondCall _ _ => flowFinished (fst sp) = false
  | NoCall | AskCall _ | PreviewTimer => quiet (fst sp)
  end ->
  quiet (fst (settle sf sp o clk)).
Proof.
  unfold settle, quiet. destruct (snd sp); intros H.
  - exact H.
  - destruct o as [|ok|[] data].
    + destruct sf; simpl; congruence.
    + destruct sf; simpl; congruence.
    + destruct (handleSendMessage_resume_ok sf (fst sp) data clk)
        as (_ & Hf & Hp & _).
      rewrite Hf, Hp, H, orb_false_r. now intros ->.
    + unfold handleSendMessage_resume, handleSendMessage_try, tryCatch,
        awaitResponse, bind, throw. destruct sf; simpl; congruence.
  - rewrite handleAskQuestion_resume_finished.
    destruct (handleAskQuestion_resume_reply sf (fst sp) o clk)
      as (_ & _ & Hp & _).
    rewrite Hp. exact H.
  - exact H.
Qed.

Lemma submission_quiet sf s sub :
  quiet s -> quiet (fst (submission sf s sub)).
Proof.
  intros Hq.
  destruct sub as [txt k o clk|answer k o clk|option eventId k o clk|q k o clk];
    simpl; apply settle_quiet.
  - now apply (handleSendMessage_pending sf (setInput s txt)).
  - now apply handleSendMessage_pending.
  - now apply (handleSendMessage_pending
                 sf (setMessages s (markSelected option eventId))).
  - now apply (handleAskQuestion_keeps_quiet (setInput s q)).
Qed.

Lemma start_quiet sf s o clk :
  flowFinished s = false -> quiet (fst (startFlowEffect sf s o clk)).
Proof.
  intros Hf.
  assert (Hinit : quiet (fst (initFlow sf s o clk))).
  { unfold quiet. destruct o as [|ok|ok data].
    - destruct sf; simpl; congruence.
    - destruct sf; simpl; congruence.
    - destruct (initFlow_response sf s ok data clk) as (_ & Hfin & Hp & _).
      rewrite Hfin, Hp, Hf, orb_false_r. now intros ->. }
  unfold startFlowEffect.
  destruct sf; try exact Hinit.
  destruct (isPreview s); [|exact Hinit].
  unfold quiet. simpl. congruence.
Qed.

(** From a fresh session, whatever the start response and the
    submissions, a finished flow has no pause. *)
Lemma qna_mode_has_no_pause sf (preview : bool) o clk (subs : list Submission) :
  let s := run sf (fst (apply sf (initialState preview) (start o clk)))
               (map submit subs) in
  flowFinished s = true -> currentPausedFor s = None.
Proof.
  cbv zeta.
  assert (Hrun : forall s, quiet s -> quiet (run sf s (map submit subs))).
  { induction subs as [|sub subs IH]; intros s Hq; simpl; [exact Hq|].
    apply IH. now apply submission_quiet. }
  apply Hrun. simpl apply. now apply start_quiet.
Qed.

End Quiet.

(** ** Events *)

Section Events.

Implicit Types (sf : Surface) (s : State) (ss : Session) (k : Clock) (o : Outcome)
         (clk : nat -> Clock) (i : Interaction) (ev : Event)
         (sp : State * Pending).

Lemma play_app sf ss (t1 t2 : list Event) :
  play sf ss (t1 ++ t2) = play sf (play sf ss t1) t2.
Proof. revert ss. induction t1 as [|ev t1 IH]; intros ss; simpl; auto. Qed.

Lemma react_finished sf ss ev :
  flowFinished (ui ss) = true -> flowFinished (ui (react sf ss ev)) = true.
Proof.
  intros H. destruct ev as [o clk|clk|[txt|k|answer k|option messageId k|o clk]];
    simpl.
  - now apply startFlowEffect_finished.
  - unfold previewMessagesEffect. destruct sf; try exact H.
    destruct (isPreview (ui ss)); exact H.
  - exact H.
  - now rewrite handleSendMessage_finished.
  - unfold handleConfirmationClick. now rewrite handleSendMessage_finished.
  - now rewrite handleBranchOptionClick_finished.
  - now apply (settle_finished sf (ui ss, inFlight ss)).
Qed.

Lemma play_finished sf ss (trace : list Event) :
  flowFinished (ui ss) = true -> flowFinished (ui (play sf ss trace)) = true.
Proof.
  revert ss. induction trace as [|ev trace IH]; intros ss H; simpl; [exact H|].
  apply IH. now apply react_finished.
Qed.

Lemma interact_grows sf ss i :
  grows (clickTarget (interaction i)) (messages (ui ss))
        (messages (ui (interact sf ss i))).
Proof.
  destruct i as [txt|k|answer k|option messageId k|o clk]; simpl.
  - apply grows_refl.
  - apply appends_grows, handleSendMessage_appends.
  - apply appends_grows, handleSendMessage_appends.
  - rewrite <- (app_nil_r [(option, messageId)]).
    eapply grows_trans; [apply grows_markSelected|].
    apply appends_grows. unfold handleBranchOptionClick.
    apply (handleSendMessage_appends
             sf (setMessages (ui ss) (markSelected option messageId))).
  - apply appends_grows. apply (settle_appends sf (ui ss, inFlight ss)).
Qed.

Lemma play_interactions_grow sf ss (acts : list Interaction) :
  grows (clickTargets (map interaction acts)) (messages (ui ss))
        (messages (ui (play sf ss (map interaction acts)))).
Proof.
  revert ss. induction acts as [|i acts IH]; intros ss.
  - apply grows_refl.
  - change (clickTargets (map interaction (i :: acts)))
      with (clickTarget (interaction i) ++ clickTargets (map interaction acts)).
    simpl play. eapply grows_trans; [apply interact_grows | apply IH].
Qed.

Lemma handleAskQuestion_launch s k :
  isLoading s = false ->
  let sp := handleAskQuestion s k in
  (snd sp = NoCall /\ fst sp = s) \/
  (snd sp <> NoCall /\ isLoading (fst sp) = true).
Proof.
  intros Hl. unfold handleAskQuestion.
  destruct (negb (JS.truthy (JS.trim (input s))) || isLoading s).
  - left. split; reflexivity.
  - right. split; [discriminate | reflexivity].
Qed.

(** A handler that does not return at a guard starts a call and raises
    the loading flag. *)
Lemma handleSendMessage_launch sf s overrideInput isBranch k :
  isLoading s = false ->
  let sp := handleSendMessage sf s overrideInput isBranch k in
  (snd sp = NoCall /\ fst sp = s) \/
  (snd sp <> NoCall /\ isLoading (fst sp) = true).
Proof.
  intros Hl. cbv zeta. unfold handleSendMessage.
  destruct sf.
  - destruct (negb (JS.truthy (messageToSend s overrideInput)) || isLoading s);
      [left; split; reflexivity|].
    destruct (isPreview s); [right; split; [discriminate | reflexivity]|].
    destruct (flowFinished s); [now apply handleAskQuestion_launch|].
    destruct (sessionId s) as [sid|]; [|left; split; reflexivity].
    destruct (JS.truthy sid);
      [right; split; [discriminate | reflexivity] | left; split; reflexivity].
  - destruct (flowFinished s); [now apply handleAskQuestion_launch|].
    destruct (negb (JS.truthy (messageToSend s overrideInput)) || isLoading s);
      [left; split; reflexivity|].
    destruct (sessionId s) as [sid|]; [|left; split; reflexivity].
    destruct (JS.truthy sid);
      [right; split; [discriminate | reflexivity] | left; split; reflexivity].
  - destruct (flowFinished s); [now apply handleAskQuestion_launch|].
    destruct (negb (JS.truthy (messageToSend s overrideInput)) || isLoading s);
      [left; split; reflexivity|].
    destruct (sessionId s) as [sid|]; [|left; split; reflexivity].
    destruct (JS.truthy sid);
      [right; split; [discriminate | reflexivity] | left; split; reflexivity].
Qed.

Lemma launch_steady sf ss s' overrideInput isBranch k :
  steady ss ->
  isLoading s' = isLoading (ui ss) ->
  steady (launch ss (handleSendMessage sf s' overrideInput isBranch k)).
Proof.
  intros Hs Hl. unfold steady, launch in *. simpl.
  destruct (isLoading (ui ss)) eqn:E.
  - rewrite (handleSendMessage_loading sf s' overrideInput isBranch k Hl). simpl.
    rewrite Hl. exact Hs.
  - destruct (handleSendMessage_launch sf s' overrideInput isBranch k Hl)
      as [[Hp Hst]|[Hp Hld]].
    + rewrite Hp, Hst, Hl. exact Hs.
    + rewrite Hld.
      destruct (snd (handleSendMessage sf s' overrideInput isBranch k));
        [congruence | | |]; split; discriminate.
Qed.

Lemma settle_clears sf sp o clk :
  (snd sp = NoCall -> isLoading (fst sp) = false) ->
  isLoading (fst (settle sf sp o clk)) = false.
Proof.
  unfold settle. destruct (snd sp); intros H.
  - now apply H.
  - reflexivity.
  - reflexivity.
  - reflexivity.
Qed.

Lemma react_steady sf ss ev : steady ss -> steady (react sf ss ev).
Proof.
  intros Hs. destruct ev as [o clk|clk|[txt|k|answer k|option messageId k|o clk]];
    simpl.
  - unfold steady in *. simpl.
    replace (isLoading (fst (startFlowEffect sf (ui ss) o clk)))
      with (isLoading (ui ss)); [exact Hs|].
    unfold startFlowEffect, initFlow, initFlow_try, initFlow_catch, tryCatch,
      awaitResponse, bind, throw, ret.
    destruct sf; branches; reflexivity.
  - unfold steady in *. simpl.
    replace (isLoading (previewMessagesEffect sf (ui ss) clk))
      with (isLoading (ui ss)); [exact Hs|].
    unfold previewMessagesEffect. destruct sf; try reflexivity.
    destruct (isPreview (ui ss)); reflexivity.
  - exact Hs.
  - now apply launch_steady.
  - now apply launch_steady.
  - now apply launch_steady.
  - unfold steady. simpl. split; [intros _|reflexivity].
    apply (settle_clears sf (ui ss, inFlight ss)). simpl. apply Hs.
Qed.

(** From a fresh session the loading flag tells whether a call is in
    flight. *)
Lemma loading_iff_in_flight sf (preview : bool) (trace : list Event) :
  let ss := play sf (mkSession (initialState preview) NoCall) trace in
  inFlight ss = NoCall <-> isLoading (ui ss) = false.
Proof.
  cbv zeta.
  assert (H : forall ss, steady ss -> steady (play sf ss trace)).
  { induction trace as [|ev trace IH]; intros ss Hs; simpl; [exact Hs|].
    apply IH. now apply react_steady. }
  apply (H (mkSession (initialState preview) NoCall)).
  unfold steady. simpl. split; reflexivity.
Qed.

(** A submission is its events, played on a session with nothing in
    flight.  (A question is typed and sent like any text; the send is a
    question once the flow has finished.) *)
Lemma submission_as_events sf ss (sub : Submission) :
  inFlight ss = NoCall ->
  match sub with
  | ask _ _ _ _ =>
      flowFinished (ui ss) = true /\ (sf = EmbedChat -> isPreview (ui ss) = false)
  | _ => True
  end ->
  play sf ss (eventsOf sub)
  = mkSession (fst (submission sf (ui ss) sub)) NoCall.
Proof.
  intros Hn Hsub.
  destruct sub as [txt k o clk|answer k o clk|option eventId k o clk|q k o clk];
    simpl; unfold launch; simpl; rewrite ?Hn.
  - unfold settle. simpl.
    destruct (snd (handleSendMessage sf (setInput (ui ss) txt) None None k));
      reflexivity.
  - unfold settle. simpl.
    destruct (snd (handleConfirmationClick sf (ui ss) answer k)); reflexivity.
  - unfold settle. simpl.
    destruct (snd (handleBranchOptionClick sf (ui ss) option eventId k));
      reflexivity.
  - destruct Hsub as [Hf Hp].
    rewrite (handleSendMessage_routes_to_ask sf (setInput (ui ss) q) k Hf Hp).
    unfold settle. simpl.
    destruct (snd (handleAskQuestion (setInput (ui ss) q) k)); reflexivity.
Qed.

End Events.

(** ** Gestures and a settled branch prompt *)

Section Gestures.

Implicit Types (sf : Surface) (s : State) (ss : Session) (k : Clock)
         (g : Gesture) (msg : Message).

Lemma appends_nth (old new : list Message) i msg :
  appends old new -> nth_error old i = Some msg -> nth_error new i = Some msg.
Proof.
  intros (added & ->) H. rewrite nth_error_app1; [exact H|].
  apply nth_error_Some. congruence.
Qed.

Lemma aloneAt_other (l : list Message) i j msg other :
  aloneAt i l = true ->
  nth_error l i = Some msg -> nth_error l j = Some other -> j <> i ->
  id other <> id msg.
Proof.
  unfold aloneAt. intros H Hi Hj Hne Hid. rewrite Hi in H.
  apply andb_true_iff in H as [Hbefore Hafter].
  apply negb_true_iff in Hbefore, Hafter.
  assert (Hshares : sharesId msg other = true).
  { unfold sharesId. now apply String.eqb_eq. }
  destruct (Nat.lt_ge_cases j i) as [Hlt|Hge].
  - assert (In other (firstn i l)).
    { apply (nth_error_In _ j). rewrite nth_error_firstn.
      apply Nat.ltb_lt in Hlt. now rewrite Hlt. }
    assert (existsb (sharesId msg) (firstn i l) = true)
      by (apply existsb_exists; eauto).
    congruence.
  - assert (In other (skipn (S i) l)).
    { apply (nth_error_In _ (j - S i)). rewrite nth_error_skipn.
      replace (S i + (j - S i)) with j by lia. exact Hj. }
    assert (existsb (sharesId msg) (skipn (S i) l) = true)
      by (apply existsb_exists; eauto).
    congruence.
Qed.

Lemma launch_ui ss (sp : State * Pending) : ui (launch ss sp) = fst sp.
Proof. reflexivity. Qed.

Lemma clickSend_appends sf s flagged k :
  appends (messages s) (messages (fst (clickSend sf s flagged k))).
Proof.
  unfold clickSend. destruct (sendDisabled sf s flagged).
  - exists []. symmetry. apply app_nil_r.
  - apply handleSendMessage_appends.
Qed.

Lemma clickConfirmationButton_appends sf s i answer k :
  appends (messages s)
          (messages (fst (clickConfirmationButton sf s i answer k))).
Proof.
  unfold clickConfirmationButton, handleConfirmationClick.
  destruct (nth_error (messages s) i) as [m|];
    [destruct (confirmationButtonsShown s m)|];
    try apply handleSendMessage_appends;
    exists []; symmetry; apply app_nil_r.
Qed.

(** A prompt with a non-empty selection has its buttons disabled. *)
Lemma selected_disabled msg chosen :
  selectedBranch msg = Some chosen -> chosen <> "" ->
  branchButtonDisabled msg = true.
Proof.
  intros Hsel Hne. unfold branchButtonDisabled. rewrite Hsel.
  destruct chosen; [congruence | reflexivity].
Qed.

Lemma clickBranchButton_disabled sf s i j k msg :
  nth_error (messages s) i = Some msg -> branchButtonDisabled msg = true ->
  clickBranchButton sf s i j k = (s, NoCall).
Proof.
  intros Hnth Hd. unfold clickBranchButton. rewrite Hnth, Hd.
  now destruct (nth_error (branchButtons msg) j).
Qed.

(** No gesture touches a prompt that has a non-empty selection and an id
    of its own. *)
Lemma gesture_keeps_selected sf ss g i msg chosen :
  nth_error (messages (ui ss)) i = Some msg ->
  selectedBranch msg = Some chosen -> chosen <> "" ->
  aloneAt i (messages (ui ss)) = true ->
  nth_error (messages (ui (gesture sf ss g))) i = Some msg.
Proof.
  intros Hnth Hsel Hne Halone.
  destruct g as [txt|flagged k|i' answer k|i' j' k|o clk]; cbn [gesture].
  - exact Hnth.
  - rewrite launch_ui. eapply appends_nth; [apply clickSend_appends | exact Hnth].
  - rewrite launch_ui.
    eapply appends_nth; [apply clickConfirmationButton_appends | exact Hnth].
  - rewrite launch_ui. unfold clickBranchButton.
    destruct (nth_error (messages (ui ss)) i') as [m'|] eqn:Hm'; [|exact Hnth].
    destruct (nth_error (branchButtons m') j') as [opt|]; [|exact Hnth].
    destruct (branchButtonDisabled m') eqn:Hd; [exact Hnth|].
    assert (Hid : id msg <> id m').
    { destruct (Nat.eq_dec i' i) as [->|Hi].
      - rewrite Hnth in Hm'. injection Hm' as <-.
        rewrite (selected_disabled msg chosen Hsel Hne) in Hd. discriminate.
      - intros E. symmetry in E. revert E.
        now apply (aloneAt_other (messages (ui ss)) i i' msg m'). }
    unfold handleBranchOptionClick.
    eapply appends_nth; [apply handleSendMessage_appends|].
    cbn [messages setMessages]. now apply markSelected_miss.
  - cbn [interact ui].
    eapply appends_nth;
      [apply (settle_appends sf (ui ss, inFlight ss)) | exact Hnth].
Qed.

Lemma perform_keeps_selected sf (gs : list Gesture) :
  forall ss i msg chosen,
    nth_error (messages (ui ss)) i = Some msg ->
    selectedBranch msg = Some chosen -> chosen <> "" ->
    throughout (fun s => aloneAt i (messages s) = true) sf ss gs ->
    nth_error (messages (ui (perform sf ss gs))) i = Some msg.
Proof.
  induction gs as [|g gs IH]; intros ss i msg chosen Hnth Hsel Hne [Hhere Hrest];
    cbn [perform].
  - exact Hnth.
  - apply (IH _ i msg chosen); auto.
    now apply (gesture_keeps_selected sf ss g i msg chosen).
Qed.

End Gestures.

(** * The claims *)

(** C1: once the finished flag of a session is true, no later operation of
    the state machine (a free-text, confirmation or branch submission, a
    Q&A question, or even a new start) makes it false again: if the flag
    is true after a run of operations, it is true after every longer run.
    The same holds event by event, however clicks and resolving calls
    interleave. *)
Theorem finished_never_reset :
  forall (sf : Surface),
    (forall (s : State) (before after : list Op),
        flowFinished (run sf s before) = true ->
        flowFinished (run sf s (before ++ after)) = true) /\
    (forall (ss : Session) (before after : list Event),
        flowFinished (ui (play sf ss before)) = true ->
        flowFinished (ui (play sf ss (before ++ after))) = true).
Proof.
  intros sf. split.
  - intros s before after H. rewrite run_app. now apply run_finished.
  - intros ss before after H. rewrite play_app. now apply play_finished.
Qed.

Lemma finished_never_reset_witness :
  let before := [start (Response true Sample.finishedStart) (Sample.clock 1000)] in
  let after :=
    [submit (submitFreeText "hello" Sample.tick FetchRejected (Sample.clock 3500));
     submit (submitBranchOption "A" "10000.5" Sample.tick'
                                (Response true Sample.branchStart) (Sample.clock 4500));
     start (Response true Sample.branchStart) (Sample.clock 6000)] in
  flowFinished (run ChatBot (initialState false) before) = true /\
  flowFinished (run ChatBot (initialState false) (before ++ after)) = true.
Proof.
  split; [reflexivity|].
  apply (proj1 (finished_never_reset ChatBot) (initialState false)
           [start (Response true Sample.finishedStart) (Sample.clock 1000)]).
  reflexivity.
Defined.

(** C2: after a start, along every sequence of free-text, confirmation and
    branch submissions (and Q&A questions), the message list only grows:
    every event already present stays at its index with every field
    unchanged, except that a branch submission naming its id may have set
    its selected option; new events are added behind the old ones, so the
    length never decreases.  The same holds event by event, for clicks
    that arrive while a call is in flight too. *)
Theorem events_only_grow :
  forall (sf : Surface) (s0 : State) (o : Outcome) (clk : nat -> Clock),
    let started := fst (apply sf s0 (start o clk)) in
    (forall before after : list Submission,
        let old := messages (run sf started (map submit before)) in
        let new := messages (run sf started (map submit (before ++ after))) in
        grows (branchTargets (map submit after)) old new /\
        (forall i a, nth_error old i = Some a ->
           exists b, nth_error new i = Some b /\
                     (b = a \/
                      exists option,
                        In (option, id a) (branchTargets (map submit after)) /\
                        b = withSelectedBranch a option)) /\
        length old <= length new) /\
    (forall before after : list Interaction,
        let session := mkSession started NoCall in
        let old := messages (ui (play sf session (map interaction before))) in
        let new := messages (ui (play sf session (map interaction (before ++ after)))) in
        grows (clickTargets (map interaction after)) old new /\
        (forall i a, nth_error old i = Some a ->
           exists b, nth_error new i = Some b /\
                     (b = a \/
                      exists option,
                        In (option, id a) (clickTargets (map interaction after)) /\
                        b = withSelectedBranch a option)) /\
        length old <= length new).
Proof.
  intros sf s0 o clk started. split.
  - intros before after old new.
    assert (G : grows (branchTargets (map submit after)) old new).
    { subst old new. rewrite map_app, run_app. apply run_submissions_grow. }
    split; [exact G|]. split.
    + intros i a Hnth. exact (grows_nth _ _ _ i a G Hnth).
    + exact (grows_length _ _ _ G).
  - intros before after session old new.
    assert (G : grows (clickTargets (map interaction after)) old new).
    { subst old new. rewrite map_app, play_app. apply play_interactions_grow. }
    split; [exact G|]. split.
    + intros i a Hnth. exact (grows_nth _ _ _ i a G Hnth).
    + exact (grows_length _ _ _ G).
Qed.

Lemma events_only_grow_witness :
  let started := Sample.atBranch EmbedChat in
  let after := [branchOptionClicked "A" "10000.5" Sample.tick;
                branchOptionClicked "B" "10000.5" Sample.tick';
                callResolved (Response true Sample.questionStep) (Sample.clock 4500)] in
  let new := messages (ui (play EmbedChat (mkSession started NoCall)
                                (map interaction after))) in
  length (messages started) = 1%nat /\
  length new = 3%nat /\
  length (messages started) <= length new.
Proof.
  cbv zeta. split; [reflexivity|]. split; [reflexivity|].
  exact (proj2 (proj2 (proj2 (events_only_grow
                                EmbedChat (initialState false)
                                (Response true Sample.branchStart) (Sample.clock 1000))
                             []
                             [branchOptionClicked "A" "10000.5" Sample.tick;
                              branchOptionClicked "B" "10000.5" Sample.tick';
                              callResolved (Response true Sample.questionStep)
                                           (Sample.clock 4500)]))).
Defined.

(** C3, as stated, fails for an option with an empty label.  The guard
    against a second selection is the [disabled] attribute of the option
    buttons, [disabled={!!msg.selectedBranch}], and an empty string is not
    truthy.  On a prompt with the options [""] and ["B"], a click on the
    first button sets the selection to [""] and, the input box being empty,
    sends nothing; the buttons stay enabled, and a click on the second
    button changes the selection to ["B"] and sends a respond request. *)
Lemma second_branch_call_counterexample :
  let s0 := fst (apply ChatBot (initialState false)
                       (start (Response true Sample.emptyLabelBranch)
                              (Sample.clock 1000))) in
  let first := clickBranchButton ChatBot s0 0 0 Sample.tick in
  let second := clickBranchButton ChatBot (fst first) 0 1 Sample.tick' in
  (exists msg, nth_error (messages s0) 0 = Some msg /\
               id msg = "10000.5" /\
               branchButtons msg = [""; "B"] /\
               selectedBranch msg = None) /\
  (exists msg, nth_error (messages (fst first)) 0 = Some msg /\
               id msg = "10000.5" /\
               selectedBranch msg = Some "" /\
               branchButtonDisabled msg = false) /\
  snd first = NoCall /\
  (exists msg, nth_error (messages (fst second)) 0 = Some msg /\
               id msg = "10000.5" /\
               selectedBranch msg = Some "B") /\
  snd second = RespondCall "s1" (OptionIndexOrLabel "B").
Proof.
  cbv zeta. split; [|split; [|split; [|split]]].
  - eexists. split; [reflexivity|]. split; [reflexivity|]. split; reflexivity.
  - eexists. split; [reflexivity|]. split; [reflexivity|]. split; reflexivity.
  - reflexivity.
  - eexists. split; [reflexivity|]. split; reflexivity.
  - reflexivity.
Qed.

(** C3, amended: a selection that is a non-empty string is final.  For a
    branch event whose selected option is set to a non-empty string, a
    press of any of its option buttons is a no-op: it changes no state, the
    selection included, and starts no request.  And as long as no other
    event shares its id, nothing that reaches the handlers through the page
    changes the event afterwards: after any sequence of typing, presses of
    the send button, of Yes and No buttons and of option buttons of any
    event, and resolving calls, the event is at its position as it was, and
    a press of any of its option buttons still is a no-op. *)
Theorem selected_branch_is_final :
  forall (sf : Surface) (ss : Session) (i : nat) (msg : Message)
         (chosen : string),
    nth_error (messages (ui ss)) i = Some msg ->
    selectedBranch msg = Some chosen ->
    chosen <> "" ->
    (forall j k, clickBranchButton sf (ui ss) i j k = (ui ss, NoCall)) /\
    (forall j k, gesture sf ss (pressBranchOption i j k) = ss) /\
    (forall gs : list Gesture,
        throughout (fun s => aloneAt i (messages s) = true) sf ss gs ->
        let ss' := perform sf ss gs in
        nth_error (messages (ui ss')) i = Some msg /\
        (forall j k, clickBranchButton sf (ui ss') i j k = (ui ss', NoCall)) /\
        (forall j k, gesture sf ss' (pressBranchOption i j k) = ss')).
Proof.
  assert (Hinert : forall sf ss i msg chosen,
             nth_error (messages (ui ss)) i = Some msg ->
             selectedBranch msg = Some chosen -> chosen <> "" ->
             (forall j k, clickBranchButton sf (ui ss) i j k = (ui ss, NoCall)) /\
             (forall j k, gesture sf ss (pressBranchOption i j k) = ss)).
  { intros sf ss i msg chosen Hnth Hsel Hne.
    assert (Hclick : forall j k,
               clickBranchButton sf (ui ss) i j k = (ui ss, NoCall)).
    { intros j k. apply (clickBranchButton_disabled sf (ui ss) i j k msg Hnth).
      now apply (selected_disabled msg chosen). }
    split; [exact Hclick|].
    intros j k. cbn [gesture]. rewrite Hclick. now destruct ss. }
  intros sf ss i msg chosen Hnth Hsel Hne.
  destruct (Hinert sf ss i msg chosen Hnth Hsel Hne) as (Hclick & Hpress).
  split; [exact Hclick|]. split; [exact Hpress|].
  intros gs Halone ss'.
  assert (Hkept : nth_error (messages (ui ss')) i = Some msg).
  { subst ss'. now apply (perform_keeps_selected sf gs ss i msg chosen). }
  split; [exact Hkept|].
  exact (Hinert sf ss' i msg chosen Hkept Hsel Hne).
Qed.

Lemma selected_branch_is_final_witness :
  let ss := mkSession (Sample.afterChoice ChatBot) NoCall in
  let gs := [pressBranchOption 0 1 Sample.tick';
             typeText "Ann";
             pressSend false (mkClock 5000 "0.1" 5000);
             resolveCall (Response true Sample.questionStep) (Sample.clock 6000);
             pressBranchOption 0 0 (mkClock 7000 "0.2" 7000)] in
  (exists msg, nth_error (messages (ui ss)) 0 = Some msg /\
               selectedBranch msg = Some "A" /\
               nth_error (messages (ui (perform ChatBot ss gs))) 0 = Some msg) /\
  length (messages (ui (perform ChatBot ss gs))) = 5 /\
  clickBranchButton ChatBot (ui ss) 0 1 Sample.tick' = (ui ss, NoCall).
Proof.
  cbv zeta.
  destruct (selected_branch_is_final
              ChatBot (mkSession (Sample.afterChoice ChatBot) NoCall) 0
              (withSelectedBranch (branchPrompt
                                     (mkRaw (Some "branch") None None (Some true)
                                            (Some ["A"; "B"]))
                                     (Sample.clock 1000 0)) "A")
              "A" eq_refl eq_refl ltac:(discriminate))
    as (Hclick & _ & Hfinal).
  split; [|split; [reflexivity | apply Hclick]].
  eexists. split; [reflexivity|]. split; [reflexivity|].
  refine (proj1 (Hfinal
                   [pressBranchOption 0 1 Sample.tick';
                    typeText "Ann";
                    pressSend false (mkClock 5000 "0.1" 5000);
                    resolveCall (Response true Sample.questionStep) (Sample.clock 6000);
                    pressBranchOption 0 0 (mkClock 7000 "0.2" 7000)] _)).
  cbn [throughout]. repeat split; reflexivity.
Defined.

(** C4, as stated, fails in two ways.  On the modal widget and on the
    public page a start call whose fetch rejects raises a toast and adds no
    event at all.  And no surface reads the status of the start response:
    on an error status with the body [{error:"boom"}] the embed page shows
    no fallback event, its message list is empty, and nothing is
    reported. *)
Lemma start_failure_counterexample :
  let r := initFlow ChatBot (initialState false) FetchRejected (Sample.clock 1000) in
  let h := initFlow EmbedChat (initialState false) (Response false Sample.errorBody)
                    (Sample.clock 1000) in
  (startFails FetchRejected = true /\
   messages (fst r) = [] /\
   snd r = [Toast "Error" (Fixed "Failed to start conversation")]) /\
  (startFails (Response false Sample.errorBody) = true /\
   messages (fst h) = [] /\
   sessionId (fst h) = None /\
   snd h = []).
Proof. cbv zeta. repeat split. Qed.

(** C4, amended: a start call fails in one of two ways, and the surfaces
    treat them differently.

    When the fetch or the decoding of the body rejects, the session id
    stays as it was, unset for a fresh session, and so do the pause and the
    finished flag.  On the embed page the message list then is exactly one
    bot event with the fixed fallback text; on the modal widget and the
    public page the message list is untouched and the failure is shown as
    one toast.

    When the call comes back with an error status and a body that decodes,
    no surface reads the status: the body is handled as that of a
    successful start.  There is no fallback event and no toast: the message
    list is what the loop makes of the messages of the body (followed by the
    closing text when the body says finished), the effects are those of the
    loop, and the session id is set only when the body carries one.  For a
    body without session id, messages and finished flag the message list
    is empty and the session id and the finished flag are as before. *)
Theorem start_failure_by_surface :
  forall (sf : Surface) (s : State) (o : Outcome) (clk : nat -> Clock),
    startFails o = true ->
    let r := initFlow sf s o clk in
    match o with
    | FetchRejected | JsonRejected _ =>
        sessionId (fst r) = sessionId s /\
        (sessionId s = None -> sessionId (fst r) = None) /\
        currentPausedFor (fst r) = currentPausedFor s /\
        flowFinished (fst r) = flowFinished s /\
        match sf with
        | EmbedChat =>
            (exists fallback,
                messages (fst r) = [fallback] /\
                id fallback = "init" /\
                sender fallback = bot /\
                text fallback = embedStartFallbackText) /\
            snd r = []
        | ChatBot | PublicBotChatPage =>
            messages (fst r) = messages s /\
            snd r = [Toast "Error" (Fixed "Failed to start conversation")]
        end
    | Response _ data =>
        let raw := messagesOrEmpty data in
        r = initFlow sf s (Response true data) clk /\
        sessionId (fst r) = (if JS.truthy_opt (data_sessionId data)
                             then data_sessionId data else sessionId s) /\
        messages (fst r)
        = fst (forEachMessage raw clk)
          ++ (if data_finished data
              then [botMessage startFinishedText (clk (length raw))] else []) /\
        currentPausedFor (fst r) = (if data_finished data then None
                                    else data_awaitingInput data) /\
        flowFinished (fst r) = (if data_finished data then true
                                else flowFinished s) /\
        snd r = snd (forEachMessage raw clk) /\
        (JS.truthy_opt (data_sessionId data) = false ->
         raw = [] -> data_finished data = false ->
         sessionId (fst r) = sessionId s /\
         messages (fst r) = [] /\
         flowFinished (fst r) = flowFinished s /\
         snd r = [])
    end.
Proof.
  intros sf s o clk H r. subst r.
  destruct o as [|ok|ok data].
  - destruct sf; simpl; repeat split; auto; eexists; repeat split.
  - destruct sf; simpl; repeat split; auto; eexists; repeat split.
  - cbv zeta.
    assert (E : forall ok', initFlow sf s (Response ok' data) clk
                            = initFlow sf s (Response true data) clk)
      by reflexivity.
    rewrite (E ok). clear E H ok.
    unfold initFlow, initFlow_try, tryCatch, awaitResponse, bind, ret.
    cbn [snd fst].
    split; [reflexivity|].
    destruct (JS.truthy_opt (data_sessionId data)) eqn:Hsid;
      destruct (data_finished data) eqn:Hfin;
      destruct (data_awaitingInput data) eqn:Haw;
      cbn; rewrite ?app_nil_r;
        (split; [reflexivity|]); (split; [reflexivity|]);
        (split; [reflexivity|]); (split; [reflexivity|]);
        (split; [reflexivity|]);
        intros Hs Hraw Hf; try discriminate; rewrite Hraw; repeat split.
Qed.

Lemma start_failure_by_surface_witness :
  startFails (Response false Sample.errorBody) = true /\
  messages (fst (initFlow EmbedChat (initialState false)
                          (Response false Sample.errorBody) (Sample.clock 1000))) = [] /\
  startFails (JsonRejected false) = true /\
  sessionId (fst (initFlow EmbedChat (initialState false) (JsonRejected false)
                           (Sample.clock 1000))) = None.
Proof.
  split; [reflexivity|]. split; [|split; [reflexivity|]].
  - destruct (start_failure_by_surface EmbedChat (initialState false)
                (Response false Sample.errorBody) (Sample.clock 1000) eq_refl)
      as (_ & _ & _ & _ & _ & _ & Hbare).
    apply Hbare; reflexivity.
  - destruct (start_failure_by_surface EmbedChat (initialState false)
                (JsonRejected false) (Sample.clock 1000) eq_refl)
      as (_ & Hunset & _).
    apply Hunset. reflexivity.
Defined.

(** C5: a raw message of type ["branch"] that is flagged as awaiting input
    yields exactly one bot event with empty text, whose branch buttons are
    on and whose options are the option list of the message, the empty
    list when the field is absent; this holds at every place of a message
    list.  In particular the start response
    [{sessionId:"s1", messages:[{type:"branch", awaitingInput:true,
    options:["A","B"]}], awaitingInput:{type:"branch"}, finished:false}]
    leaves one such event with options ["A"; "B"] and a pause of kind
    branch. *)
Theorem branch_prompt_normalization :
  forall (msg : RawMessage) (k : Clock),
    msg_type msg = Some "branch" ->
    JS.truthy_flag (awaitingInput msg) = true ->
    (exists ev,
        onMessage msg k = ([ev], []) /\
        sender ev = bot /\
        text ev = "" /\
        showBranchOptions ev = Some true /\
        awaitingKind ev = awaiting_branch /\
        branchOptions ev = Some (match options msg with
                                 | Some l => l
                                 | None => []
                                 end) /\
        selectedBranch ev = None) /\
    (forall (pre post : list RawMessage) (clk : nat -> Clock),
        fst (forEachMessage (pre ++ msg :: post) clk)
        = fst (forEachMessage pre clk)
            ++ branchPrompt msg (clk (length pre))
            :: fst (forEachMessage post (fun i => clk (length pre + S i)))) /\
    (forall sf : Surface,
        let s := fst (initFlow sf (initialState false)
                               (Response true Sample.branchStart)
                               (Sample.clock 1000)) in
        exists ev,
          messages s = [ev] /\
          text ev = "" /\
          awaitingKind ev = awaiting_branch /\
          branchOptions ev = Some ["A"; "B"] /\
          currentPausedFor s = Some (mkAwait (Some "branch")) /\
          pausedKind s = paused_branch /\
          sessionId s = Some "s1" /\
          flowFinished s = false).
Proof.
  intros msg k Htype Hflag.
  assert (E : forall k', onMessage msg k' = ([branchPrompt msg k'], [])).
  { intros k'. unfold onMessage. rewrite Htype, Hflag. reflexivity. }
  split; [|split].
  - exists (branchPrompt msg k). rewrite E. repeat split.
  - intros pre post clk. rewrite forEachMessage_app. simpl.
    rewrite E, Nat.add_0_r. simpl. repeat f_equal.
  - intros sf. destruct sf; eexists; repeat split.
Qed.

Lemma branch_prompt_normalization_witness :
  let msg := mkRaw (Some "branch") None (Some "ignored") (Some true) None in
  msg_type msg = Some "branch" /\
  JS.truthy_flag (awaitingInput msg) = true /\
  exists ev, onMessage msg Sample.tick = ([ev], []) /\ branchOptions ev = Some [].
Proof.
  cbv zeta. split; [reflexivity|]. split; [reflexivity|].
  destruct (branch_prompt_normalization
              (mkRaw (Some "branch") None (Some "ignored") (Some true) None)
              Sample.tick eq_refl eq_refl)
    as ((ev & Hev & _ & _ & _ & _ & Hopts & _) & _).
  exists ev. split; [exact Hev | exact Hopts].
Defined.

(** C6, as stated, fails.  A redirect message without content opens no
    window at all; and [replace] removes the first occurrence of
    ["Redirecting to: "] wherever it stands, so a content that merely
    contains it is not used raw. *)
Lemma redirect_navigation_counterexample :
  let plain := mkRaw (Some "text") (Some "Welcome") None None None in
  forEachMessage [mkRaw (Some "redirect") None None None None; plain]
                 (Sample.clock 1000)
  = ([plainPrompt plain (Sample.clock 1000 1)], []) /\
  forEachMessage [mkRaw (Some "redirect") (Some "see Redirecting to: http://a.example")
                        None None None; plain]
                 (Sample.clock 1000)
  = ([plainPrompt plain (Sample.clock 1000 1)], [WindowOpen "see http://a.example"]).
Proof. cbv zeta. split; reflexivity. Qed.

(** C6, amended: for a response whose message list holds one redirect
    message and one plain message, in either order, the loop produces
    exactly one event, the one of the plain message, and the redirect
    produces no event.  The redirect opens no window when its content is
    absent or empty, and exactly one otherwise; the URL is the content with
    the first occurrence of ["Redirecting to: "] removed, or the raw
    content when that leaves nothing: so the rest of the content when it
    starts with the prefix and goes on, and the raw content when the
    prefix does not occur.  An ok respond response appends that one event
    (and the completion notice when it is finished) and has these
    effects. *)
Theorem redirect_and_plain_message :
  forall (r p : RawMessage) (clk : nat -> Clock),
    msg_type r = Some "redirect" ->
    isPlain p = true ->
    (fst (forEachMessage [r; p] clk) = [plainPrompt p (clk 1%nat)] /\
     fst (forEachMessage [p; r] clk) = [plainPrompt p (clk 0%nat)] /\
     snd (forEachMessage [r; p] clk) = snd (onMessage r (clk 0%nat)) /\
     snd (forEachMessage [p; r] clk) = snd (onMessage r (clk 1%nat))) /\
    (forall k, fst (onMessage r k) = []) /\
    (forall k, content r = None \/ content r = Some "" -> snd (onMessage r k) = []) /\
    (forall k c, content r = Some c -> c <> "" ->
       exists url,
         snd (onMessage r k) = [WindowOpen url] /\
         url = (if JS.truthy (JS.replaceFirst redirectPrefix c)
                then JS.replaceFirst redirectPrefix c else c) /\
         (forall rest, c = (redirectPrefix ++ rest)%string -> rest <> "" -> url = rest) /\
         (JS.occurs redirectPrefix c = false -> url = c)) /\
    (forall sf s data,
       data_messages data = Some [r; p] ->
       let step := handleSendMessage_resume sf s (Response true data) clk in
       messages (fst step)
       = messages s ++ plainPrompt p (clk 1%nat)
           :: (if data_finished data
               then [botMessage stepFinishedText (clk 2%nat)] else []) /\
       snd step = snd (onMessage r (clk 0%nat))).
Proof.
  intros r p clk Hr Hp.
  split; [|split; [|split; [|split]]].
  - simpl. rewrite !(onMessage_plain p _ Hp), !(onMessage_redirect r _ Hr).
    simpl. rewrite ?app_nil_r. repeat split.
  - intros k. now rewrite (onMessage_redirect r k Hr).
  - intros k Hc. rewrite (onMessage_redirect r k Hr).
    destruct Hc as [-> | ->]; reflexivity.
  - intros k c Hc Hne. rewrite (onMessage_redirect r k Hr), Hc.
    assert (Ht : JS.truthy c = true) by (destruct c; [congruence | reflexivity]).
    cbv beta iota. rewrite Ht. cbn [snd].
    eexists. split; [reflexivity|]. split; [reflexivity|]. split.
    + intros rest Hrest Hrne. rewrite Hrest, JSFacts.replaceFirst_prefix.
      destruct rest; [congruence | reflexivity].
    + intros Hocc. rewrite (JSFacts.replaceFirst_absent _ _ Hocc). now rewrite Ht.
  - intros sf s data Hmsgs step.
    destruct (handleSendMessage_resume_ok sf s data clk)
      as (Hm & _ & _ & _ & _ & Hfx).
    fold step in Hm, Hfx. unfold messagesOrEmpty in Hm, Hfx.
    rewrite Hmsgs in Hm, Hfx. simpl in Hm, Hfx.
    rewrite (onMessage_plain p _ Hp), (onMessage_redirect r _ Hr) in Hm, Hfx.
    simpl in Hm, Hfx. rewrite ?app_nil_r in Hfx.
    split; [exact Hm|].
    rewrite (onMessage_redirect r _ Hr). exact Hfx.
Qed.

Lemma redirect_and_plain_message_witness :
  let r := mkRaw (Some "redirect") (Some "Redirecting to: https://a.example/x")
                 None None None in
  let p := mkRaw (Some "text") (Some "Welcome") None None None in
  msg_type r = Some "redirect" /\
  isPlain p = true /\
  fst (forEachMessage [r; p] (Sample.clock 1000)) = [plainPrompt p (Sample.clock 1000 1)] /\
  snd (onMessage r Sample.tick) = [WindowOpen "https://a.example/x"].
Proof.
  cbv zeta. split; [reflexivity|]. split; [reflexivity|].
  destruct (redirect_and_plain_message
              (mkRaw (Some "redirect") (Some "Redirecting to: https://a.example/x")
                     None None None)
              (mkRaw (Some "text") (Some "Welcome") None None None)
              (Sample.clock 1000) eq_refl eq_refl)
    as ((Hev & _) & _ & _ & Hurl & _).
  split; [exact Hev|].
  destruct (Hurl Sample.tick "Redirecting to: https://a.example/x" eq_refl)
    as (url & Hfx & _ & Hrest & _); [discriminate|].
  rewrite Hfx. f_equal. f_equal.
  apply (Hrest "https://a.example/x"); [reflexivity | discriminate].
Defined.

(** C7: when a start response or an ok respond response signals finished,
    with or without an awaiting-input descriptor, the resulting state has
    no pause, the finished flag set, and a message list that ends with one
    synthesized bot event carrying the fixed, non-empty completion notice,
    placed after all the events of the per-message loop. *)
Theorem finished_response_ends_flow :
  forall (sf : Surface) (s : State) (ok : bool) (data : Data) (clk : nat -> Clock),
    data_finished data = true ->
    let normalized := fst (forEachMessage (messagesOrEmpty data) clk) in
    (let s' := fst (initFlow sf s (Response ok data) clk) in
     currentPausedFor s' = None /\
     pausedKind s' = paused_none /\
     flowFinished s' = true /\
     exists notice,
       messages s' = normalized ++ [notice] /\
       sender notice = bot /\
       text notice = startFinishedText /\
       text notice <> "" /\
       awaitingKind notice = awaiting_none) /\
    (let s' := fst (handleSendMessage_resume sf s (Response true data) clk) in
     currentPausedFor s' = None /\
     pausedKind s' = paused_none /\
     flowFinished s' = true /\
     isLoading s' = false /\
     exists notice,
       messages s' = messages s ++ normalized ++ [notice] /\
       sender notice = bot /\
       text notice = stepFinishedText /\
       text notice <> "" /\
       awaitingKind notice = awaiting_none).
Proof.
  intros sf s ok data clk Hfin normalized. split.
  - destruct (initFlow_response sf s ok data clk) as (Hm & Hf & Hp & _).
    rewrite Hfin in Hm, Hf, Hp. cbv zeta. unfold pausedKind. rewrite Hp.
    split; [reflexivity|]. split; [reflexivity|]. split; [exact Hf|].
    eexists. split; [exact Hm|]. repeat split. discriminate.
  - destruct (handleSendMessage_resume_ok sf s data clk)
      as (Hm & Hf & Hp & _ & Hl & _).
    rewrite Hfin in Hm, Hf, Hp. cbv zeta. unfold pausedKind. rewrite Hp.
    split; [reflexivity|]. split; [reflexivity|]. split; [exact Hf|].
    split; [exact Hl|].
    eexists. split; [exact Hm|]. repeat split. discriminate.
Qed.

Lemma finished_response_ends_flow_witness :
  data_finished Sample.finishedStart = true /\
  data_awaitingInput Sample.finishedStart = Some (mkAwait (Some "question")) /\
  currentPausedFor (fst (initFlow EmbedChat (initialState false)
                                  (Response true Sample.finishedStart)
                                  (Sample.clock 1000))) = None /\
  currentPausedFor (fst (handleSendMessage_resume
                           EmbedChat (Sample.choiceInFlight EmbedChat)
                           (Response true Sample.finishedStart)
                           (Sample.clock 3500))) = None.
Proof.
  split; [reflexivity|]. split; [reflexivity|].
  split.
  - exact (proj1 (proj1 (finished_response_ends_flow
                           EmbedChat (initialState false) true
                           Sample.finishedStart (Sample.clock 1000) eq_refl))).
  - exact (proj1 (proj2 (finished_response_ends_flow
                           EmbedChat (Sample.choiceInFlight EmbedChat) true
                           Sample.finishedStart (Sample.clock 3500) eq_refl))).
Defined.

(** C8: in Q&A mode, when an ask call that went out fails (the transport
    fails, the status is not ok, or the body lacks the answer structure),
    exactly one fallback bot event is appended behind the optimistic user
    event: the fixed apology when the [try] block throws, which is every
    case but an ok body that has a [result] without an answer, where it is
    the fixed no-answer notice.  The exception is caught, the pause and the
    finished flag are as before, and the loading flag is cleared. *)
Theorem ask_failure_is_one_apology :
  forall (sf : Surface) (s s1 : State) (k : Clock) (q : string)
         (o : Outcome) (clk : nat -> Clock),
    flowFinished s = true ->
    handleAskQuestion s k = (s1, AskCall q) ->
    usableAnswer o = None ->
    let r := handleAskQuestion_resume sf s1 o clk in
    (exists reply,
        messages (fst r) = messages s ++ [userMessage q k; reply] /\
        sender reply = bot /\
        text reply = (if askThrows o then askApologyText else noAnswerText) /\
        text reply <> "") /\
    (forall e, handleAskQuestion_try s1 o clk = inl e ->
               r = (setIsLoading (fst (handleAskQuestion_catch sf s1 clk e)) false,
                    snd (handleAskQuestion_catch sf s1 clk e))) /\
    (askThrows o = true <-> exists e, handleAskQuestion_try s1 o clk = inl e) /\
    isLoading (fst r) = false /\
    currentPausedFor (fst r) = currentPausedFor s /\
    (currentPausedFor s = None -> pausedKind (fst r) = paused_none) /\
    flowFinished (fst r) = true.
Proof.
  intros sf s s1 k q o clk Hfin Hask Hnone r.
  destruct (handleAskQuestion_issued s k s1 q Hask) as (_ & _ & Hs1).
  destruct (handleAskQuestion_resume_reply sf s1 o clk)
    as (Hm & Hl & Hp & Hf & _).
  fold r in Hm, Hl, Hp, Hf. rewrite Hnone in Hm.
  assert (Hpaused : currentPausedFor (fst r) = currentPausedFor s).
  { rewrite Hp, Hs1. reflexivity. }
  split; [|split; [|split; [|split; [|split; [|split]]]]].
  - eexists. split.
    + rewrite Hm, Hs1. simpl. rewrite <- app_assoc. reflexivity.
    + simpl. repeat split. destruct (askThrows o); discriminate.
  - intros e He. subst r. unfold handleAskQuestion_resume, tryCatch.
    rewrite He. reflexivity.
  - apply handleAskQuestion_try_throws.
  - exact Hl.
  - exact Hpaused.
  - intros Hn. unfold pausedKind. now rewrite Hpaused, Hn.
  - rewrite Hf, Hs1. exact Hfin.
Qed.

Lemma ask_failure_is_one_apology_witness :
  let s := Sample.questionTyped ChatBot in
  let s1 := fst (handleAskQuestion s Sample.tick) in
  flowFinished s = true /\
  handleAskQuestion s Sample.tick = (s1, AskCall "why?") /\
  usableAnswer (Response false Sample.errorBody) = None /\
  isLoading (fst (handleAskQuestion_resume ChatBot s1 (Response false Sample.errorBody)
                                           (Sample.clock 3500))) = false.
Proof.
  cbv zeta. split; [reflexivity|]. split; [reflexivity|]. split; [reflexivity|].
  apply (ask_failure_is_one_apology
           ChatBot (Sample.questionTyped ChatBot)
           (fst (handleAskQuestion (Sample.questionTyped ChatBot) Sample.tick))
           Sample.tick "why?" (Response false Sample.errorBody) (Sample.clock 3500)
           eq_refl eq_refl eq_refl).
Defined.

(** C9, as stated, fails when the flow has finished without a session id:
    a start response [{messages: [], finished: true}] leaves [sessionId]
    unset and switches to Q&A mode, where a free text is shown and sent to
    the ask endpoint; the finished test comes before the session test.  It
    fails as well on the embed page in preview mode, which never has a
    session and, behind its three demo messages, shows every text and
    answers it with a demo reply. *)
Lemma free_text_without_session_counterexample :
  let s := fst (apply ChatBot (initialState false)
                      (start (Response true Sample.finishedNoSession)
                             (Sample.clock 1000))) in
  let r := handleSendMessage ChatBot (setInput s "hi") None None Sample.tick in
  let q := Sample.previewPage in
  let p := handleSendMessage EmbedChat (setInput q "hi") None None Sample.tick in
  (sessionId s = None /\
   isLoading s = false /\
   messages (fst r) = messages s ++ [userMessage "hi" Sample.tick] /\
   snd r = AskCall "hi") /\
  (sessionId q = None /\
   isLoading q = false /\
   map id (messages q) = ["bot-preview-1"; "user-preview-1"; "bot-preview-2"] /\
   messages (fst p) = messages q ++ [userMessage "hi" Sample.tick] /\
   snd p = PreviewTimer).
Proof. cbv zeta. repeat split. Qed.

(** C9, amended: a free-text submission is a silent no-op when its text is
    empty or only white space (all that [trim] removes, the white space
    beyond ASCII included), when a call is in flight, or when no session
    id exists while the flow has not finished (and the embed page is not in
    preview mode).  Then nothing but the input cell holds the typed text:
    no event is appended, no request or other effect is issued, and the
    pause, the finished flag, the session id and the loading flag are as
    before. *)
Theorem rejected_free_text_is_noop :
  forall (sf : Surface) (s : State) (txt : string) (k : Clock)
         (o : Outcome) (clk : nat -> Clock),
    JS.allWhiteSpace txt = true \/
    isLoading s = true \/
    (JS.truthy_opt (sessionId s) = false /\ flowFinished s = false /\
     (sf = EmbedChat -> isPreview s = false)) ->
    let r := handleSendMessage sf (setInput s txt) None None k in
    r = (setInput s txt, NoCall) /\
    submission sf s (submitFreeText txt k o clk) = (setInput s txt, []) /\
    messages (fst r) = messages s /\
    currentPausedFor (fst r) = currentPausedFor s /\
    flowFinished (fst r) = flowFinished s /\
    sessionId (fst r) = sessionId s /\
    isLoading (fst r) = isLoading s.
Proof.
  intros sf s txt k o clk H r.
  assert (E : r = (setInput s txt, NoCall)).
  { subst r. apply handleSendMessage_rejects. exact H. }
  split; [exact E|]. split.
  - simpl. fold r. rewrite E. reflexivity.
  - rewrite E. repeat split.
Qed.

Lemma rejected_free_text_is_noop_witness :
  let s := Sample.afterChoice EmbedChat in
  let txt := (" " ++ Sample.noBreakSpace ++ Sample.emSpace)%string in
  JS.allWhiteSpace txt = true /\
  isLoading s = false /\
  sessionId s = Some "s1" /\
  handleSendMessage EmbedChat (setInput s txt) None None Sample.tick'
  = (setInput s txt, NoCall).
Proof.
  cbv zeta. split; [reflexivity|]. split; [reflexivity|]. split; [reflexivity|].
  apply (rejected_free_text_is_noop
           EmbedChat (Sample.afterChoice EmbedChat)
           (" " ++ Sample.noBreakSpace ++ Sample.emSpace)%string
           Sample.tick' FetchRejected (Sample.clock 5000)).
  left. reflexivity.
Defined.



(** * Further properties *)

(** ** What a handler starts *)

Section Starting.

Implicit Types (sf : Surface) (s : State) (ss : Session) (k : Clock) (o : Outcome)
         (clk : nat -> Clock) (i : Interaction).

Lemma handleAskQuestion_cases s k :
  (handleAskQuestion s k = (s, NoCall) /\
   (JS.truthy (JS.trim (input s)) = false \/ isLoading s = true)) \/
  (handleAskQuestion s k
   = (afterShown s (JS.trim (input s)) k, AskCall (JS.trim (input s))) /\
   JS.truthy (JS.trim (input s)) = true /\ isLoading s = false).
Proof.
  unfold handleAskQuestion.
  destruct (JS.truthy (JS.trim (input s))) eqn:Ht; simpl.
  - destruct (isLoading s) eqn:Hl.
    + left. split; [reflexivity | now right].
    + right. repeat split.
  - left. split; [reflexivity | now left].
Qed.

(** Every way out of [handleSendMessage]. *)
Lemma handleSendMessage_cases sf s overrideInput isBranch k :
  let sent := messageToSend s overrideInput in
  let r := handleSendMessage sf s overrideInput isBranch k in
  r = (s, NoCall) \/
  (r = (afterShown s sent k, PreviewTimer) /\
   sf = EmbedChat /\ isPreview s = true /\
   JS.truthy sent = true /\ isLoading s = false) \/
  (r = (afterShown s (JS.trim (input s)) k, AskCall (JS.trim (input s))) /\
   flowFinished s = true /\ (sf = EmbedChat -> isPreview s = false) /\
   JS.truthy (JS.trim (input s)) = true /\ isLoading s = false) \/
  (exists sid,
      r = (afterFlowStep s sent k,
           RespondCall sid (if pausedForBranch s || JS.truthy_flag isBranch
                            then OptionIndexOrLabel sent else Input sent)) /\
      sessionId s = Some sid /\ JS.truthy sid = true /\
      flowFinished s = false /\ (sf = EmbedChat -> isPreview s = false) /\
      JS.truthy sent = true /\ isLoading s = false).
Proof.
  cbv zeta. unfold handleSendMessage.
  assert (Hflow :
    flowFinished s = false -> (sf = EmbedChat -> isPreview s = false) ->
    JS.truthy (messageToSend s overrideInput) = true -> isLoading s = false ->
    let r := match sessionId s with
             | Some sid =>
                 if JS.truthy sid
                 then sendFlowStep s (messageToSend s overrideInput) isBranch sid k
                 else (s, NoCall)
             | None => (s, NoCall)
             end in
    r = (s, NoCall) \/
    exists sid,
      r = (afterFlowStep s (messageToSend s overrideInput) k,
           RespondCall sid (if pausedForBranch s || JS.truthy_flag isBranch
                            then OptionIndexOrLabel (messageToSend s overrideInput)
                            else Input (messageToSend s overrideInput))) /\
      sessionId s = Some sid /\ JS.truthy sid = true /\
      flowFinished s = false /\ (sf = EmbedChat -> isPreview s = false) /\
      JS.truthy (messageToSend s overrideInput) = true /\ isLoading s = false).
  { intros Hf Hp Ht Hl. cbv zeta.
    destruct (sessionId s) as [sid|]; [|now left].
    destruct (JS.truthy sid) eqn:Hsid; [|now left].
    right. exists sid. repeat split; assumption. }
  assert (Hask :
    flowFinished s = true -> (sf = EmbedChat -> isPreview s = false) ->
    handleAskQuestion s k = (s, NoCall) \/
    (handleAskQuestion s k
     = (afterShown s (JS.trim (input s)) k, AskCall (JS.trim (input s))) /\
     flowFinished s = true /\ (sf = EmbedChat -> isPreview s = false) /\
     JS.truthy (JS.trim (input s)) = true /\ isLoading s = false)).
  { intros Hf Hp.
    destruct (handleAskQuestion_cases s k) as [[E _]|(E & Ht & Hl)];
      [now left | right; repeat split; assumption]. }
  destruct sf.
  - destruct (JS.truthy (messageToSend s overrideInput)) eqn:Ht; simpl;
      [|now left].
    destruct (isLoading s) eqn:Hl; [now left|].
    destruct (isPreview s) eqn:Hp.
    + right. left. repeat split.
    + destruct (flowFinished s) eqn:Hf.
      * destruct (Hask eq_refl (fun _ => eq_refl)) as [E|E];
          [left; exact E | right; right; left; exact E].
      * destruct (Hflow eq_refl (fun _ => eq_refl) eq_refl eq_refl) as [E|E];
          [left; exact E | right; right; right; exact E].
  - destruct (flowFinished s) eqn:Hf.
    + destruct (Hask eq_refl) as [E|E]; [discriminate | left; exact E |
                                           right; right; left; exact E].
    + destruct (JS.truthy (messageToSend s overrideInput)) eqn:Ht; simpl;
        [|now left].
      destruct (isLoading s) eqn:Hl; [now left|].
      destruct (Hflow eq_refl) as [E|E]; try discriminate; try reflexivity;
        [left; exact E | right; right; right; exact E].
  - destruct (flowFinished s) eqn:Hf.
    + destruct (Hask eq_refl) as [E|E]; [discriminate | left; exact E |
                                           right; right; left; exact E].
    + destruct (JS.truthy (messageToSend s overrideInput)) eqn:Ht; simpl;
        [|now left].
      destruct (isLoading s) eqn:Hl; [now left|].
      destruct (Hflow eq_refl) as [E|E]; try discriminate; try reflexivity;
        [left; exact E | right; right; right; exact E].
Qed.

End Starting.

(** ** Frames of the handlers *)

Section Frames.

Implicit Types (sf : Surface) (s : State) (ss : Session) (k : Clock) (o : Outcome)
         (clk : nat -> Clock) (i : Interaction).

Lemma handleSendMessage_sessionId sf s overrideInput isBranch k :
  sessionId (fst (handleSendMessage sf s overrideInput isBranch k)) = sessionId s.
Proof.
  destruct (handleSendMessage_cases sf s overrideInput isBranch k)
    as [E|[(E & _)|[(E & _)|(sid & E & _)]]]; rewrite E; reflexivity.
Qed.

Lemma handleSendMessage_resume_fails sf s o clk :
  respondFails o = true ->
  handleSendMessage_resume sf s o clk
  = (setIsLoading
       (setMessages s (fun prev => prev ++ [botMessage (respondApology sf) (clk 0%nat)]))
       false,
     snd (handleSendMessage_resume sf s o clk)).
Proof.
  intros H. destruct o as [|ok|[] data]; try discriminate H;
    destruct sf; reflexivity.
Qed.

Lemma settle_sessionId sf (sp : State * Pending) o clk :
  sessionId (fst (settle sf sp o clk)) = sessionId (fst sp).
Proof.
  unfold settle. destruct (snd sp).
  - reflexivity.
  - destruct (respondFails o) eqn:Hf.
    + rewrite (handleSendMessage_resume_fails sf (fst sp) o clk Hf). reflexivity.
    + destruct o as [|ok|[] data]; try discriminate Hf.
      now destruct (handleSendMessage_resume_ok sf (fst sp) data clk)
        as (_ & _ & _ & Hs & _).
  - now destruct (handleAskQuestion_resume_reply sf (fst sp) o clk)
      as (_ & _ & _ & _ & Hs & _).
  - reflexivity.
Qed.

Lemma interact_sessionId sf ss i :
  sessionId (ui (interact sf ss i)) = sessionId (ui ss).
Proof.
  destruct i as [txt|k|answer k|option messageId k|o clk]; simpl.
  - reflexivity.
  - apply handleSendMessage_sessionId.
  - apply handleSendMessage_sessionId.
  - unfold handleBranchOptionClick. now rewrite handleSendMessage_sessionId.
  - apply (settle_sessionId sf (ui ss, inFlight ss)).
Qed.

(** A handler keeps a session settled. *)
Lemma launch_settled sf ss s' overrideInput isBranch k :
  steady ss -> settled ss ->
  isLoading s' = isLoading (ui ss) ->
  flowFinished s' = flowFinished (ui ss) ->
  currentPausedFor s' = currentPausedFor (ui ss) ->
  settled (launch ss (handleSendMessage sf s' overrideInput isBranch k)).
Proof.
  intros Hst Hse Hl Hf Hp.
  assert (Hq : inFlight ss = NoCall -> quiet s').
  { intros Hn. unfold settled in Hse. rewrite Hn in Hse.
    unfold quiet in *. now rewrite Hf, Hp. }
  assert (Hidle : isLoading s' = false -> inFlight ss = NoCall).
  { intros H. apply Hst. now rewrite <- Hl. }
  unfold launch, settled.
  destruct (handleSendMessage_cases sf s' overrideInput isBranch k)
    as [E|[(E & _ & _ & _ & Hl')|[(E & _ & _ & _ & Hl')
                                 |(sid & E & _ & _ & Hf' & _ & _ & Hl')]]];
    rewrite E; simpl.
  - unfold settled in Hse. destruct (inFlight ss); unfold quiet in *;
      now rewrite ?Hf, ?Hp.
  - exact (Hq (Hidle Hl')).
  - exact (Hq (Hidle Hl')).
  - exact Hf'.
Qed.

Lemma interact_settled sf ss i :
  steady ss -> settled ss -> settled (interact sf ss i).
Proof.
  intros Hst Hse.
  destruct i as [txt|k|answer k|option messageId k|o clk]; simpl.
  - exact Hse.
  - now apply launch_settled.
  - now apply launch_settled.
  - now apply launch_settled.
  - unfold settled. simpl.
    apply (settle_quiet sf (ui ss, inFlight ss)). exact Hse.
Qed.

Lemma play_interactions_settled sf ss (acts : list Interaction) :
  steady ss -> settled ss ->
  steady (play sf ss (map interaction acts)) /\
  settled (play sf ss (map interaction acts)).
Proof.
  revert ss. induction acts as [|i acts IH]; intros ss Hst Hse; simpl.
  - now split.
  - apply IH.
    + now apply (react_steady sf ss (interaction i)).
    + now apply interact_settled.
Qed.

Lemma settled_quiet ss : steady ss -> settled ss -> quiet (ui ss).
Proof.
  unfold settled, quiet. intros _ H.
  destruct (inFlight ss); try exact H. intros Hf. congruence.
Qed.

End Frames.

(** ** The flow client, beyond the claims *)

(** X1: single flight.  From a fresh session, after any events, the
    loading flag is up exactly while a call is in flight; and while one is,
    no handler starts a second call: a send, a confirmation or a branch
    click returns at its guard. *)
Theorem single_flight :
  forall (sf : Surface) (preview : bool) (trace : list Event),
    let ss := play sf (mkSession (initialState preview) NoCall) trace in
    (inFlight ss = NoCall <-> isLoading (ui ss) = false) /\
    (inFlight ss <> NoCall ->
     (forall overrideInput isBranch k,
         handleSendMessage sf (ui ss) overrideInput isBranch k = (ui ss, NoCall)) /\
     (forall answer k, snd (handleConfirmationClick sf (ui ss) answer k) = NoCall) /\
     (forall option messageId k,
         snd (handleBranchOptionClick sf (ui ss) option messageId k) = NoCall) /\
     (forall k, handleAskQuestion (ui ss) k = (ui ss, NoCall))).
Proof.
  intros sf preview trace ss.
  pose proof (loading_iff_in_flight sf preview trace) as Hiff.
  cbv zeta in Hiff. fold ss in Hiff.
  split; [exact Hiff|].
  intros Hbusy.
  assert (Hl : isLoading (ui ss) = true).
  { destruct (isLoading (ui ss)) eqn:E; [reflexivity|]. exfalso. apply Hbusy.
    apply Hiff. reflexivity. }
  split; [|split; [|split]].
  - intros. now apply handleSendMessage_loading.
  - intros. unfold handleConfirmationClick.
    now rewrite handleSendMessage_loading.
  - intros. unfold handleBranchOptionClick.
    now rewrite handleSendMessage_loading.
  - intros. apply handleAskQuestion_rejects. now right.
Qed.

Lemma single_flight_witness :
  let ss := play EmbedChat (mkSession (initialState true) NoCall)
                 [previewSeeded (Sample.clock 100000); interaction (typed "hi");
                  interaction (sendPressed Sample.tick)] in
  inFlight ss = PreviewTimer /\
  snd (handleConfirmationClick EmbedChat (ui ss) "Yes" Sample.tick') = NoCall.
Proof.
  cbv zeta. split; [reflexivity|].
  destruct (proj2 (single_flight
                     EmbedChat true
                     [previewSeeded (Sample.clock 100000); interaction (typed "hi");
                  interaction (sendPressed Sample.tick)]))
    as (_ & H & _); [vm_compute; discriminate | apply H].
Defined.

(** X2: in a session that was started once, however the clicks, key
    presses and resolving calls interleave afterwards, a finished flow has
    no outstanding pause: Q&A mode never waits for a flow input. *)
Theorem qna_mode_never_pauses :
  forall (sf : Surface) (preview : bool) (o : Outcome) (clk : nat -> Clock)
         (acts : list Interaction),
    let started := fst (startFlowEffect sf (initialState preview) o clk) in
    let ss := play sf (mkSession started NoCall) (map interaction acts) in
    flowFinished (ui ss) = true ->
    currentPausedFor (ui ss) = None /\
    (forall msg, confirmationButtonsShown (ui ss) msg = false).
Proof.
  intros sf preview o clk acts started ss Hfin.
  assert (Hst : steady (mkSession started NoCall)).
  { pose proof (loading_iff_in_flight sf preview [flowStarted o clk]) as H.
    exact H. }
  assert (Hse : settled (mkSession started NoCall)).
  { unfold settled. simpl. apply start_quiet. reflexivity. }
  destruct (play_interactions_settled sf _ acts Hst Hse) as [Hst' Hse'].
  fold ss in Hst', Hse'.
  split.
  - now apply (settled_quiet ss Hst' Hse').
  - intros msg. unfold confirmationButtonsShown. rewrite Hfin.
    now rewrite andb_false_r.
Qed.

Lemma qna_mode_never_pauses_witness :
  let started := fst (startFlowEffect ChatBot (initialState false)
                                      (Response true Sample.branchStart)
                                      (Sample.clock 1000)) in
  let acts := [branchOptionClicked "A" "10000.5" Sample.tick;
               callResolved (Response true Sample.finishedStart) (Sample.clock 3500)] in
  let ss := play ChatBot (mkSession started NoCall) (map interaction acts) in
  flowFinished (ui ss) = true /\ currentPausedFor (ui ss) = None.
Proof.
  cbv zeta. split; [reflexivity|].
  apply (qna_mode_never_pauses
           ChatBot false (Response true Sample.branchStart) (Sample.clock 1000)
           [branchOptionClicked "A" "10000.5" Sample.tick;
            callResolved (Response true Sample.finishedStart) (Sample.clock 3500)]).
  reflexivity.
Defined.

(** X3: the session id is stable.  No click, key press or resolving call
    changes it (only a start response sets it); and every respond request
    that goes out is addressed to the current, non-empty session id. *)
Theorem session_id_is_stable :
  forall (sf : Surface),
    (forall (ss : Session) (acts : list Interaction),
        sessionId (ui (play sf ss (map interaction acts))) = sessionId (ui ss)) /\
    (forall (s : State) overrideInput isBranch k sid body,
        snd (handleSendMessage sf s overrideInput isBranch k) = RespondCall sid body ->
        sessionId s = Some sid /\ sid <> "").
Proof.
  intros sf. split.
  - intros ss acts. revert ss.
    induction acts as [|i acts IH]; intros ss; simpl; [reflexivity|].
    rewrite IH. apply interact_sessionId.
  - intros s overrideInput isBranch k sid body H.
    destruct (handleSendMessage_cases sf s overrideInput isBranch k)
      as [E|[(E & _)|[(E & _)|(sid' & E & Hs & Ht & _)]]];
      rewrite E in H; simpl in H; try discriminate H.
    injection H as <- _. split; [exact Hs|].
    intros ->. discriminate Ht.
Qed.

Lemma session_id_is_stable_witness :
  snd (handleSendMessage EmbedChat (Sample.atBranch EmbedChat) (Some "A") (Some true)
                         Sample.tick)
  = RespondCall "s1" (OptionIndexOrLabel "A") /\
  sessionId (Sample.atBranch EmbedChat) = Some "s1".
Proof.
  split; [reflexivity|].
  exact (proj1 (proj2 (session_id_is_stable EmbedChat)
                      (Sample.atBranch EmbedChat) (Some "A") (Some true) Sample.tick
                      "s1" (OptionIndexOrLabel "A") eq_refl)).
Defined.

(** X4: once the flow has finished no handler sends a flow step any more.
    A send, a confirmation click and a branch click either do nothing or
    ask the question that stands in the input box; the value that was
    clicked is not what is asked. *)
Theorem no_flow_step_after_finish :
  forall (sf : Surface) (s : State),
    flowFinished s = true ->
    (forall overrideInput isBranch k,
        match snd (handleSendMessage sf s overrideInput isBranch k) with
        | RespondCall _ _ => False
        | AskCall q => q = JS.trim (input s)
        | NoCall | PreviewTimer => True
        end) /\
    (forall option messageId k,
        match snd (handleBranchOptionClick sf s option messageId k) with
        | RespondCall _ _ => False
        | AskCall q => q = JS.trim (input s)
        | NoCall | PreviewTimer => True
        end) /\
    (forall answer k,
        JS.truthy (JS.trim (input s)) = false ->
        snd (handleConfirmationClick sf s answer k) = NoCall \/
        snd (handleConfirmationClick sf s answer k) = PreviewTimer).
Proof.
  intros sf s Hfin.
  assert (H : forall s', flowFinished s' = true -> forall overrideInput isBranch k,
             match snd (handleSendMessage sf s' overrideInput isBranch k) with
             | RespondCall _ _ => False
             | AskCall q => q = JS.trim (input s')
             | NoCall | PreviewTimer => True
             end).
  { intros s' Hf overrideInput isBranch k.
    destruct (handleSendMessage_cases sf s' overrideInput isBranch k)
      as [E|[(E & _)|[(E & _)|(sid & E & _ & _ & Hf' & _)]]];
      rewrite E; simpl; auto. congruence. }
  split; [exact (H s Hfin)|]. split.
  - intros option messageId k. unfold handleBranchOptionClick.
    apply (H (setMessages s (markSelected option messageId))). exact Hfin.
  - intros answer k Hblank. unfold handleConfirmationClick.
    destruct (handleSendMessage_cases sf s (Some answer) (Some false) k)
      as [E|[(E & _)|[(E & _ & _ & Ht & _)|(sid & E & _ & _ & Hf' & _)]]];
      rewrite E; simpl; auto; congruence.
Qed.

Lemma no_flow_step_after_finish_witness :
  flowFinished (Sample.questionTyped ChatBot) = true /\
  snd (handleConfirmationClick ChatBot (Sample.questionTyped ChatBot) "yes" Sample.tick)
  = AskCall "why?".
Proof.
  split; [reflexivity|].
  pose proof (proj1 (no_flow_step_after_finish
                       ChatBot (Sample.questionTyped ChatBot) eq_refl)
                    (Some "yes") (Some false) Sample.tick) as H.
  unfold handleConfirmationClick.
  destruct (snd (handleSendMessage ChatBot (Sample.questionTyped ChatBot)
                                   (Some "yes") (Some false) Sample.tick)) eqn:E;
    try discriminate E; try contradiction.
  rewrite H. reflexivity.
Defined.

(** X5: what is sent is what is shown.  Whenever a handler starts a call
    (a flow step, a question or the preview timer), it has appended exactly
    one user event whose text is the non-empty text the call carries,
    emptied the input box and raised the loading flag, all before the call
    resolves; for a flow step it has also cleared the pause, so that no Yes
    and No buttons are shown while the step is in flight. *)
Theorem sent_text_is_shown :
  forall (sf : Surface) (s s' : State) overrideInput isBranch (k : Clock)
         (call : Pending),
    handleSendMessage sf s overrideInput isBranch k = (s', call) ->
    call <> NoCall ->
    exists sent,
      messages s' = messages s ++ [userMessage sent k] /\
      sent <> "" /\
      carries call sent /\
      input s' = "" /\
      isLoading s' = true /\
      (forall sid body, call = RespondCall sid body ->
         currentPausedFor s' = None /\
         forall msg, confirmationButtonsShown s' msg = false).
Proof.
  intros sf s s' overrideInput isBranch k call H Hcall.
  assert (Hne : forall t, JS.truthy t = true -> t <> "").
  { intros t Ht ->. discriminate Ht. }
  destruct (handleSendMessage_cases sf s overrideInput isBranch k)
    as [E|[(E & _ & _ & Ht & _)|[(E & _ & _ & Ht & _)
                                |(sid & E & _ & _ & _ & _ & Ht & _)]]];
    rewrite E in H; injection H as <- <-.
  - congruence.
  - eexists. split; [reflexivity|]. split; [now apply Hne|].
    split; [exact I|]. split; [reflexivity|]. split; [reflexivity|].
    intros ? ? Hc. discriminate Hc.
  - eexists. split; [reflexivity|]. split; [now apply Hne|].
    split; [reflexivity|]. split; [reflexivity|]. split; [reflexivity|].
    intros ? ? Hc. discriminate Hc.
  - exists (messageToSend s overrideInput).
    split; [reflexivity|]. split; [now apply Hne|]. split.
    { destruct (pausedForBranch s || JS.truthy_flag isBranch); reflexivity. }
    split; [reflexivity|]. split; [reflexivity|].
    intros ? ? _. split; [reflexivity|].
    intros msg. unfold confirmationButtonsShown, isAwaitingInput. simpl.
    now rewrite andb_false_r.
Qed.

Lemma sent_text_is_shown_witness :
  let r := handleSendMessage PublicBotChatPage
                             (setInput (Sample.afterChoice PublicBotChatPage) "  Ada ")
                             None None Sample.tick' in
  snd r <> NoCall /\
  messages (fst r)
  = messages (Sample.afterChoice PublicBotChatPage) ++ [userMessage "Ada" Sample.tick'] /\
  snd r = RespondCall "s1" (Input "Ada").
Proof.
  cbv zeta.
  destruct (sent_text_is_shown
              PublicBotChatPage
              (setInput (Sample.afterChoice PublicBotChatPage) "  Ada ")
              (fst (handleSendMessage PublicBotChatPage
                      (setInput (Sample.afterChoice PublicBotChatPage) "  Ada ")
                      None None Sample.tick'))
              None None Sample.tick'
              (RespondCall "s1" (Input "Ada")) eq_refl)
    as (sent & Hm & _ & Hc & _); [discriminate|].
  split; [discriminate|]. split; [|reflexivity].
  simpl in Hc. rewrite Hm, <- Hc. reflexivity.
Defined.

(** X6: the shape of a respond request.  A branch click sends its option
    as [optionIndexOrLabel] (an empty option label falls back to the text of
    the input box).  A confirmation click and a typed text are sent as
    [input], unless the stored pause is of type branch, in which case they
    too go out as [optionIndexOrLabel]. *)
Theorem respond_request_shape :
  forall (sf : Surface) (s : State) (k : Clock) (sid : string) (body : RequestBody),
    (forall option messageId,
        snd (handleBranchOptionClick sf s option messageId k) = RespondCall sid body ->
        body = OptionIndexOrLabel (if JS.truthy option then option
                                   else JS.trim (input s))) /\
    (forall answer,
        snd (handleConfirmationClick sf s answer k) = RespondCall sid body ->
        answer <> "" ->
        body = if pausedForBranch s then OptionIndexOrLabel answer else Input answer) /\
    (snd (handleSendMessage sf s None None k) = RespondCall sid body ->
     body = if pausedForBranch s then OptionIndexOrLabel (JS.trim (input s))
            else Input (JS.trim (input s))).
Proof.
  intros sf s k sid body.
  assert (H : forall s' overrideInput isBranch,
             snd (handleSendMessage sf s' overrideInput isBranch k)
             = RespondCall sid body ->
             body = if pausedForBranch s' || JS.truthy_flag isBranch
                    then OptionIndexOrLabel (messageToSend s' overrideInput)
                    else Input (messageToSend s' overrideInput)).
  { intros s' overrideInput isBranch Hr.
    destruct (handleSendMessage_cases sf s' overrideInput isBranch k)
      as [E|[(E & _)|[(E & _)|(sid' & E & _)]]];
      rewrite E in Hr; simpl in Hr; try discriminate Hr.
    now injection Hr as _ <-. }
  split; [|split].
  - intros option messageId Hr. unfold handleBranchOptionClick in Hr.
    apply H in Hr. rewrite Hr, orb_true_r.
    unfold messageToSend. simpl. destruct option; reflexivity.
  - intros answer Hr Hne. unfold handleConfirmationClick in Hr.
    apply H in Hr. rewrite Hr, orb_false_r.
    unfold messageToSend. simpl. destruct answer; [congruence | reflexivity].
  - intros Hr. apply H in Hr. now rewrite Hr, orb_false_r.
Qed.

Lemma respond_request_shape_witness :
  snd (handleConfirmationClick ChatBot (Sample.atBranch ChatBot) "yes" Sample.tick')
  = RespondCall "s1" (OptionIndexOrLabel "yes") /\
  "yes" <> "" /\
  OptionIndexOrLabel "yes"
  = (if pausedForBranch (Sample.atBranch ChatBot)
     then OptionIndexOrLabel "yes" else Input "yes").
Proof.
  split; [reflexivity|]. split; [discriminate|].
  apply (proj1 (proj2 (respond_request_shape
                         ChatBot (Sample.atBranch ChatBot) Sample.tick' "s1"
                         (OptionIndexOrLabel "yes"))) "yes");
    [reflexivity | discriminate].
Defined.

(** X7: a failed flow step is a dead end for typed text.  When the respond
    call of an accepted step fails (rejected fetch, undecodable body or a
    status that is not ok), one apology event follows the user event, the
    loading flag is cleared, the finished flag and the session id are as
    before, and the pause stays cleared: so the text input and the send
    button stay disabled and no Yes and No buttons are shown. *)
Theorem failed_step_disables_text :
  forall (sf : Surface) (s s' : State) overrideInput isBranch (k : Clock)
         (sid : string) (body : RequestBody) (o : Outcome) (clk : nat -> Clock),
    handleSendMessage sf s overrideInput isBranch k = (s', RespondCall sid body) ->
    respondFails o = true ->
    let r := fst (handleSendMessage_resume sf s' o clk) in
    (exists sent,
        carries (RespondCall sid body) sent /\
        messages r = messages s
                     ++ [userMessage sent k;
                         botMessage (respondApology sf) (clk 0%nat)]) /\
    isLoading r = false /\
    flowFinished r = false /\
    sessionId r = sessionId s /\
    currentPausedFor r = None /\
    (forall flagged,
        canSendText sf r flagged = false /\
        inputDisabled sf r flagged = true /\
        sendDisabled sf r flagged = true) /\
    (forall msg, confirmationButtonsShown r msg = false).
Proof.
  intros sf s s' overrideInput isBranch k sid body o clk H Hfail r.
  destruct (handleSendMessage_cases sf s overrideInput isBranch k)
    as [E|[(E & _)|[(E & _)|(sid' & E & _ & _ & Hf & Hp & _)]]];
    rewrite E in H; try discriminate H.
  injection H as <- <- <-.
  subst r. rewrite (handleSendMessage_resume_fails sf _ o clk Hfail). cbn [fst].
  set (r := setIsLoading _ false).
  assert (Hcan : forall flagged, canSendText sf r flagged = false).
  { intros flagged. unfold canSendText, isAwaitingInput. subst r. simpl.
    rewrite Hf. destruct sf; simpl; try reflexivity. now rewrite (Hp eq_refl). }
  split.
  { exists (messageToSend s overrideInput). split.
    - destruct (pausedForBranch s || JS.truthy_flag isBranch); reflexivity.
    - subst r. simpl. now rewrite <- app_assoc. }
  split; [reflexivity|]. split; [exact Hf|]. split; [reflexivity|].
  split; [reflexivity|]. split.
  - intros flagged. split; [apply Hcan|]. split.
    + unfold inputDisabled. now rewrite Hcan, orb_true_r.
    + unfold sendDisabled. now rewrite Hcan, orb_true_r.
  - intros msg. unfold confirmationButtonsShown, isAwaitingInput. subst r. simpl.
    now rewrite andb_false_r.
Qed.

Lemma failed_step_disables_text_witness :
  let s := setInput (Sample.afterChoice EmbedChat) "Ada" in
  let s' := fst (handleSendMessage EmbedChat s None None Sample.tick') in
  let r := fst (handleSendMessage_resume EmbedChat s' (Response false Sample.errorBody)
                                         (Sample.clock 5000)) in
  handleSendMessage EmbedChat s None None Sample.tick' = (s', RespondCall "s1" (Input "Ada")) /\
  respondFails (Response false Sample.errorBody) = true /\
  inputDisabled EmbedChat r false = true.
Proof.
  cbv zeta. split; [reflexivity|]. split; [reflexivity|].
  destruct (failed_step_disables_text
              EmbedChat (setInput (Sample.afterChoice EmbedChat) "Ada")
              (fst (handleSendMessage EmbedChat
                      (setInput (Sample.afterChoice EmbedChat) "Ada")
                      None None Sample.tick'))
              None None Sample.tick' "s1" (Input "Ada")
              (Response false Sample.errorBody) (Sample.clock 5000)
              eq_refl eq_refl)
    as (_ & _ & _ & _ & _ & Hdis & _).
  exact (proj1 (proj2 (Hdis false))).
Defined.

(** X8: the preview of the embed page never reaches the backend.  In
    preview mode, whatever events arrive (a start included), nothing but
    the demo timer is ever in flight, and the session id, the finished flag
    and the pause stay as they were. *)
Theorem preview_stays_offline :
  forall (s : State) (p : Pending) (trace : list Event),
    isPreview s = true ->
    offline p ->
    let ss := play EmbedChat (mkSession s p) trace in
    offline (inFlight ss) /\
    isPreview (ui ss) = true /\
    sessionId (ui ss) = sessionId s /\
    flowFinished (ui ss) = flowFinished s /\
    currentPausedFor (ui ss) = currentPausedFor s.
Proof.
  intros s p trace. revert s p.
  assert (Hsend : forall s overrideInput isBranch k,
             isPreview s = true ->
             let r := handleSendMessage EmbedChat s overrideInput isBranch k in
             r = (s, NoCall) \/
             r = (afterShown s (messageToSend s overrideInput) k, PreviewTimer)).
  { intros s overrideInput isBranch k Hp. cbv zeta.
    destruct (handleSendMessage_cases EmbedChat s overrideInput isBranch k)
      as [E|[(E & _)|[(E & _ & Hq & _)|(sid & E & _ & _ & _ & Hq & _)]]];
      auto; specialize (Hq eq_refl); congruence. }
  assert (Hlaunch : forall s s1 p overrideInput isBranch k,
             isPreview s = true -> offline p ->
             isPreview s1 = true -> sessionId s1 = sessionId s ->
             flowFinished s1 = flowFinished s ->
             currentPausedFor s1 = currentPausedFor s ->
             let ss := launch (mkSession s p)
                              (handleSendMessage EmbedChat s1 overrideInput isBranch k) in
             offline (inFlight ss) /\ isPreview (ui ss) = true /\
             sessionId (ui ss) = sessionId s /\
             flowFinished (ui ss) = flowFinished s /\
             currentPausedFor (ui ss) = currentPausedFor s).
  { intros s s1 p overrideInput isBranch k Hp Ho Hp1 Hs Hf Hc. cbv zeta.
    destruct (Hsend s1 overrideInput isBranch k Hp1) as [E|E]; rewrite E;
      unfold launch; simpl; repeat split; auto. now right. }
  induction trace as [|ev trace IH]; intros s p Hp Ho; simpl.
  - repeat split; auto.
  - assert (Hstep : let ss := react EmbedChat (mkSession s p) ev in
                    offline (inFlight ss) /\ isPreview (ui ss) = true /\
                    sessionId (ui ss) = sessionId s /\
                    flowFinished (ui ss) = flowFinished s /\
                    currentPausedFor (ui ss) = currentPausedFor s).
    { destruct ev as [o clk|clk|[txt|k|answer k|option messageId k|o clk]];
        cbv zeta; cbn [react interact ui inFlight].
      - unfold startFlowEffect. rewrite Hp. simpl. repeat split; auto.
      - unfold previewMessagesEffect. rewrite Hp. simpl. repeat split; auto.
      - simpl. repeat split; auto.
      - now apply (Hlaunch s s p).
      - now apply (Hlaunch s s p).
      - now apply (Hlaunch s (setMessages s (markSelected option messageId)) p).
      - unfold settle. simpl.
        destruct Ho as [-> | ->]; simpl; repeat split; auto; now left. }
    cbv zeta in Hstep. destruct Hstep as (Ho' & Hp' & Hs' & Hf' & Hc').
    destruct (react EmbedChat (mkSession s p) ev) as [s1 p1]. simpl in *.
    destruct (IH s1 p1 Hp' Ho') as (H1 & H2 & H3 & H4 & H5).
    repeat split; congruence.
Qed.

Lemma preview_stays_offline_witness :
  let trace := [previewSeeded (Sample.clock 100000);
                flowStarted (Response true Sample.branchStart) (Sample.clock 1000);
                interaction (typed "hello");
                interaction (sendPressed Sample.tick)] in
  let ss := play EmbedChat (mkSession (initialState true) NoCall) trace in
  isPreview (initialState true) = true /\
  offline NoCall /\
  inFlight ss = PreviewTimer /\
  sessionId (ui ss) = None.
Proof.
  cbv zeta. split; [reflexivity|]. split; [now left|]. split; [reflexivity|].
  exact (proj1 (proj2 (proj2 (preview_stays_offline
                                (initialState true) NoCall
                                [previewSeeded (Sample.clock 100000);
                flowStarted (Response true Sample.branchStart)
                                             (Sample.clock 1000);
                                 interaction (typed "hello");
                                 interaction (sendPressed Sample.tick)]
                                eq_refl (or_introl eq_refl))))).
Defined.

(** X9: the per-message loop yields one event for every message that is
    not a redirect and none for a redirect, in the order of the messages,
    with the text of the message (none for a branch prompt); every event
    it yields is of bot origin and has no selected option; and the only
    effect it has is to open a window, with a non-empty URL, at most once
    per redirect message. *)
Theorem loop_counts :
  forall (msgs : list RawMessage) (clk : nat -> Clock),
    let r := forEachMessage msgs clk in
    length (fst r) = length (filter (fun m => negb (isRedirect m)) msgs) /\
    map text (fst r) = map shownText (filter (fun m => negb (isRedirect m)) msgs) /\
    Forall (fun ev => sender ev = bot /\ selectedBranch ev = None) (fst r) /\
    length (snd r) <= length (filter isRedirect msgs) /\
    Forall (fun fx => exists url, fx = WindowOpen url /\ url <> "") (snd r).
Proof.
  intros msgs. induction msgs as [|msg msgs IH]; intros clk.
  - simpl. repeat split; auto.
  - destruct (IH (fun i => clk (S i))) as (Hlen & Htxt & Hev & Hfx & Hurl).
    cbv zeta. cbn [forEachMessage filter]. unfold onMessage.
    change (JS.strictEq (msg_type msg) "redirect") with (isRedirect msg).
    destruct (isRedirect msg) eqn:Hr; cbn [negb fst snd app length map].
    + split; [exact Hlen|]. split; [exact Htxt|]. split; [exact Hev|].
      destruct (redirectUrl msg) as [url|]; [destruct (JS.truthy url) eqn:Ht|];
        cbn [app length]; split; auto; try lia.
      constructor; [|exact Hurl]. exists url. split; [reflexivity|].
      intros ->. discriminate Ht.
    + unfold shownText at 1, isBranchPrompt. rewrite Hr. cbn [negb andb].
      destruct (JS.strictEq (msg_type msg) "branch"
                && JS.truthy_flag (awaitingInput msg));
        cbn [fst snd app length map];
        (split; [now rewrite Hlen|]);
        (split; [now rewrite Htxt|]);
        (split; [constructor; [now split | exact Hev]|]);
        split; auto.
Qed.

(** X10: a usable answer is shown as it is.  When an ask call comes back
    ok with a non-empty [result.answer], exactly one bot event with that
    answer as its text is appended, the loading flag is cleared and nothing
    else happens: no apology, no toast. *)
Theorem answer_is_shown :
  forall (sf : Surface) (s : State) (o : Outcome) (clk : nat -> Clock) (a : string),
    usableAnswer o = Some a ->
    handleAskQuestion_resume sf s o clk
    = (setIsLoading (setMessages s (fun prev => prev ++ [botMessage a (clk 0%nat)]))
                    false, []) /\
    a <> "" /\
    askThrows o = false.
Proof.
  intros sf s o clk a H.
  destruct o as [|ok|[] data]; try discriminate H. simpl in H.
  unfold handleAskQuestion_resume, handleAskQuestion_try, tryCatch, awaitResponse,
    bind, ret, throw, askThrows. simpl.
  destruct (data_result data) as [[[ans|]]|]; try discriminate H. simpl in *.
  destruct ans as [|c ans]; [discriminate H|]. injection H as <-.
  repeat split. discriminate.
Qed.

Lemma answer_is_shown_witness :
  let o := Response true (mkData None None None false None
                                 (Some (mkAskResult (Some "We open at nine.")))) in
  usableAnswer o = Some "We open at nine." /\
  messages (fst (handleAskQuestion_resume EmbedChat (Sample.questionTyped EmbedChat)
                                          o (Sample.clock 3500)))
  = messages (Sample.questionTyped EmbedChat)
    ++ [botMessage "We open at nine." (Sample.clock 3500 0)].
Proof.
  cbv zeta. split; [reflexivity|].
  rewrite (proj1 (answer_is_shown
                    EmbedChat (Sample.questionTyped EmbedChat)
                    (Response true (mkData None None None false None
                                           (Some (mkAskResult (Some "We open at nine.")))))
                    (Sample.clock 3500) "We open at nine." eq_refl)).
  reflexivity.
Defined.

(** X11: without a session nothing ever goes out.  While there is no
    session id and the flow has not finished (the embed page not being in
    preview mode), no sequence of typing, sending, confirmation and branch
    clicks starts a call or appends an event; the state stays that way.
    This is the state a start leaves whose fetch or decoding rejects. *)
Theorem no_session_no_call :
  forall (sf : Surface) (s : State) (acts : list Interaction),
    sessionless sf s ->
    let ss := play sf (mkSession s NoCall) (map interaction acts) in
    inFlight ss = NoCall /\
    sessionless sf (ui ss) /\
    length (messages (ui ss)) = length (messages s) /\
    isLoading (ui ss) = isLoading s /\
    (forall o clk, awaitRejects o = true ->
       sessionless sf (fst (initFlow sf (initialState false) o clk))).
Proof.
  intros sf s acts Hs.
  assert (Hsend : forall s1 overrideInput isBranch k,
             sessionless sf s1 ->
             handleSendMessage sf s1 overrideInput isBranch k = (s1, NoCall)).
  { intros s1 overrideInput isBranch k (Hsid & Hfin & Hprev).
    destruct (handleSendMessage_cases sf s1 overrideInput isBranch k)
      as [E|[(E & Hsf & Hp & _)|[(E & Hf & _)|(sid & E & Hsome & Ht & _)]]];
      auto.
    - specialize (Hprev Hsf). congruence.
    - congruence.
    - rewrite Hsome in Hsid. simpl in Hsid. congruence. }
  assert (Hstep : forall s1 i,
             sessionless sf s1 ->
             let ss := interact sf (mkSession s1 NoCall) i in
             inFlight ss = NoCall /\ sessionless sf (ui ss) /\
             length (messages (ui ss)) = length (messages s1) /\
             isLoading (ui ss) = isLoading s1).
  { intros s1 i Hs1. cbv zeta.
    destruct i as [txt|k|answer k|option messageId k|o clk];
      cbn [interact ui inFlight].
    - repeat split; apply Hs1.
    - rewrite (Hsend s1 None None k Hs1). repeat split; apply Hs1.
    - unfold handleConfirmationClick.
      rewrite (Hsend s1 (Some answer) (Some false) k Hs1). repeat split; apply Hs1.
    - unfold handleBranchOptionClick.
      assert (Hs2 : sessionless sf (setMessages s1 (markSelected option messageId)))
        by exact Hs1.
      rewrite (Hsend _ (Some option) (Some true) k Hs2). unfold launch. simpl.
      split; [reflexivity|]. split; [exact Hs1|].
      split; [apply markSelected_length | reflexivity].
    - simpl. repeat split; apply Hs1. }
  cbv zeta. split; [|split; [|split; [|split]]].
  5: { intros o clk Hfail. destruct o as [|ok|ok data]; try discriminate Hfail;
         destruct sf; repeat split; intros; discriminate. }
  all: revert s Hs; induction acts as [|i acts IH]; intros s Hs; simpl;
    try reflexivity; try exact Hs;
    destruct (Hstep s i Hs) as (Hn & Hs' & Hlen & Hl);
    destruct (interact sf (mkSession s NoCall) i) as [s1 p1]; simpl in *; subst p1;
    rewrite ?(IH s1 Hs'); auto.
Qed.

Lemma no_session_no_call_witness :
  let s := fst (initFlow EmbedChat (initialState false) FetchRejected (Sample.clock 1000)) in
  let acts := [typed "hello"; sendPressed Sample.tick;
               confirmationClicked "yes" Sample.tick';
               branchOptionClicked "A" "init" Sample.tick'] in
  sessionless EmbedChat s /\
  inFlight (play EmbedChat (mkSession s NoCall) (map interaction acts)) = NoCall.
Proof.
  cbv zeta.
  assert (Hs : sessionless EmbedChat
                 (fst (initFlow EmbedChat (initialState false) FetchRejected
                                (Sample.clock 1000)))).
  { repeat split. }
  split; [exact Hs|].
  exact (proj1 (no_session_no_call
                  EmbedChat _
                  [typed "hello"; sendPressed Sample.tick;
                   confirmationClicked "yes" Sample.tick';
                   branchOptionClicked "A" "init" Sample.tick'] Hs)).
Defined.

(** X12: an enabled send button does send, and sends typed text as
    [input].  When the send button is enabled and there is a session (or
    the flow has finished, or the embed page is in preview mode), a click
    starts a call that carries the trimmed text of the input box; when
    that call is a flow step its body is [input], never
    [optionIndexOrLabel], because the button is disabled while the pause
    is of type branch. *)
Theorem enabled_send_sends_input :
  forall (sf : Surface) (s : State) (flagged : bool) (k : Clock),
    sendDisabled sf s flagged = false ->
    flowFinished s = true \/ (sf = EmbedChat /\ isPreview s = true)
    \/ JS.truthy_opt (sessionId s) = true ->
    exists s' call,
      clickSend sf s flagged k = (s', call) /\
      call <> NoCall /\
      carries call (JS.trim (input s)) /\
      messages s' = messages s ++ [userMessage (JS.trim (input s)) k] /\
      (forall sid body, call = RespondCall sid body ->
                        body = Input (JS.trim (input s))).
Proof.
  intros sf s flagged k Hen Hready.
  unfold sendDisabled in Hen.
  apply orb_false_iff in Hen as [Hen Hcan].
  apply orb_false_iff in Hen as [Ht Hl].
  apply negb_false_iff in Ht, Hcan.
  unfold clickSend, sendDisabled. rewrite Ht, Hl, Hcan. simpl.
  unfold handleSendMessage, messageToSend, handleAskQuestion. simpl JS.or_default.
  rewrite Ht, Hl. simpl.
  assert (Hflow : flowFinished s = false -> (sf = EmbedChat -> isPreview s = false) ->
                  pausedForBranch s = false /\ JS.truthy_opt (sessionId s) = true).
  { intros Hf Hp. split.
    - unfold canSendText in Hcan. rewrite Hf in Hcan.
      destruct sf; rewrite ?(Hp eq_refl) in Hcan; simpl in Hcan;
        destruct (pausedForBranch s); try reflexivity;
        now rewrite andb_false_r in Hcan.
    - destruct Hready as [H|[[Hsf H]|H]]; try congruence.
      specialize (Hp Hsf). congruence. }
  assert (Hstep : flowFinished s = false -> (sf = EmbedChat -> isPreview s = false) ->
            exists s' call,
              match sessionId s with
              | Some sid =>
                  if JS.truthy sid
                  then sendFlowStep s (JS.trim (input s)) None sid k
                  else (s, NoCall)
              | None => (s, NoCall)
              end = (s', call) /\
              call <> NoCall /\
              carries call (JS.trim (input s)) /\
              messages s' = messages s ++ [userMessage (JS.trim (input s)) k] /\
              (forall sid body, call = RespondCall sid body ->
                                body = Input (JS.trim (input s)))).
  { intros Hf Hp. destruct (Hflow Hf Hp) as [Hb Hsid].
    destruct (sessionId s) as [sid|]; [|discriminate Hsid]. simpl in Hsid.
    rewrite Hsid. unfold sendFlowStep. rewrite Hb. simpl.
    eexists _, _. split; [reflexivity|]. split; [discriminate|].
    split; [reflexivity|]. split; [reflexivity|].
    intros sid' body H. now injection H as _ <-. }
  assert (Hask : exists s' call,
             (afterShown s (JS.trim (input s)) k, AskCall (JS.trim (input s)))
             = (s', call) /\
             call <> NoCall /\
             carries call (JS.trim (input s)) /\
             messages s' = messages s ++ [userMessage (JS.trim (input s)) k] /\
             (forall sid body, call = RespondCall sid body ->
                               body = Input (JS.trim (input s)))).
  { eexists _, _. split; [reflexivity|]. split; [discriminate|].
    split; [reflexivity|]. split; [reflexivity|]. intros ? ? H. discriminate H. }
  destruct sf.
  - destruct (isPreview s) eqn:Hp.
    + eexists _, _. split; [reflexivity|]. split; [discriminate|].
      split; [exact I|]. split; [reflexivity|]. intros ? ? H. discriminate H.
    + destruct (flowFinished s) eqn:Hf; [exact Hask|].
      now apply Hstep.
  - destruct (flowFinished s) eqn:Hf; [exact Hask|].
    rewrite ?Ht, ?Hl. simpl. apply Hstep; [reflexivity | discriminate].
  - destruct (flowFinished s) eqn:Hf; [exact Hask|].
    rewrite ?Ht, ?Hl. simpl. apply Hstep; [reflexivity | discriminate].
Qed.

Lemma enabled_send_sends_input_witness :
  let s := setInput (Sample.afterChoice ChatBot) " Ada " in
  sendDisabled ChatBot s false = false /\
  JS.truthy_opt (sessionId s) = true /\
  snd (clickSend ChatBot s false Sample.tick') = RespondCall "s1" (Input "Ada").
Proof.
  cbv zeta. split; [reflexivity|]. split; [reflexivity|].
  destruct (enabled_send_sends_input
              ChatBot (setInput (Sample.afterChoice ChatBot) " Ada ") false Sample.tick'
              eq_refl (or_intror (or_intror eq_refl)))
    as (s' & call & E & _ & _ & _ & Hbody).
  rewrite E. simpl.
  assert (Hc : call = RespondCall "s1" (Input "Ada")).
  { apply (f_equal snd) in E. simpl in E. rewrite <- E. reflexivity. }
  exact Hc.
Defined.

(** X13: one click settles a branch prompt.  A click on an enabled branch
    button with a non-empty label writes that label into the prompt as its
    selected option, whether or not a request goes out, and from then on
    every button of the prompt is disabled: a further click on any of them
    changes nothing.  In particular a click made while a call is in flight
    sends nothing and still uses up the prompt. *)
Theorem clicked_prompt_is_disabled :
  forall (sf : Surface) (s : State) (i j : nat) (k : Clock)
         (msg : Message) (opt : string),
    nth_error (messages s) i = Some msg ->
    nth_error (branchButtons msg) j = Some opt ->
    branchButtonDisabled msg = false ->
    opt <> "" ->
    let r := clickBranchButton sf s i j k in
    nth_error (messages (fst r)) i = Some (withSelectedBranch msg opt) /\
    branchButtonDisabled (withSelectedBranch msg opt) = true /\
    (forall j' k', clickBranchButton sf (fst r) i j' k' = (fst r, NoCall)) /\
    (isLoading s = true -> snd r = NoCall).
Proof.
  intros sf s i j k msg opt Hnth Hopt Hen Hne r.
  assert (Er : r = handleSendMessage sf (setMessages s (markSelected opt (id msg)))
                                     (Some opt) (Some true) k).
  { subst r. unfold clickBranchButton. rewrite Hnth, Hopt, Hen. reflexivity. }
  assert (Hhit : nth_error (messages (fst r)) i = Some (withSelectedBranch msg opt)).
  { rewrite Er.
    destruct (handleSendMessage_appends
                sf (setMessages s (markSelected opt (id msg))) (Some opt) (Some true) k)
      as (added & ->).
    simpl. rewrite nth_error_app1.
    - now apply markSelected_hit.
    - rewrite markSelected_length. apply nth_error_Some. congruence. }
  assert (Hdis : branchButtonDisabled (withSelectedBranch msg opt) = true).
  { unfold branchButtonDisabled. simpl. destruct opt; [congruence | reflexivity]. }
  split; [exact Hhit|]. split; [exact Hdis|]. split.
  - intros j' k'. unfold clickBranchButton. rewrite Hhit, Hdis.
    now destruct (nth_error (branchButtons (withSelectedBranch msg opt)) j').
  - intros Hl. rewrite Er. now rewrite handleSendMessage_loading.
Qed.

Lemma clicked_prompt_is_disabled_witness :
  let s := Sample.secondPromptOpen ChatBot in
  let r := clickBranchButton ChatBot s 1 1 Sample.tick' in
  (exists msg, nth_error (messages s) 1 = Some msg /\
               nth_error (branchButtons msg) 1 = Some "D" /\
               branchButtonDisabled msg = false) /\
  snd r = NoCall /\
  clickBranchButton ChatBot (fst r) 1 0 Sample.tick' = (fst r, NoCall).
Proof.
  cbv zeta. split; [eexists; repeat split|].
  destruct (clicked_prompt_is_disabled
              ChatBot (Sample.secondPromptOpen ChatBot) 1 1 Sample.tick'
              (mkMessage "10010.5" bot "" 1001 None (Some true) (Some ["C"; "D"]) None)
              "D" eq_refl eq_refl eq_refl)
    as (_ & _ & Hagain & Hburn); [discriminate|].
  split; [now apply Hburn | apply Hagain].
Defined.

(** ** Speech *)

Section Speech.

Lemma append_assoc_string (a b c : string) :
  ((a ++ b) ++ c)%string = (a ++ (b ++ c))%string.
Proof. induction a as [|x a IH]; simpl; [reflexivity | now rewrite IH]. Qed.

Lemma append_empty_r (a : string) : (a ++ "")%string = a.
Proof. induction a as [|x a IH]; simpl; [reflexivity | now rewrite IH]. Qed.

Lemma concat_cons (x : string) (xs : list string) :
  String.concat "" (x :: xs) = (x ++ String.concat "" xs)%string.
Proof. destruct xs; simpl; [now rewrite append_empty_r | reflexivity]. Qed.

Lemma truthy_append (a b : string) :
  JS.truthy a = true -> JS.truthy (a ++ b)%string = true.
Proof. now destruct a. Qed.

Lemma speech_fold (s : State) (heard : list string) :
  JS.truthy (input s) = true ->
  input (fold_left onSpeechResult heard s)
  = (input s ++ String.concat "" (map (fun t => " " ++ t) heard))%string /\
  messages (fold_left onSpeechResult heard s) = messages s /\
  isLoading (fold_left onSpeechResult heard s) = isLoading s.
Proof.
  revert s. induction heard as [|t heard IH]; intros s Ht.
  - simpl. split; [now rewrite append_empty_r | split; reflexivity].
  - cbn [fold_left map].
    assert (Ht' : JS.truthy (input (onSpeechResult s t)) = true).
    { unfold onSpeechResult. simpl. now apply truthy_append. }
    destruct (IH (onSpeechResult s t) Ht') as (Hi & Hm & Hl).
    rewrite Hi, Hm, Hl, concat_cons.
    unfold onSpeechResult, setInput. cbn [input messages isLoading]. rewrite Ht.
    split; [|split; reflexivity].
    rewrite !append_assoc_string. reflexivity.
Qed.

Lemma concat_spaces (first : string) (rest : list string) :
  String.concat " " (first :: rest)
  = (first ++ String.concat "" (map (fun t => " " ++ t) rest))%string.
Proof.
  revert first. induction rest as [|t rest IH]; intros first.
  - simpl. now rewrite append_empty_r.
  - change (String.concat " " (first :: t :: rest))
      with (first ++ " " ++ String.concat " " (t :: rest))%string.
    rewrite IH. cbn [map]. rewrite concat_cons, !append_assoc_string. reflexivity.
Qed.

Lemma speech_frame (s : State) (heard : list string) :
  messages (fold_left onSpeechResult heard s) = messages s /\
  isLoading (fold_left onSpeechResult heard s) = isLoading s.
Proof.
  revert s. induction heard as [|t heard IH]; intros s; [split; reflexivity|].
  cbn [fold_left]. destruct (IH (onSpeechResult s t)) as (Hm & Hl).
  rewrite Hm, Hl. split; reflexivity.
Qed.

Lemma speech_from_text (s : State) (heard : list string) :
  input s <> "" ->
  input (fold_left onSpeechResult heard s) = String.concat " " (input s :: heard).
Proof.
  intros Hne.
  assert (Ht : JS.truthy (input s) = true)
    by (destruct (input s); [congruence | reflexivity]).
  destruct (speech_fold s heard Ht) as (Hi & _).
  now rewrite Hi, concat_spaces.
Qed.

Lemma speech_from_empty (heard : list string) :
  forall s, input s = "" ->
            input (fold_left onSpeechResult heard s)
            = String.concat " " (withoutLeadingEmpty heard).
Proof.
  induction heard as [|t heard IH]; intros s He; [exact He|].
  cbn [fold_left].
  assert (Hin : input (onSpeechResult s t) = t).
  { unfold onSpeechResult. cbn [input setInput]. now rewrite He. }
  destruct t as [|c t].
  - cbn [withoutLeadingEmpty]. now apply IH.
  - rewrite speech_from_text; rewrite Hin; [reflexivity | discriminate].
Qed.

End Speech.

(** X14: dictation is joined with single spaces, and an empty box adds
    none.  After any sequence of speech results the input box holds the
    text it had and the results, joined by one space each, where the empty
    texts at the front are left out: an empty box, and empty results that
    arrive while the box is still empty, leave no trace, so the text does
    not start with a space that was not typed.  Behind text every result
    adds a space, an empty result too.  Recognising speech touches neither
    the message list nor the loading flag. *)
Theorem speech_results_accumulate :
  forall (s : State) (results : list string),
    input (fold_left onSpeechResult results s)
    = String.concat " " (withoutLeadingEmpty (input s :: results)) /\
    (input s <> "" ->
     input (fold_left onSpeechResult results s)
     = String.concat " " (input s :: results)) /\
    (forall first rest,
        input s = "" -> results = first :: rest -> first <> "" ->
        input (fold_left onSpeechResult results s) = String.concat " " results) /\
    (forall rest,
        input s = "" ->
        input (fold_left onSpeechResult ("" :: rest) s)
        = input (fold_left onSpeechResult rest s)) /\
    messages (fold_left onSpeechResult results s) = messages s /\
    isLoading (fold_left onSpeechResult results s) = isLoading s.
Proof.
  intros s results.
  assert (Hall : input (fold_left onSpeechResult results s)
                 = String.concat " " (withoutLeadingEmpty (input s :: results))).
  { destruct (input s) as [|c t] eqn:E.
    - cbn [withoutLeadingEmpty]. now apply speech_from_empty.
    - cbn [withoutLeadingEmpty]. rewrite <- E. apply speech_from_text.
      rewrite E. discriminate. }
  split; [exact Hall|]. split; [|split; [|split]].
  - intros Hne. now apply speech_from_text.
  - intros first rest He -> Hne. rewrite Hall, He.
    destruct first; [congruence | reflexivity].
  - intros rest He. rewrite !speech_from_empty; auto.
  - apply speech_frame.
Qed.

Lemma speech_results_accumulate_witness :
  input (fold_left onSpeechResult [""; "what"; "time"; ""; "is it"] (initialState false))
  = "what time  is it" /\
  input (fold_left onSpeechResult ["what"; "time"] (setInput (initialState false) "so"))
  = "so what time".
Proof.
  split.
  - rewrite (proj1 (speech_results_accumulate
                      (initialState false) [""; "what"; "time"; ""; "is it"])).
    reflexivity.
  - rewrite (proj1 (proj2 (speech_results_accumulate
                             (setInput (initialState false) "so") ["what"; "time"]))).
    + reflexivity.
    + discriminate.
Defined.

(** X15: the Yes and No buttons are tied to any pause, not to their own
    prompt.  When an ok respond response that is not finished carries an
    awaiting-input descriptor, of whatever type, every earlier bot message
    that was built with the confirmation flag shows its Yes and No buttons
    (again), besides the messages of the new step. *)
Theorem confirmation_buttons_follow_any_pause :
  forall (sf : Surface) (s : State) (data : Data) (clk : nat -> Clock)
         (msg : Message) (a : AwaitingInput),
    In msg (messages s) ->
    JS.truthy_flag (showConfirmationButtons msg) = true ->
    sender msg = bot ->
    flowFinished s = false ->
    data_finished data = false ->
    data_awaitingInput data = Some a ->
    let r := fst (handleSendMessage_resume sf s (Response true data) clk) in
    In msg (messages r) /\
    currentPausedFor r = Some a /\
    confirmationButtonsShown r msg = true.
Proof.
  intros sf s data clk msg a Hin Hflag Hbot Hf Hdf Ha r.
  destruct (handleSendMessage_resume_ok sf s data clk)
    as (Hm & Hfin & Hp & _).
  fold r in Hm, Hfin, Hp. rewrite Hdf in Hm, Hfin, Hp. rewrite Ha in Hp.
  split; [|split].
  - rewrite Hm. apply in_or_app. now left.
  - exact Hp.
  - unfold confirmationButtonsShown, isAwaitingInput.
    rewrite Hflag, Hp, Hbot, Hfin, Hf. reflexivity.
Qed.

Lemma confirmation_buttons_follow_any_pause_witness :
  let confirm := mkData (Some "s1")
                        (Some [mkRaw (Some "confirmation") (Some "Shall I go on?")
                                     None (Some true) None])
                        (Some (mkAwait (Some "confirmation"))) false None None in
  let s0 := fst (initFlow ChatBot (initialState false) (Response true confirm)
                          (Sample.clock 1000)) in
  let s1 := fst (handleConfirmationClick ChatBot s0 "yes" Sample.tick) in
  let r := fst (handleSendMessage_resume ChatBot s1 (Response true Sample.questionStep)
                                         (Sample.clock 3500)) in
  (forall msg, confirmationButtonsShown s1 msg = false) /\
  exists msg, nth_error (messages r) 0 = Some msg /\
              text msg = "Shall I go on?" /\
              currentPausedFor r = Some (mkAwait (Some "question")) /\
              confirmationButtonsShown r msg = true.
Proof.
  cbv zeta. split.
  - intros msg. unfold confirmationButtonsShown. simpl. now rewrite andb_false_r.
  - eexists. split; [reflexivity|]. split; [reflexivity|].
    eapply (confirmation_buttons_follow_any_pause
              ChatBot _ Sample.questionStep (Sample.clock 3500) _
              (mkAwait (Some "question"))).
    + left. reflexivity.
    + reflexivity.
    + reflexivity.
    + reflexivity.
    + reflexivity.
    + reflexivity.
Defined.

(** ** The embed customizer *)

Section CustomizerFacts.

Import Customizer.

Lemma or_default_filled (x d : string) : x <> "" -> JS.or_default (Some x) d = x.
Proof. destruct x; [congruence | reflexivity]. Qed.

Lemma or_default_not_empty (v : option string) (d : string) :
  d <> "" -> JS.or_default v d <> "".
Proof.
  intros Hd. destruct v as [[|c x]|]; simpl; try exact Hd. discriminate.
Qed.

Lemma or_default_empty (d : string) : JS.or_default (Some "") d = d.
Proof. reflexivity. Qed.

Lemma title_not_empty (v : option string) (botName d : string) :
  d <> "" -> JS.or_default (JS.or_else v (Some botName)) d <> "".
Proof. intros Hd. now apply or_default_not_empty. Qed.

Lemma merge_complete (bot botName : string) (api : ApiCustomization) :
  complete (merge bot botName api).
Proof.
  unfold complete, visualFields, merge.
  repeat (apply Forall_cons; [cbn; first [apply title_not_empty
                                         | apply or_default_not_empty];
                              discriminate|]).
  apply Forall_nil.
Qed.

Lemma complete_roundtrip (c : EmbedCustomization) (botName : string) :
  complete c -> merge (botId c) botName (saved c) = c.
Proof.
  unfold complete, visualFields. intros H. destruct c. cbn in H.
  repeat match goal with
         | H : Forall _ (_ :: _) |- _ => inversion_clear H
         end.
  cbn in *.
  repeat match goal with
         | H : ?x <> "" |- _ => is_var x; destruct x; [congruence|]; clear H
         end.
  unfold merge, saved. cbn.
  repeat match goal with
         | |- context [JS.truthy ?a] => is_var a; destruct a
         end; reflexivity.
Qed.

Lemma fetch_complete (bot botName : string)
      (response : option (option ApiCustomization)) :
  complete (fetchCustomization bot botName response) /\
  botId (fetchCustomization bot botName response) = bot.
Proof.
  destruct response as [[api|]|]; unfold fetchCustomization.
  - split; [apply merge_complete | reflexivity].
  - split; [apply merge_complete | reflexivity].
  - split; [|reflexivity].
    change (resetValue bot botName) with (merge bot botName emptyApi).
    apply merge_complete.
Qed.

End CustomizerFacts.

(** X16: whatever the customisation endpoint returns (a record with any
    fields missing or empty, no record, or a failure), the customization
    the customizer ends up with has no empty visual field and carries the
    bot id of the dialog. *)
Theorem loaded_customization_is_complete :
  forall (bot botName : string)
         (response : option (option Customizer.ApiCustomization)),
    let c := Customizer.fetchCustomization bot botName response in
    Customizer.complete c /\ Customizer.botId c = bot.
Proof.
  intros bot botName response. cbv zeta. apply fetch_complete.
Qed.

(** X17: saving and loading is a round trip for a customization without
    empty visual fields: loading the record that was saved gives the same
    customization back, under any bot name.  So what a load produced is
    stable: saving it and loading it again changes nothing. *)
Theorem save_load_roundtrip :
  forall (c : Customizer.EmbedCustomization) (botName : string),
    Customizer.complete c ->
    Customizer.fetchCustomization (Customizer.botId c) botName
                                  (Some (Some (Customizer.saved c))) = c /\
    (forall bot name response,
        let loaded := Customizer.fetchCustomization bot name response in
        Customizer.fetchCustomization bot botName
                                      (Some (Some (Customizer.saved loaded)))
        = loaded).
Proof.
  intros c botName Hc. split.
  - now apply complete_roundtrip.
  - intros bot name response loaded.
    destruct (fetch_complete bot name response) as [Hl Hb].
    fold loaded in Hl, Hb. rewrite <- Hb at 1.
    now apply complete_roundtrip.
Qed.

Lemma save_load_roundtrip_witness :
  let c := Customizer.mkCustomization
             "bot-1" "Help desk" "Online" "Ask away" "#112233" "#ffffff" "#f1f5f9"
             "#3b82f6" "#f1f5f9" "#1e293b" "12" "Inter, sans-serif" "#ffffff"
             "" false
             "#000000" "#ffffff" "48" "50" "bottom-left" "24" "20" "16" "" true in
  Customizer.complete c /\
  Customizer.fetchCustomization "bot-1" "Some other name"
                                (Some (Some (Customizer.saved c))) = c.
Proof.
  cbv zeta.
  assert (Hc : Customizer.complete
                 (Customizer.mkCustomization
                    "bot-1" "Help desk" "Online" "Ask away" "#112233" "#ffffff" "#f1f5f9"
                    "#3b82f6" "#f1f5f9" "#1e293b" "12" "Inter, sans-serif" "#ffffff"
                    "" false
                    "#000000" "#ffffff" "48" "50" "bottom-left" "24" "20" "16" "" true)).
  { unfold Customizer.complete, Customizer.visualFields.
    repeat (apply Forall_cons; [discriminate|]). apply Forall_nil. }
  split; [exact Hc|].
  exact (proj1 (save_load_roundtrip _ "Some other name" Hc)).
Defined.

(** X18: an emptied visual field does not survive a save and a reload: it
    comes back with the value a reset gives it (the default, or for the
    title the bot name).  The custom style sheets and the two switches do
    survive, whatever they hold. *)
Theorem cleared_field_reverts :
  forall (c : Customizer.EmbedCustomization) (botName : string)
         (field : Customizer.EmbedCustomization -> string),
    In field Customizer.visualFields ->
    field c = "" ->
    let reloaded := Customizer.fetchCustomization
                      (Customizer.botId c) botName
                      (Some (Some (Customizer.saved c))) in
    field reloaded = field (Customizer.resetValue (Customizer.botId c) botName) /\
    field reloaded <> "" /\
    Customizer.chatCustomCSS reloaded = Customizer.chatCustomCSS c /\
    Customizer.buttonCustomCSS reloaded = Customizer.buttonCustomCSS c /\
    Customizer.useChatCustomCSS reloaded = Customizer.useChatCustomCSS c /\
    Customizer.useButtonCustomCSS reloaded = Customizer.useButtonCustomCSS c.
Proof.
  intros c botName field Hin Hempty reloaded.
  assert (Hkeep : Customizer.chatCustomCSS reloaded = Customizer.chatCustomCSS c /\
                  Customizer.buttonCustomCSS reloaded = Customizer.buttonCustomCSS c /\
                  Customizer.useChatCustomCSS reloaded = Customizer.useChatCustomCSS c /\
                  Customizer.useButtonCustomCSS reloaded
                  = Customizer.useButtonCustomCSS c).
  { subst reloaded. destruct c. cbn.
    repeat match goal with
           | |- context [JS.truthy ?a] => is_var a; destruct a
           end; repeat split. }
  assert (Hfield : field reloaded
                   = field (Customizer.resetValue (Customizer.botId c) botName)).
  { subst reloaded. unfold Customizer.visualFields in Hin. cbn in Hin.
    repeat (destruct Hin as [<-|Hin];
            [destruct c; cbn in Hempty; subst; reflexivity|]).
    contradiction. }
  split; [exact Hfield|]. split; [|exact Hkeep].
  rewrite Hfield.
  pose proof (proj1 (fetch_complete (Customizer.botId c) botName None)) as Hc.
  unfold Customizer.complete in Hc. rewrite Forall_forall in Hc.
  exact (Hc field Hin).
Qed.

Lemma cleared_field_reverts_witness :
  let c := Customizer.mkCustomization
             "bot-1" "Help desk" "Online" "" "#112233" "#ffffff" "#f1f5f9"
             "#3b82f6" "#f1f5f9" "#1e293b" "12" "Inter, sans-serif" "#ffffff"
             "" false
             "#000000" "#ffffff" "48" "50" "bottom-left" "24" "20" "16" "" true in
  In Customizer.placeholder Customizer.visualFields /\
  Customizer.placeholder c = "" /\
  Customizer.placeholder
    (Customizer.fetchCustomization "bot-1" "Desk"
                                   (Some (Some (Customizer.saved c))))
  = "Type your message...".
Proof.
  cbv zeta. split; [right; right; left; reflexivity|]. split; [reflexivity|].
  refine (proj1 (cleared_field_reverts
                   (Customizer.mkCustomization
                      "bot-1" "Help desk" "Online" "" "#112233" "#ffffff" "#f1f5f9"
                      "#3b82f6" "#f1f5f9" "#1e293b" "12" "Inter, sans-serif" "#ffffff"
                      "" false
                      "#000000" "#ffffff" "48" "50" "bottom-left" "24" "20" "16" "" true)
                   "Desk" Customizer.placeholder _ eq_refl)).
  right; right; left; reflexivity.
Defined.

(** X19: a bot without a saved record, a record without any field, a
    failed load and the Reset button all give one and the same
    customization: the defaults under the bot id, titled with the bot name
    when there is one. *)
Theorem reset_is_first_load :
  forall (bot botName : string),
    let reset := Customizer.resetValue bot botName in
    Customizer.fetchCustomization bot botName (Some None) = reset /\
    Customizer.fetchCustomization bot botName (Some (Some Customizer.emptyApi)) = reset /\
    Customizer.fetchCustomization bot botName None = reset /\
    Customizer.headerTitle reset = (if JS.truthy botName then botName
                                    else "Chat Assistant") /\
    (forall field, In field Customizer.visualFields ->
                   field <> Customizer.headerTitle ->
                   field reset = field (Customizer.defaultCustomization bot)).
Proof.
  intros bot botName reset. subst reset.
  split; [reflexivity|]. split; [reflexivity|]. split; [reflexivity|]. split.
  - destruct botName; reflexivity.
  - intros field Hin Hne. unfold Customizer.visualFields in Hin. cbn in Hin.
    destruct Hin as [<-|Hin]; [congruence|].
    repeat (destruct Hin as [<-|Hin]; [reflexivity|]). contradiction.
Qed.

Lemma reset_is_first_load_witness :
  In Customizer.placeholder Customizer.visualFields /\
  Customizer.placeholder (Customizer.resetValue "bot-1" "Desk")
  = "Type your message...".
Proof.
  assert (Hin : In Customizer.placeholder Customizer.visualFields).
  { right; right; left; reflexivity. }
  split; [exact Hin|].
  rewrite (proj2 (proj2 (proj2 (proj2 (reset_is_first_load "bot-1" "Desk"))))
             Customizer.placeholder Hin).
  - reflexivity.
  - intros H.
    apply (f_equal (fun field => field (Customizer.resetValue "bot-1" "Desk"))) in H.
    discriminate H.
Defined.

(** ** Custom CSS of the embed page *)

Section CustomCSSFacts.

Import CustomCSS.

Lemma removeById_clean (doc : list Node) :
  clean doc -> removeById styleId doc = doc.
Proof.
  unfold clean. induction 1 as [|n doc Hn _ IH]; simpl; [reflexivity|].
  apply String.eqb_neq in Hn. rewrite Hn. now rewrite IH.
Qed.

Lemma removeById_own (doc : list Node) (css : string) :
  clean doc -> removeById styleId (doc ++ [mkNode styleId css]) = doc.
Proof.
  unfold clean. induction 1 as [|n doc Hn _ IH]; simpl.
  - reflexivity.
  - apply String.eqb_neq in Hn. rewrite Hn. now rewrite IH.
Qed.

Lemma runEffect_shaped (doc0 : list Node) (d : Deps) :
  clean doc0 ->
  shaped doc0 (mkMounted (fst (runEffect d doc0)) d (snd (runEffect d doc0))).
Proof.
  intros Hc. unfold shaped, runEffect. simpl.
  destruct (enabled d); simpl; rewrite (removeById_clean doc0 Hc);
    [split; reflexivity | split; [now rewrite app_nil_r | reflexivity]].
Qed.

Lemma unmount_shaped (doc0 : list Node) (m : Mounted) :
  clean doc0 -> shaped doc0 m -> unmount m = doc0.
Proof.
  intros Hc [Hp Hh]. unfold unmount, cleanup. rewrite Hh, Hp.
  destruct (enabled (deps m)).
  - now apply removeById_own.
  - apply app_nil_r.
Qed.

Lemma render_shaped (doc0 : list Node) (m : Mounted) (d : Deps) :
  clean doc0 -> shaped doc0 m -> shaped doc0 (render m d).
Proof.
  intros Hc Hs. unfold render.
  destruct (deps_eqb (deps m) d); [exact Hs|].
  change (if hasCleanup m then cleanup (page m) else page m) with (unmount m).
  rewrite (unmount_shaped doc0 m Hc Hs). now apply runEffect_shaped.
Qed.

Lemma deps_eqb_eq (a b : Deps) : deps_eqb a b = true -> a = b.
Proof.
  destruct a as [a1 a2], b as [b1 b2]. unfold deps_eqb. simpl.
  intros H. apply andb_true_iff in H as [H1 H2].
  assert (E1 : a1 = b1).
  { destruct a1, b1; try discriminate H1; [|reflexivity].
    apply Bool.eqb_prop in H1. now subst. }
  assert (E2 : a2 = b2).
  { destruct a2, b2; try discriminate H2; [|reflexivity].
    apply String.eqb_eq in H2. now subst. }
  now subst.
Qed.

Lemma render_deps (m : Mounted) (d : Deps) : deps (render m d) = d.
Proof.
  unfold render. destruct (deps_eqb (deps m) d) eqn:E; [|reflexivity].
  now apply deps_eqb_eq.
Qed.

Lemma last_cons_default (x : Deps) (l : list Deps) (d d' : Deps) :
  last (x :: l) d = last (d' :: x :: l) d'.
Proof.
  change (last (d' :: x :: l) d') with (last (x :: l) d').
  revert x. induction l as [|y l IH]; intros x; [reflexivity|].
  change (last (x :: y :: l) d) with (last (y :: l) d).
  change (last (x :: y :: l) d') with (last (y :: l) d'). apply IH.
Qed.

End CustomCSSFacts.

(** X20: the embed page keeps at most one style element of its own.  On a
    page that has no element with the id ["embed-custom-css"], after the
    mount and any number of customization changes, the children of the
    head are the foreign nodes, untouched and in order, followed by exactly
    one style element holding the current style sheet when custom CSS is
    switched on with a non-empty sheet, and by nothing otherwise; an
    unmount gives the page back as it was. *)
Theorem custom_css_single_style_tag :
  forall (doc0 : list CustomCSS.Node) (d0 : CustomCSS.Deps)
         (changes : list CustomCSS.Deps),
    CustomCSS.clean doc0 ->
    let m := fold_left CustomCSS.render changes (CustomCSS.mount d0 doc0) in
    CustomCSS.deps m = last changes d0 /\
    CustomCSS.page m
    = doc0 ++ (if CustomCSS.enabled (CustomCSS.deps m)
               then [CustomCSS.mkNode CustomCSS.styleId
                                      (CustomCSS.cssOf (CustomCSS.deps m))]
               else []) /\
    CustomCSS.unmount m = doc0.
Proof.
  intros doc0 d0 changes Hc m.
  assert (H : forall m0 d, CustomCSS.deps m0 = d -> CustomCSS.shaped doc0 m0 ->
                           let m1 := fold_left CustomCSS.render changes m0 in
                           CustomCSS.deps m1 = last changes d /\ CustomCSS.shaped doc0 m1).
  { clear m. induction changes as [|c changes IH]; intros m0 d Hd Hs; simpl.
    - now split.
    - destruct (IH (CustomCSS.render m0 c) c (render_deps m0 c)
                   (render_shaped doc0 m0 c Hc Hs)) as [Hd' Hs'].
      split; [|exact Hs']. rewrite Hd'.
      destruct changes as [|d1 changes]; [reflexivity|].
      apply last_cons_default. }
  destruct (H (CustomCSS.mount d0 doc0) d0 eq_refl (runEffect_shaped doc0 d0 Hc))
    as [Hd Hs].
  fold m in Hd, Hs. split; [exact Hd|]. split; [exact (proj1 Hs)|].
  now apply (unmount_shaped doc0).
Qed.

Lemma custom_css_single_style_tag_witness :
  let doc0 := [CustomCSS.mkNode "theme" "body { margin: 0 }"] in
  let changes := [(Some true, Some ".embed-input { color: red }");
                  (Some true, Some ".embed-input { color: blue }")] in
  CustomCSS.clean doc0 /\
  CustomCSS.page (fold_left CustomCSS.render changes (CustomCSS.mount (None, None) doc0))
  = [CustomCSS.mkNode "theme" "body { margin: 0 }";
     CustomCSS.mkNode "embed-custom-css" ".embed-input { color: blue }"].
Proof.
  cbv zeta.
  assert (Hc : CustomCSS.clean [CustomCSS.mkNode "theme" "body { margin: 0 }"]).
  { constructor; [discriminate | constructor]. }
  split; [exact Hc|].
  exact (proj1 (proj2 (custom_css_single_style_tag
                         [CustomCSS.mkNode "theme" "body { margin: 0 }"]
                         (None, None)
                         [(Some true, Some ".embed-input { color: red }");
                          (Some true, Some ".embed-input { color: blue }")] Hc))).
Defined.

(** ** The button preview *)

Section ButtonPreviewFacts.

Import ButtonPreview.

Local Abbreviation go skip s :=
  (replaceAllFrom skip productionSelector previewSelector s).

(** Behind the replacement the search goes on as on the rest. *)
Lemma occurs_behind_replacement (x : string) :
  JS.occurs productionSelector (previewSelector ++ x)%string
  = JS.occurs productionSelector x.
Proof. reflexivity. Qed.

Lemma prefix_hash (q : ascii) (Q y : string) :
  Ascii.eqb q "#" = false ->
  String.prefix (String q Q) (String "#" y) = false.
Proof.
  intros Hq. cbn [String.prefix].
  destruct (ascii_dec q "#") as [->|_]; [discriminate Hq | reflexivity].
Qed.

(** An output that begins with a hash-free text comes from an input that
    begins with it. *)
Lemma prefix_reflected (Q : string) :
  hashFree Q = true ->
  forall r, String.prefix Q (go 0 r) = true -> String.prefix Q r = true.
Proof.
  induction Q as [|q Q IH]; intros HQ r H.
  - now destruct r.
  - cbn [hashFree] in HQ. apply andb_true_iff in HQ as [Hq HQ].
    apply negb_true_iff in Hq.
    destruct r as [|c r]; [discriminate H|].
    cbn [replaceAllFrom] in H.
    destruct (String.prefix productionSelector (String c r)) eqn:Hp.
    + change (previewSelector ++ ?x)%string
        with (String "#" ("preview-button" ++ x)%string) in H.
      now rewrite (prefix_hash q Q _ Hq) in H.
    + cbn [String.prefix] in H |- *.
      destruct (ascii_dec q c); [|discriminate H].
      now apply IH.
Qed.

Lemma replaceAllFrom_clean (s : string) :
  forall skip, JS.occurs productionSelector (go skip s) = false.
Proof.
  induction s as [|c r IH]; intros skip.
  - reflexivity.
  - cbn [replaceAllFrom]. destruct skip as [|n]; [|apply IH].
    destruct (String.prefix productionSelector (String c r)) eqn:Hp.
    + rewrite occurs_behind_replacement. apply IH.
    + cbn [JS.occurs]. rewrite (IH 0%nat), orb_false_r.
      unfold productionSelector in Hp |- *.
      cbn [String.prefix] in Hp |- *.
      destruct (ascii_dec "#" c); [|reflexivity].
      match goal with |- ?x = false => destruct x eqn:E end; [|reflexivity].
      apply prefix_reflected in E; [congruence | reflexivity].
Qed.

Lemma replaceAllFrom_absent (s : string) :
  JS.occurs productionSelector s = false -> go 0 s = s.
Proof.
  induction s as [|c r IH]; intros H; [reflexivity|].
  cbn [JS.occurs] in H. apply orb_false_iff in H as [Hp Hr].
  cbn [replaceAllFrom]. rewrite Hp. now rewrite IH.
Qed.

(** A hash-free text that begins before a hash sign ends before it. *)
Lemma prefix_across (Q : string) :
  hashFree Q = true ->
  forall p z, String.prefix Q (p ++ String "#" z)%string = true ->
              String.prefix Q p = true.
Proof.
  induction Q as [|q Q IH]; intros HQ p z H; [now destruct p|].
  cbn [hashFree] in HQ. apply andb_true_iff in HQ as [Hq HQ].
  apply negb_true_iff in Hq.
  destruct p as [|a p].
  - cbn [append] in H. now rewrite (prefix_hash q Q z Hq) in H.
  - cbn [append String.prefix] in H |- *.
    destruct (ascii_dec q a); [|discriminate H].
    now apply (IH HQ p z).
Qed.

(** The selector has a hash sign at its front only, so no occurrence
    begins inside a text without one and runs into the next. *)
Lemma no_overlap (c : ascii) (p rest : string) :
  String.prefix productionSelector (String c p) = false ->
  String.prefix productionSelector
                (String c (p ++ productionSelector ++ rest))%string = false.
Proof.
  unfold productionSelector. intros Hp.
  cbn [String.prefix] in Hp |- *.
  destruct (ascii_dec "#" c); [|reflexivity].
  match goal with |- ?x = false => destruct x eqn:E end; [|reflexivity].
  apply (prefix_across "chatbot-widget-button" eq_refl p
                       ("chatbot-widget-button" ++ rest)%string) in E.
  congruence.
Qed.

Lemma replaceAllFrom_unfold (c : ascii) (r : string) :
  go 0 (String c r)
  = if String.prefix productionSelector (String c r)
    then (previewSelector ++ go (String.length productionSelector - 1) r)%string
    else String c (go 0 r).
Proof. reflexivity. Qed.

Lemma replaceAllFrom_skip (rest : string) :
  go 21 ("chatbot-widget-button" ++ rest)%string = go 0 rest.
Proof. reflexivity. Qed.

Lemma replaceAllFrom_selector (rest : string) :
  go 0 (productionSelector ++ rest)%string = (previewSelector ++ go 0 rest)%string.
Proof.
  change (productionSelector ++ rest)%string
    with (String "#" ("chatbot-widget-button" ++ rest))%string.
  rewrite replaceAllFrom_unfold.
  change (String "#" ("chatbot-widget-button" ++ rest))%string
    with (productionSelector ++ rest)%string.
  rewrite JSFacts.prefix_app.
  apply (f_equal (fun x => previewSelector ++ x)%string).
  apply replaceAllFrom_skip.
Qed.

(** One piece and the selector behind it. *)
Lemma replaceAllFrom_piece (p rest : string) :
  JS.occurs productionSelector p = false ->
  go 0 (p ++ productionSelector ++ rest)%string
  = (p ++ previewSelector ++ go 0 rest)%string.
Proof.
  induction p as [|c p IH]; intros H.
  - apply replaceAllFrom_selector.
  - cbn [JS.occurs] in H. apply orb_false_iff in H as [Hp Hr].
    change (String c p ++ productionSelector ++ rest)%string
      with (String c (p ++ productionSelector ++ rest))%string.
    rewrite replaceAllFrom_unfold, (no_overlap c p rest Hp).
    rewrite (IH Hr). reflexivity.
Qed.

(** Pieces joined by the production selector come out joined by the
    preview selector. *)
Lemma replaceAllFrom_pieces (parts : list string) :
  Forall (fun p => JS.occurs productionSelector p = false) parts ->
  go 0 (String.concat productionSelector parts)
  = String.concat previewSelector parts.
Proof.
  induction 1 as [|x l Hx Hl IH]; [reflexivity|].
  destruct l as [|y l].
  - now apply replaceAllFrom_absent.
  - change (String.concat productionSelector (x :: y :: l))
      with (x ++ productionSelector ++ String.concat productionSelector (y :: l))%string.
    change (String.concat previewSelector (x :: y :: l))
      with (x ++ previewSelector ++ String.concat previewSelector (y :: l))%string.
    rewrite (replaceAllFrom_piece x _ Hx). now rewrite IH.
Qed.

Lemma concat_head (sep : string) (c : ascii) (p : string) (ps : list string) :
  String.concat sep (String c p :: ps) = String c (String.concat sep (p :: ps)).
Proof. destruct ps; reflexivity. Qed.

Lemma concat_app_head (sep a x : string) (ps : list string) :
  String.concat sep ((a ++ x)%string :: ps)
  = (a ++ String.concat sep (x :: ps))%string.
Proof.
  destruct ps; [reflexivity|].
  cbn [String.concat]. apply append_assoc_string.
Qed.

Lemma prefix_split (p s : string) :
  String.prefix p s = true -> exists t, s = (p ++ t)%string.
Proof.
  revert s. induction p as [|a p IH]; intros s H.
  - now exists s.
  - destruct s as [|b s]; [discriminate H|]. cbn [String.prefix] in H.
    destruct (ascii_dec a b) as [->|]; [|discriminate H].
    destruct (IH s H) as (t & ->). now exists t.
Qed.

Lemma occurs_suffix (P x t : string) :
  JS.occurs P (x ++ t)%string = false -> JS.occurs P t = false.
Proof.
  induction x as [|c x IH]; intros H; [exact H|].
  cbn [append JS.occurs] in H. apply orb_false_iff in H as [_ H]. now apply IH.
Qed.

(** Every text is made of pieces without the selector, joined by it. *)
Lemma pieces_exist (s : string) :
  exists p0 ps,
    Forall (fun p => JS.occurs productionSelector p = false) (p0 :: ps) /\
    s = String.concat productionSelector (p0 :: ps).
Proof.
  induction s as [|c r IH].
  - exists "", []. split; [|reflexivity].
    apply Forall_cons; [reflexivity | apply Forall_nil].
  - destruct IH as (p0 & ps & Hall & ->).
    inversion_clear Hall as [|? ? Hp0 Hps].
    rewrite <- concat_head.
    destruct (String.prefix productionSelector (String c p0)) eqn:Hpre.
    + destruct (prefix_split _ _ Hpre) as (t & Ht).
      exists "", (t :: ps). split.
      * apply Forall_cons; [reflexivity|]. apply Forall_cons; [|exact Hps].
        unfold productionSelector in Ht. cbn [append] in Ht.
        injection Ht as _ Ht. rewrite Ht in Hp0.
        now apply (occurs_suffix _ "chatbot-widget-button" t).
      * rewrite Ht, concat_app_head. reflexivity.
    + exists (String c p0), ps. split; [|reflexivity].
      apply Forall_cons; [|exact Hps].
      cbn [JS.occurs]. now rewrite Hpre, Hp0.
Qed.

End ButtonPreviewFacts.

(** X21: the style sheet of the button preview is the custom CSS with
    every ["#chatbot-widget-button"] turned into ["#preview-button"].
    Every sheet is made of pieces that do not contain the production
    selector, joined by it; for a sheet in use the text put into the
    preview is the same pieces joined by the preview selector.  So the
    preview never names the production button, whatever was typed and
    whether or not custom CSS is switched on, and a sheet that never named
    it is used as it is. *)
Theorem preview_never_styles_production_button :
  forall (useButtonCustomCSS : bool) (buttonCustomCSS : string),
    JS.occurs ButtonPreview.productionSelector
              (ButtonPreview.previewStyle useButtonCustomCSS buttonCustomCSS)
    = false /\
    (useButtonCustomCSS = true -> buttonCustomCSS <> "" ->
     JS.occurs ButtonPreview.productionSelector buttonCustomCSS = false ->
     ButtonPreview.previewStyle useButtonCustomCSS buttonCustomCSS = buttonCustomCSS) /\
    (forall parts : list string,
        Forall (fun p => JS.occurs ButtonPreview.productionSelector p = false) parts ->
        buttonCustomCSS = String.concat ButtonPreview.productionSelector parts ->
        useButtonCustomCSS = true -> buttonCustomCSS <> "" ->
        ButtonPreview.previewStyle useButtonCustomCSS buttonCustomCSS
        = String.concat ButtonPreview.previewSelector parts) /\
    (exists parts : list string,
        Forall (fun p => JS.occurs ButtonPreview.productionSelector p = false) parts /\
        buttonCustomCSS = String.concat ButtonPreview.productionSelector parts).
Proof.
  intros use css. unfold ButtonPreview.previewStyle.
  split; [|split; [|split]].
  - destruct (use && JS.truthy css).
    + apply replaceAllFrom_clean.
    + reflexivity.
  - intros -> Hne Habs.
    destruct css as [|c css]; [congruence|]. simpl andb. cbv iota.
    now apply replaceAllFrom_absent.
  - intros parts Hparts Hcss -> Hne.
    assert (Ht : JS.truthy css = true) by (destruct css; [congruence | reflexivity]).
    rewrite Ht. simpl andb. cbv iota.
    rewrite Hcss. now apply replaceAllFrom_pieces.
  - destruct (pieces_exist css) as (p0 & ps & Hall & Hcss).
    now exists (p0 :: ps).
Qed.

Lemma preview_never_styles_production_button_witness :
  let parts := [""; " { width: 40px } "; ":hover { opacity: 1 }"] in
  String.concat ButtonPreview.productionSelector parts
  = "#chatbot-widget-button { width: 40px } #chatbot-widget-button:hover { opacity: 1 }" /\
  ButtonPreview.previewStyle
    true "#chatbot-widget-button { width: 40px } #chatbot-widget-button:hover { opacity: 1 }"
  = "#preview-button { width: 40px } #preview-button:hover { opacity: 1 }".
Proof.
  cbv zeta. split; [reflexivity|].
  rewrite (proj1 (proj2 (proj2 (preview_never_styles_production_button
                                  true
                                  "#chatbot-widget-button { width: 40px } #chatbot-widget-button:hover { opacity: 1 }")))
             [""; " { width: 40px } "; ":hover { opacity: 1 }"]).
  - reflexivity.
  - repeat (apply Forall_cons; [reflexivity|]). apply Forall_nil.
  - reflexivity.
  - reflexivity.
  - discriminate.
Defined.

(** ** Inline styles and the custom style sheet *)

Section EmbedStylesFacts.

Import EmbedStyles.

Lemma helpers_switched (c : Customization) :
  switched c = true -> Forall (fun helper => helper c = []) styleHelpers.
Proof.
  intros H. unfold styleHelpers.
  repeat (apply Forall_cons;
          [unfold getContainerStyle, getHeaderStyle, getBotIconStyle,
             getUserMessageStyle, getBotMessageStyle, getInputStyle,
             getSendButtonStyle; now rewrite H|]).
  apply Forall_nil.
Qed.

Lemma enabled_depsOf (c : Customization) :
  CustomCSS.enabled (depsOf c) = switched c && JS.truthy_opt (sheet c).
Proof. reflexivity. Qed.

End EmbedStylesFacts.

(** X22: the custom style sheet and the inline styles of the seven style
    helpers are never on the page together, and the switch alone decides
    about the helpers.  With [useChatCustomCSS] on, every helper gives the
    empty style, and the style element is there exactly when the sheet is
    not empty: with the switch on and an empty or missing sheet the page
    has neither.  With the switch off or no customization there is no
    style element, whatever the sheet holds.  The option buttons and the
    "Q&A Mode" badge do not look at the switch: a primary colour stays
    their inline colour. *)
Theorem custom_css_switch_drops_helper_styles :
  forall (c : EmbedStyles.Customization) (doc0 : list CustomCSS.Node),
    CustomCSS.clean doc0 ->
    let shown := CustomCSS.page (CustomCSS.mount (EmbedStyles.depsOf c) doc0) in
    (EmbedStyles.switched c = true ->
     Forall (fun helper => helper c = []) EmbedStyles.styleHelpers /\
     shown = doc0 ++
             (if JS.truthy_opt (EmbedStyles.sheet c)
              then [CustomCSS.mkNode CustomCSS.styleId
                                     (CustomCSS.cssOf (EmbedStyles.depsOf c))]
              else [])) /\
    (EmbedStyles.switched c = false -> shown = doc0) /\
    (shown <> doc0 ->
     Forall (fun helper => helper c = []) EmbedStyles.styleHelpers) /\
    (forall (r : EmbedStyles.PageCustomization) (msg : Message) (opt : string),
        c = Some r -> EmbedStyles.primaryColor r <> "" ->
        In ("color", EmbedStyles.primaryColor r)
           (EmbedStyles.declared (EmbedStyles.branchOptionStyle c msg opt)) /\
        In ("color", EmbedStyles.primaryColor r)
           (EmbedStyles.declared (EmbedStyles.badgeStyle c))).
Proof.
  intros c doc0 Hclean shown.
  assert (Hshown : shown = doc0 ++
                   (if EmbedStyles.switched c && JS.truthy_opt (EmbedStyles.sheet c)
                    then [CustomCSS.mkNode CustomCSS.styleId
                                           (CustomCSS.cssOf (EmbedStyles.depsOf c))]
                    else [])).
  { subst shown. unfold CustomCSS.mount, CustomCSS.runEffect.
    rewrite enabled_depsOf. cbn [CustomCSS.page].
    destruct (EmbedStyles.switched c && JS.truthy_opt (EmbedStyles.sheet c));
      cbn [fst]; rewrite (removeById_clean doc0 Hclean);
      [reflexivity | now rewrite app_nil_r]. }
  split; [|split; [|split]].
  - intros Hs. split; [now apply helpers_switched|].
    rewrite Hshown, Hs. reflexivity.
  - intros Hs. rewrite Hshown, Hs. apply app_nil_r.
  - intros Hne. apply helpers_switched.
    destruct (EmbedStyles.switched c); [reflexivity|].
    exfalso. apply Hne. rewrite Hshown. apply app_nil_r.
  - intros r msg opt -> Hp.
    assert (Hcolor : EmbedStyles.orUndefined
                       (EmbedStyles.read (Some r) EmbedStyles.primaryColor)
                     = Some (EmbedStyles.primaryColor r)).
    { unfold EmbedStyles.orUndefined, EmbedStyles.read. cbn [option_map].
      destruct (EmbedStyles.primaryColor r); [congruence | reflexivity]. }
    unfold EmbedStyles.branchOptionStyle, EmbedStyles.badgeStyle.
    rewrite !Hcolor. unfold EmbedStyles.declared. split.
    + cbn [flat_map]. apply in_or_app. right. apply in_or_app. right.
      left. reflexivity.
    + cbn [flat_map]. apply in_or_app. right. left. reflexivity.
Qed.

Lemma custom_css_switch_drops_helper_styles_witness :
  let r := EmbedStyles.mkPage "Help desk" "Online" "Ask away" "#112233" "#ffffff"
                              "#3b82f6" "#f1f5f9" "#1e293b" "12" "Inter" "#ffffff"
                              (Some "") (Some true) in
  let doc0 := [CustomCSS.mkNode "theme" "body { margin: 0 }"] in
  CustomCSS.clean doc0 /\
  Forall (fun helper => helper (Some r) = []) EmbedStyles.styleHelpers /\
  CustomCSS.page (CustomCSS.mount (EmbedStyles.depsOf (Some r)) doc0) = doc0.
Proof.
  cbv zeta.
  assert (Hc : CustomCSS.clean [CustomCSS.mkNode "theme" "body { margin: 0 }"]).
  { apply Forall_cons; [discriminate | apply Forall_nil]. }
  split; [exact Hc|].
  exact (proj1 (custom_css_switch_drops_helper_styles
                  (Some (EmbedStyles.mkPage
                           "Help desk" "Online" "Ask away" "#112233" "#ffffff"
                           "#3b82f6" "#f1f5f9" "#1e293b" "12" "Inter" "#ffffff"
                           (Some "") (Some true)))
                  [CustomCSS.mkNode "theme" "body { margin: 0 }"] Hc) eq_refl).
Defined.
